(** * Pump Pot reward verifier: [verify_cycle.py]

    A shallow embedding of the reward calculation of [verify_cycle.py]
    ([_weighted_choice] and [calculate_all_rewards_from_package]) and the
    properties of it that the specification states.

    - Wallet addresses are strings, compared as Python compares [str]:
      character by character, by code.
    - A Python dictionary is an association list in insertion order; its
      keys are unique ([dict_wf]). A Python [set] is a duplicate-free
      list together with an enumeration order that the program does not
      control ([SetOrder]).
    - A row of statistics may lack any of its fields; reading a field
      that is not there raises [KeyError]. Holders and rules have all
      their fields. The starting balances map wallets to numbers; the
      value under the key [_start_signature] is never read
      ([start_signature_value_unread]).
    - [float] arithmetic, [sum] included, is kept abstract (class
      [Numeric]): the general theorems hold for every interpretation of
      the operators. The instance over [Q] runs the model on concrete
      packages.
    - The generator of Python's [random] module is a state threaded
      through the calculation (class [Generator]), together with the
      list of the calls made to it.

    The functions around the calculation follow it:
    [print_winner_report] over dictionaries of values, with one
    constructor of [Line] for each [print] call;
    [prepare_data_for_calculation] over the rows of the three tables;
    [load_verification_package] over a [Loader.World] that answers for
    the file system and the parsers. *)

From Stdlib Require Import String Ascii List Bool Arith Lia.
From Stdlib Require Import Permutation Sorted OrderedTypeEx.
From Stdlib Require Import ZArith QArith Lqa.
Import ListNotations.

Local Open Scope string_scope.
Local Open Scope list_scope.
Local Open Scope nat_scope.

Set Implicit Arguments.

(** ** Python built-ins used by the script *)

Module Py.

(** [sorted(l, key=key)] with string keys: a stable sort by [<=]. *)
Section Sorting.
Context {A : Type} (key : A -> string).

Fixpoint insert_by (x : A) (l : list A) : list A :=
  match l with
  | [] => [x]
  | y :: tl =>
      if String.leb (key x) (key y) then x :: y :: tl
      else y :: insert_by x tl
  end.

Fixpoint sorted (l : list A) : list A :=
  match l with
  | [] => []
  | x :: tl => insert_by x (sorted tl)
  end.
End Sorting.

(** Dictionaries with string keys, in insertion order. *)
Section Dict.
Context {V : Type}.

Definition dict := list (string * V).

(** [d.get(k)] *)
Fixpoint dict_get (d : dict) (k : string) : option V :=
  match d with
  | [] => None
  | (k', v) :: tl => if String.eqb k k' then Some v else dict_get tl k
  end.

(** [d.get(k, default)] *)
Definition dict_get_default (d : dict) (k : string) (default : V) : V :=
  match dict_get d k with
  | Some v => v
  | None => default
  end.

(** [d[k] = v]: an existing key keeps its place, a new key goes last. *)
Fixpoint dict_set (d : dict) (k : string) (v : V) : dict :=
  match d with
  | [] => [(k, v)]
  | (k', v') :: tl =>
      if String.eqb k k' then (k', v) :: tl
      else (k', v') :: dict_set tl k v
  end.

Definition keys (d : dict) : list string := map fst d.
End Dict.
Arguments dict : clear implicits.

(** [w in s] for a set of strings. *)
Definition set_mem (w : string) (s : list string) : bool :=
  existsb (String.eqb w) s.

(** [{x for x in l}]: the elements of [l], each once. *)
Definition set_of (l : list string) : list string :=
  nodup string_dec l.

(** Truth value of an [Optional[str]]: [None] and [''] are false. *)
Definition truthy (o : option string) : bool :=
  match o with
  | None => false
  | Some EmptyString => false
  | Some (String _ _) => true
  end.

(** [l[-1]] when [l] is not empty. *)
Fixpoint last_item {A : Type} (l : list A) : option A :=
  match l with
  | [] => None
  | [x] => Some x
  | _ :: tl => last_item tl
  end.

End Py.

(** The order in which a Python process enumerates a [set] of strings
    depends on its string hashing, which changes from one process to the
    next: all the program knows is that every element comes once. *)
Record SetOrder : Type := {
  enum : list string -> list string;
  enum_perm : forall l, Permutation (enum l) l
}.

(** ** Numbers *)

(** The operators of [float] (and of the integer literals mixed with
    them) that the script uses. *)
Class Numeric (F : Type) : Type := {
  zero : F;                  (* 0, 0.0 *)
  one : F;                   (* 1, 1.0 *)
  quarter : F;               (* 0.25 *)
  hundred : F;               (* 100, 100.0 *)
  of_nat : nat -> F;         (* a length used in a division *)
  add : F -> F -> F;
  sub : F -> F -> F;
  mul : F -> F -> F;
  div : F -> F -> F;
  geb : F -> F -> bool;      (* >= *)
  gtb : F -> F -> bool;      (* > *)
  eqb : F -> F -> bool;      (* == *)
  sum : list F -> F          (* the built-in sum() of a list of weights *)
}.

(** ** The pseudo-random generator *)

(** What the script needs of Python's [random]: [seed] replaces the whole
    state, [random()] yields a number and [_randbelow(n)] an index below
    [n]. *)
Class Generator (F G : Type) : Type := {
  rng_seed : string -> G;
  rng_random : G -> F * G;
  rng_randbelow : nat -> G -> nat * G;
  rng_randbelow_lt : forall n g, 0 < n -> fst (rng_randbelow n g) < n
}.

(** Calls made to the [random] module. *)
Inductive Call (F : Type) : Type :=
| CallSeed (s : string)
| CallUniform (a b : F)
| CallChoice (n : nat).
Arguments CallSeed {F} s.
Arguments CallUniform {F} a b.
Arguments CallChoice {F} n.

Definition is_seed {F : Type} (c : Call F) : bool :=
  match c with
  | CallSeed _ => true
  | _ => false
  end.

(** ** Exceptions and the calculation monad *)

Inductive Exn : Type :=
| KeyError (key : string)
| IndexError.

Inductive Res (A : Type) : Type :=
| Ok (a : A)
| Raise (e : Exn).
Arguments Ok {A} a.
Arguments Raise {A} e.

Definition res_map {A B : Type} (f : A -> B) (r : Res A) : Res B :=
  match r with
  | Ok a => Ok (f a)
  | Raise e => Raise e
  end.

(** [row[name]] for a field that the row may lack. *)
Definition field {A : Type} (name : string) (v : option A) : Res A :=
  match v with
  | Some x => Ok x
  | None => Raise (KeyError name)
  end.

(** State of the [random] module: the generator and the calls so far. *)
Record St (F G : Type) : Type := {
  gen : G;
  calls : list (Call F)
}.

Section Monad.
Context {F G : Type}.

(** A computation reads and updates the [random] state and returns a
    value or raises; an exception leaves the state as it was then. *)
Definition M (A : Type) : Type := St F G -> Res A * St F G.

Definition ret {A : Type} (a : A) : M A := fun st => (Ok a, st).

Definition raise {A : Type} (e : Exn) : M A := fun st => (Raise e, st).

Definition bind {A B : Type} (c : M A) (k : A -> M B) : M B :=
  fun st =>
    match c st with
    | (Ok a, st') => k a st'
    | (Raise e, st') => (Raise e, st')
    end.

Definition lift {A : Type} (r : Res A) : M A := fun st => (r, st).
End Monad.

Declare Scope py_scope.
Delimit Scope py_scope with py.
Notation "x <- c ;; k" := (bind c (fun x => k))
  (at level 61, c at next level, right associativity) : py_scope.
Notation "c ;; k" := (bind c (fun _ => k))
  (at level 61, right associativity) : py_scope.

(** ** Data model *)

Definition start_signature_key : string := "_start_signature".

(** An entry of [token_holders]. *)
Record TokenHolder (F : Type) : Type := {
  address : string;
  amount : F
}.

(** A row of [cycle_stats_snapshot]; [None] is a key that the row lacks.
    [largest_buy_tx] holds a signature or [None]. *)
Record CycleStat (F : Type) : Type := {
  total_volume : option F;
  largest_buy : option F;
  largest_buy_tx : option (option string);
  buys : option F;
  sells : option F
}.

Record Rules (F : Type) : Type := {
  min_eligible_holding_amount : F;
  min_trade_volume : F
}.

(** The winner records of the four categories. *)
Record PowerBuyerWin (F : Type) : Type := {
  pb_wallet : string;
  pb_metric : F;
  pb_tx_signature : option string;
  pb_win_chance_percent : F
}.

Record VolumeKingWin (F : Type) : Type := {
  vk_wallet : string;
  vk_metric : F;
  vk_buys : F;
  vk_sells : F;
  vk_win_chance_percent : F
}.

Record ActiveHolderWin (F : Type) : Type := {
  ah_wallet : string;
  ah_metric : F;
  ah_final_balance : F;
  ah_start_balance : F;
  ah_win_chance_percent : F
}.

Record LotteryWin (F : Type) : Type := {
  lot_wallet : string;
  lot_metric : F;
  lot_win_chance_percent : F
}.

(** [results]; [None] is the entry of a category without winner. *)
Record Results (F : Type) : Type := {
  power_buyer : option (PowerBuyerWin F);
  volume_king : option (VolumeKingWin F);
  active_holder : option (ActiveHolderWin F);
  lottery : option (LotteryWin F)
}.

(** ** The calculation *)

Section Calculator.
Context {F G : Type} {num : Numeric F} {rng : Generator F G}.
Local Open Scope py_scope.

Local Abbreviation M := (@M F G).

(** *** The [random] module *)

(** [random.seed(s)] *)
Definition random_seed (s : string) : M unit :=
  fun st => (Ok tt, {| gen := rng_seed s; calls := calls st ++ [CallSeed s] |}).

(** [random.uniform(a, b)], which is [a + (b - a) * random()]. *)
Definition random_uniform (a b : F) : M F :=
  fun st =>
    let (u, g') := rng_random (gen st) in
    (Ok (add a (mul (sub b a) u)),
     {| gen := g'; calls := calls st ++ [CallUniform a b] |}).

(** [random.choice(seq)], which is [seq[_randbelow(len(seq))]]. *)
Definition random_choice {A : Type} (seq : list A) : M A :=
  fun st =>
    match seq with
    | [] => (Raise IndexError, st)
    | _ :: _ =>
        let (i, g') := rng_randbelow (length seq) (gen st) in
        (match nth_error seq i with
         | Some x => Ok x
         | None => Raise IndexError
         end,
         {| gen := g'; calls := calls st ++ [CallChoice (length seq)] |})
    end.

(** *** [_weighted_choice] *)

(** The [for] loop of [_weighted_choice]: [Some item] when it returns
    from inside the loop, [None] when it runs to the end. *)
Fixpoint scan (r upto : F) (participants : list (string * F)) : option string :=
  match participants with
  | [] => None
  | (item, weight) :: rest =>
      if geb (add upto weight) r then Some item
      else scan r (add upto weight) rest
  end.

Definition _weighted_choice (participants : list (string * F)) : M (option string) :=
  match participants with
  | [] => ret None
  | _ :: _ =>
      let total_weight := sum (map snd participants) in
      if eqb total_weight zero then
        item <- random_choice (map fst participants) ;;
        ret (Some item)
      else
        r <- random_uniform zero total_weight ;;
        match scan r zero participants with
        | Some item => ret (Some item)
        | None => ret (option_map fst (Py.last_item participants))
        end
  end.

(** *** Eligibility and participants *)

(** [{h["address"]: h["amount"] for h in token_holders}] *)
Definition final_balances_of (token_holders : list (TokenHolder F)) : Py.dict F :=
  fold_left (fun d h => Py.dict_set d (address h) (amount h)) token_holders [].

Definition eligible_item (rules : Rules F) (item : string * F) : bool :=
  negb (String.eqb (fst item) start_signature_key)
  && geb (snd item) (min_eligible_holding_amount rules).

(** The set comprehension over [final_balances.items()]. *)
Definition universally_eligible_wallets
    (final_balances : Py.dict F) (rules : Rules F) : list string :=
  Py.set_of (map fst (filter (eligible_item rules) final_balances)).

(** The list comprehensions over [cycle_stats_snapshot.items()]:
    [[(w, get(s)) for w, s in items if w in eligible and keep(get(s))]].
    The row is read only after [w in eligible] holds. *)
Fixpoint stat_participants (eligible : list string)
    (get : CycleStat F -> Res F) (keep : F -> bool)
    (items : list (string * CycleStat F)) : Res (list (string * F)) :=
  match items with
  | [] => Ok []
  | (w, s) :: rest =>
      if Py.set_mem w eligible then
        match get s with
        | Raise e => Raise e
        | Ok x =>
            if keep x then
              res_map (cons (w, x)) (stat_participants eligible get keep rest)
            else stat_participants eligible get keep rest
        end
      else stat_participants eligible get keep rest
  end.

Definition power_buyer_participants (eligible : list string)
    (cycle_stats_snapshot : Py.dict (CycleStat F)) : Res (list (string * F)) :=
  res_map (Py.sorted fst)
    (stat_participants eligible
       (fun s => field "largest_buy" (largest_buy s))
       (fun x => gtb x zero)
       cycle_stats_snapshot).

Definition volume_king_participants (eligible : list string)
    (cycle_stats_snapshot : Py.dict (CycleStat F)) (rules : Rules F)
    : Res (list (string * F)) :=
  res_map (Py.sorted fst)
    (stat_participants eligible
       (fun s => field "total_volume" (total_volume s))
       (fun x => geb x (min_trade_volume rules))
       cycle_stats_snapshot).

(** The body of the Active Holder loop for one wallet: the pair it
    appends, if any. *)
Definition active_holder_entry
    (final_balances initial_balances_snapshot : Py.dict F)
    (wallet : string) : option (string * F) :=
  let final_balance := Py.dict_get_default final_balances wallet zero in
  let start_balance := Py.dict_get_default initial_balances_snapshot wallet zero in
  let net_change := sub final_balance start_balance in
  if geb net_change zero then
    let weight := add (mul one net_change) (mul quarter start_balance) in
    if gtb weight zero then Some (wallet, weight) else None
  else None.

Fixpoint active_holder_loop
    (final_balances initial_balances_snapshot : Py.dict F)
    (wallets : list string) : list (string * F) :=
  match wallets with
  | [] => []
  | wallet :: rest =>
      match active_holder_entry final_balances initial_balances_snapshot wallet with
      | Some p => p :: active_holder_loop final_balances initial_balances_snapshot rest
      | None => active_holder_loop final_balances initial_balances_snapshot rest
      end
  end.

Definition active_holder_participants (order : SetOrder)
    (eligible : list string)
    (final_balances initial_balances_snapshot : Py.dict F)
    : list (string * F) :=
  Py.sorted fst
    (active_holder_loop final_balances initial_balances_snapshot
       (enum order eligible)).

Definition lottery_participants (order : SetOrder) (eligible : list string)
    : list string :=
  Py.sorted (fun w => w) (enum order eligible).

(** [random.choice(lottery_participants) if lottery_participants else None] *)
Definition lottery_draw (participants : list string) : M (option string) :=
  match participants with
  | [] => ret None
  | _ :: _ => w <- random_choice participants ;; ret (Some w)
  end.

(** *** Winner records *)

(** [(winner_weight / total_weight) * 100 if total_weight > 0 else 100.0] *)
Definition win_chance (winner_weight total_weight : F) : F :=
  if gtb total_weight zero then mul (div winner_weight total_weight) hundred
  else hundred.

(** [cycle_stats_snapshot[w]] *)
Definition stat_of (cycle_stats_snapshot : Py.dict (CycleStat F)) (w : string)
    : Res (CycleStat F) :=
  match Py.dict_get cycle_stats_snapshot w with
  | Some s => Ok s
  | None => Raise (KeyError w)
  end.

Definition power_buyer_result (cycle_stats_snapshot : Py.dict (CycleStat F))
    (participants : list (string * F)) (winner : option string)
    : Res (option (PowerBuyerWin F)) :=
  match winner with
  | Some w =>
      if Py.truthy winner then
        let total_weight := sum (map snd participants) in
        match stat_of cycle_stats_snapshot w with
        | Raise e => Raise e
        | Ok s =>
            match field "largest_buy" (largest_buy s) with
            | Raise e => Raise e
            | Ok winner_weight =>
                let chance := win_chance winner_weight total_weight in
                match field "largest_buy_tx" (largest_buy_tx s) with
                | Raise e => Raise e
                | Ok tx =>
                    Ok (Some {| pb_wallet := w; pb_metric := winner_weight;
                                pb_tx_signature := tx;
                                pb_win_chance_percent := chance |})
                end
            end
        end
      else Ok None
  | None => Ok None
  end.

Definition volume_king_result (cycle_stats_snapshot : Py.dict (CycleStat F))
    (participants : list (string * F)) (winner : option string)
    : Res (option (VolumeKingWin F)) :=
  match winner with
  | Some w =>
      if Py.truthy winner then
        let total_weight := sum (map snd participants) in
        match stat_of cycle_stats_snapshot w with
        | Raise e => Raise e
        | Ok s =>
            match field "total_volume" (total_volume s) with
            | Raise e => Raise e
            | Ok winner_weight =>
                let chance := win_chance winner_weight total_weight in
                match field "buys" (buys s) with
                | Raise e => Raise e
                | Ok b =>
                    match field "sells" (sells s) with
                    | Raise e => Raise e
                    | Ok sl =>
                        Ok (Some {| vk_wallet := w; vk_metric := winner_weight;
                                    vk_buys := b; vk_sells := sl;
                                    vk_win_chance_percent := chance |})
                    end
                end
            end
        end
      else Ok None
  | None => Ok None
  end.

(** [next((w for wallet, w in participants if wallet == winner), 0.0)] *)
Fixpoint weight_of (participants : list (string * F)) (winner : string) : F :=
  match participants with
  | [] => zero
  | (wallet, w) :: rest =>
      if String.eqb wallet winner then w else weight_of rest winner
  end.

Definition active_holder_result
    (final_balances initial_balances_snapshot : Py.dict F)
    (participants : list (string * F)) (winner : option string)
    : option (ActiveHolderWin F) :=
  match winner with
  | Some w =>
      if Py.truthy winner then
        let total_weight := sum (map snd participants) in
        let winner_weight := weight_of participants w in
        let chance := win_chance winner_weight total_weight in
        let winner_final_balance := Py.dict_get_default final_balances w zero in
        let winner_start_balance :=
          Py.dict_get_default initial_balances_snapshot w zero in
        Some {| ah_wallet := w; ah_metric := winner_final_balance;
                ah_final_balance := winner_final_balance;
                ah_start_balance := winner_start_balance;
                ah_win_chance_percent := chance |}
      else None
  | None => None
  end.

Definition lottery_result (final_balances : Py.dict F)
    (participants : list string) (winner : option string)
    : option (LotteryWin F) :=
  match winner with
  | Some w =>
      if Py.truthy winner then
        let total_participants := length participants in
        let chance :=
          if 0 <? total_participants
          then mul (div one (of_nat total_participants)) hundred
          else hundred in
        Some {| lot_wallet := w;
                lot_metric := Py.dict_get_default final_balances w zero;
                lot_win_chance_percent := chance |}
      else None
  | None => None
  end.

(** *** [calculate_all_rewards_from_package] *)

Definition calculate_all_rewards_from_package (order : SetOrder)
    (token_holders : list (TokenHolder F))
    (cycle_stats_snapshot : Py.dict (CycleStat F))
    (initial_balances_snapshot : Py.dict F)
    (verification_seed : string)
    (rules : Rules F) : M (Results F) :=
  random_seed verification_seed ;;
  let final_balances := final_balances_of token_holders in
  let eligible := universally_eligible_wallets final_balances rules in
  (* Power Buyer *)
  pb_participants <- lift (power_buyer_participants eligible cycle_stats_snapshot) ;;
  pb_winner <- _weighted_choice pb_participants ;;
  (* Volume King *)
  vk_participants <-
    lift (volume_king_participants eligible cycle_stats_snapshot rules) ;;
  vk_winner <- _weighted_choice vk_participants ;;
  (* Active Holder *)
  let ah_participants :=
    active_holder_participants order eligible final_balances
      initial_balances_snapshot in
  ah_winner <- _weighted_choice ah_participants ;;
  (* Lottery *)
  let lot_participants := lottery_participants order eligible in
  lot_winner <- lottery_draw lot_participants ;;
  (* Assemble Results *)
  pb <- lift (power_buyer_result cycle_stats_snapshot pb_participants pb_winner) ;;
  vk <- lift (volume_king_result cycle_stats_snapshot vk_participants vk_winner) ;;
  let ah :=
    active_holder_result final_balances initial_balances_snapshot
      ah_participants ah_winner in
  let lot := lottery_result final_balances lot_participants lot_winner in
  ret {| power_buyer := pb; volume_king := vk;
         active_holder := ah; lottery := lot |}.

(** A call starts with a state of the [random] module left by whatever
    ran before, and with no call made yet. *)
Definition run (order : SetOrder) (g : G)
    (token_holders : list (TokenHolder F))
    (cycle_stats_snapshot : Py.dict (CycleStat F))
    (initial_balances_snapshot : Py.dict F)
    (verification_seed : string)
    (rules : Rules F) : Res (Results F) * St F G :=
  calculate_all_rewards_from_package order token_holders
    cycle_stats_snapshot initial_balances_snapshot verification_seed rules
    {| gen := g; calls := [] |}.

End Calculator.

(** ** Concrete instances, to run the model *)

(** Exact rational arithmetic for the operators of [Numeric]. *)
#[export] Instance QNumeric : Numeric Q := {|
  zero := 0%Q;
  one := 1%Q;
  quarter := (1 # 4)%Q;
  hundred := (100 # 1)%Q;
  of_nat := fun n => inject_Z (Z.of_nat n);
  add := Qplus;
  sub := Qminus;
  mul := Qmult;
  div := Qdiv;
  geb := fun x y => Qle_bool y x;
  gtb := fun x y => negb (Qle_bool x y);
  eqb := Qeq_bool;
  sum := fun ws => fold_left Qplus ws 0%Q
|}.

(** A small linear congruential generator; the seed string is folded
    into the first state. *)
Module Lcg.
Definition next (g : N) : N := ((g * 1103515245 + 12345) mod 2147483648)%N.

Fixpoint of_string (s : string) (acc : N) : N :=
  match s with
  | EmptyString => acc
  | String c tl => of_string tl (next (acc + N_of_ascii c))
  end.

Definition random (g : N) : Q * N :=
  (Z.of_N (g mod 1000) # 1000, next g).

Definition randbelow (n : nat) (g : N) : nat * N :=
  (N.to_nat (g mod N.of_nat n), next g).
End Lcg.

#[export] Instance LcgGenerator : Generator Q N.
Proof.
  refine {| rng_seed := fun s => Lcg.of_string s 0%N;
            rng_random := Lcg.random;
            rng_randbelow := Lcg.randbelow |}.
  intros n g Hn. unfold Lcg.randbelow. cbn [fst].
  assert (H : (g mod N.of_nat n < N.of_nat n)%N) by (apply N.mod_lt; lia).
  lia.
Defined.

(** Two ways of enumerating a set: as inserted, and backwards. *)
Definition insertion_order : SetOrder :=
  {| enum := fun l => l; enum_perm := fun l => Permutation_refl l |}.

Definition reverse_order : SetOrder :=
  {| enum := @rev string;
     enum_perm := fun l => Permutation_sym (Permutation_rev l) |}.

(** ** Packages to run *)

Module Packages.
Local Open Scope Q_scope.

Definition holder (a : string) (x : Q) : TokenHolder Q :=
  {| address := a; amount := x |}.

(** A row with every field. *)
Definition row (volume largest : Q) (tx : option string) (b s : Q) : CycleStat Q :=
  {| total_volume := Some volume; largest_buy := Some largest;
     largest_buy_tx := Some tx; buys := Some b; sells := Some s |}.

(** A row read from a table without the columns [largest_buy] and
    [total_volume]. *)
Definition row_without_weights : CycleStat Q :=
  {| total_volume := None; largest_buy := None;
     largest_buy_tx := Some None; buys := Some 0; sells := Some 0 |}.

(** A row without any field, and rows that lack one field. *)
Definition row_without_fields : CycleStat Q :=
  {| total_volume := None; largest_buy := None;
     largest_buy_tx := None; buys := None; sells := None |}.

Definition row_without_volume : CycleStat Q :=
  {| total_volume := None; largest_buy := Some (5 # 1);
     largest_buy_tx := Some (Some "tx1"); buys := Some (30 # 1); sells := Some 0 |}.

Definition row_without_tx : CycleStat Q :=
  {| total_volume := Some (30 # 1); largest_buy := Some (5 # 1);
     largest_buy_tx := None; buys := Some (30 # 1); sells := Some 0 |}.

Definition row_without_sells : CycleStat Q :=
  {| total_volume := Some (30 # 1); largest_buy := Some (5 # 1);
     largest_buy_tx := Some (Some "tx1"); buys := Some (30 # 1); sells := None |}.

Definition rules_10_25 : Rules Q :=
  {| min_eligible_holding_amount := 10 # 1; min_trade_volume := 25 # 1 |}.

(** The end-to-end scenario of the specification. *)
Module Scenario.
Definition token_holders : list (TokenHolder Q) :=
  [holder "A" (100 # 1); holder "B" (50 # 1); holder "C" 0].
Definition cycle_stats_snapshot : Py.dict (CycleStat Q) :=
  [("B", row (30 # 1) 0 None (30 # 1) 0);
   ("A", row (20 # 1) (5 # 1) (Some "tx1") (20 # 1) 0)].
Definition initial_balances_snapshot : Py.dict Q :=
  [("A", 80 # 1); ("B", 80 # 1)].
Definition rules : Rules Q := rules_10_25.
Definition eligible : list string :=
  universally_eligible_wallets (final_balances_of token_holders) rules.
End Scenario.

(** Two holders that traded negative volumes, under a negative
    [min_trade_volume]. *)
Module NegativeVolume.
Definition token_holders : list (TokenHolder Q) :=
  [holder "a" (100 # 1); holder "b" (100 # 1)].
Definition cycle_stats_snapshot : Py.dict (CycleStat Q) :=
  [("a", row (-1 # 1) 0 None 0 0); ("b", row (-3 # 1) 0 None 0 0)].
Definition rules : Rules Q :=
  {| min_eligible_holding_amount := 10 # 1; min_trade_volume := -10 # 1 |}.
Definition eligible : list string :=
  universally_eligible_wallets (final_balances_of token_holders) rules.
End NegativeVolume.

(** One holder whose address is the empty string. *)
Module EmptyAddress.
Definition token_holders : list (TokenHolder Q) := [holder "" (100 # 1)].
Definition eligible : list string :=
  universally_eligible_wallets (final_balances_of token_holders) rules_10_25.
End EmptyAddress.

(** A table of statistics without weights: its only trader sold
    everything ([sold]), or still holds enough ([held]). *)
Module MissingField.
Definition token_holders : list (TokenHolder Q) :=
  [holder "A" (100 # 1); holder "X" 0].
Definition sold : Py.dict (CycleStat Q) := [("X", row_without_weights)].
Definition held : Py.dict (CycleStat Q) := [("A", row_without_weights)].
Definition eligible : list string :=
  universally_eligible_wallets (final_balances_of token_holders) rules_10_25.
End MissingField.

(** Rows that are not read. [X] sold everything and its row has no
    field. [b] is eligible, but its largest buy of 0 and its volume of
    20 keep it out of the lists of Power Buyer and Volume King, whose
    only participant is [a]; its row lacks the fields that are read
    from the row of a winner. *)
Module Unread.
Definition token_holders : list (TokenHolder Q) :=
  [holder "a" (100 # 1); holder "b" (100 # 1); holder "X" 0].
Definition row_b : CycleStat Q :=
  {| total_volume := Some (20 # 1); largest_buy := Some 0;
     largest_buy_tx := None; buys := None; sells := None |}.
Definition cycle_stats_snapshot : Py.dict (CycleStat Q) :=
  [("X", row_without_fields);
   ("a", row (30 # 1) (5 # 1) (Some "tx1") (30 # 1) 0);
   ("b", row_b)].
Definition eligible : list string :=
  universally_eligible_wallets (final_balances_of token_holders) rules_10_25.
End Unread.
End Packages.

(** ** Vocabulary of the statements *)

(** Ascending order of wallet addresses, with no address twice. *)
Definition addr_lt (a b : string) : Prop := String.ltb a b = true.

Definition ascending {A : Type} (key : A -> string) (l : list A) : Prop :=
  StronglySorted (fun x y => addr_lt (key x) (key y)) l.

(** Sorted by address, as [sorted] leaves a list. *)
Definition address_sorted {A : Type} (key : A -> string) (l : list A) : Prop :=
  StronglySorted (fun x y => String.leb (key x) (key y) = true) l.

(** The invariant of a Python dictionary: no key twice. *)
Definition dict_wf {V : Type} (d : Py.dict V) : Prop := NoDup (Py.keys d).

(** The balance that [token_holders] gives a wallet: the amount of its
    last entry. *)
Fixpoint final_balance {F : Type} (token_holders : list (TokenHolder F))
    (w : string) : option F :=
  match token_holders with
  | [] => None
  | h :: rest =>
      match final_balance rest w with
      | Some b => Some b
      | None => if String.eqb (address h) w then Some (amount h) else None
      end
  end.

Section Vocabulary.
Context {F G : Type} {num : Numeric F} {rng : Generator F G}.

(** The calls to [random] that belong to the draw of a category. *)
Definition draw_calls (participants : list (string * F)) : list (Call F) :=
  match participants with
  | [] => []
  | _ :: _ =>
      let total := sum (map snd participants) in
      if eqb total zero then [CallChoice (length participants)]
      else [CallUniform zero total]
  end.

Definition lottery_calls (participants : list string) : list (Call F) :=
  match participants with
  | [] => []
  | _ :: _ => [CallChoice (length participants)]
  end.

(** The weighted draw in the words of the specification (section 4,
    step 4), for the comparison with [_weighted_choice]: the running
    sum before participant [i] is the sum of the weights before it,
    and the winner is the first participant that this sum plus its
    own weight brings to [r] or beyond; when there is none, it is the
    participant at the last index, [length - 1]. *)
Definition upto_before (ws : list F) (i : nat) : F :=
  fold_left add (firstn i ws) zero.

Definition first_hit (r : F) (ws : list F) : option nat :=
  find (fun i => geb (add (upto_before ws i) (nth i ws zero)) r)
    (seq 0 (length ws)).

Definition spec_weighted_draw (participants : list (string * F)) : @M F G (option string) :=
  fun st =>
    let names := map fst participants in
    let ws := map snd participants in
    match participants with
    | [] => (Ok None, st)
    | _ :: _ =>
        let total := sum ws in
        if eqb total zero then
          let (i, g') := rng_randbelow (length names) (gen st) in
          (Ok (nth_error names i),
           {| gen := g'; calls := calls st ++ [CallChoice (length names)] |})
        else
          let (u, g') := rng_random (gen st) in
          let r := add zero (mul (sub total zero) u) in
          (Ok match first_hit r ws with
              | Some i => nth_error names i
              | None => nth_error names (length names - 1)
              end,
           {| gen := g'; calls := calls st ++ [CallUniform zero total] |})
    end.

(** The state of [random] right after [random.seed(seed)], when no call
    was made before. *)
Definition seeded (seed : string) : St F G :=
  {| gen := rng_seed seed; calls := [CallSeed seed] |}.

(** The winner that a draw returned. *)
Definition drawn (r : Res (option string) * St F G) : option string :=
  match fst r with
  | Ok w => w
  | Raise _ => None
  end.

(** A row of statistics that has its five fields. *)
Definition complete (s : CycleStat F) : Prop :=
  total_volume s <> None /\ largest_buy s <> None
  /\ largest_buy_tx s <> None /\ buys s <> None /\ sells s <> None.

(** Two entries of tables of statistics for the same wallet, with the
    same row when the wallet is eligible. *)
Definition same_eligible_rows (eligible : list string)
    (a b : string * CycleStat F) : Prop :=
  fst a = fst b /\ (In (fst a) eligible -> snd a = snd b).

(** The reported chance as the specification words it: 100 exactly
    when the total weight equals 0. *)
Definition claimed_win_chance (winner_weight total_weight : F) : F :=
  if eqb total_weight zero then hundred
  else mul (div winner_weight total_weight) hundred.
End Vocabulary.

(** * Proofs *)

(** ** The order of addresses *)

Lemma leb_cases a b : String.leb a b = true <-> String.ltb a b = true \/ a = b.
Proof.
  unfold String.leb, String.ltb.
  destruct (String.compare a b) eqn:E.
  - apply String.compare_eq_iff in E. tauto.
  - tauto.
  - split; [discriminate|].
    intros [H|H]; [discriminate|]. subst b.
    assert (E' : String.compare a a = Eq) by (apply String_as_OT.cmp_eq; reflexivity).
    congruence.
Qed.

Lemma ltb_trans a b c :
  String.ltb a b = true -> String.ltb b c = true -> String.ltb a c = true.
Proof.
  unfold String.ltb.
  destruct (String.compare a b) eqn:E1; try discriminate.
  destruct (String.compare b c) eqn:E2; try discriminate.
  intros _ _.
  apply String_as_OT.cmp_lt in E1, E2.
  pose proof (String_as_OT.lt_trans _ _ _ E1 E2) as H.
  apply String_as_OT.cmp_lt in H. unfold String_as_OT.cmp in H.
  now rewrite H.
Qed.

Lemma ltb_irrefl a : String.ltb a a = false.
Proof.
  unfold String.ltb.
  assert (E : String.compare a a = Eq) by (apply String_as_OT.cmp_eq; reflexivity).
  now rewrite E.
Qed.

Lemma ltb_asym a b : String.ltb a b = true -> String.ltb b a = true -> False.
Proof.
  intros H1 H2. pose proof (ltb_trans _ _ _ H1 H2) as H.
  rewrite ltb_irrefl in H. discriminate.
Qed.

Lemma leb_trans a b c :
  String.leb a b = true -> String.leb b c = true -> String.leb a c = true.
Proof.
  rewrite !leb_cases. intros [H1|H1] [H2|H2]; subst; auto.
  left. eapply ltb_trans; eauto.
Qed.

Lemma leb_false_ltb a b : String.leb a b = false -> String.ltb b a = true.
Proof.
  unfold String.leb, String.ltb. rewrite (String.compare_antisym b a).
  destruct (String.compare a b); cbn; congruence.
Qed.

(** ** [sorted] *)

Section SortedFacts.
Context {A : Type} (key : A -> string).

Let le_key (x y : A) : Prop := String.leb (key x) (key y) = true.
Let lt_key (x y : A) : Prop := addr_lt (key x) (key y).

Lemma insert_by_perm x l : Permutation (Py.insert_by key x l) (x :: l).
Proof.
  induction l as [|y tl IH]; cbn.
  - reflexivity.
  - destruct (String.leb (key x) (key y)).
    + reflexivity.
    + rewrite IH. apply perm_swap.
Qed.

Lemma sorted_perm l : Permutation (Py.sorted key l) l.
Proof.
  induction l as [|x tl IH]; cbn.
  - constructor.
  - rewrite insert_by_perm. now constructor.
Qed.

Lemma sorted_In x l : In x (Py.sorted key l) <-> In x l.
Proof.
  split; apply Permutation_in; [|symmetry]; apply sorted_perm.
Qed.

Lemma insert_by_sorted x l :
  StronglySorted le_key l -> StronglySorted le_key (Py.insert_by key x l).
Proof.
  induction 1 as [|y tl Hs IH Hy]; cbn.
  - repeat constructor.
  - destruct (String.leb (key x) (key y)) eqn:E.
    + constructor; [now constructor|].
      constructor; [exact E|].
      rewrite Forall_forall in *. intros z Hz.
      eapply leb_trans; [exact E|]. now apply Hy.
    + constructor; [exact IH|].
      rewrite Forall_forall in *. intros z Hz.
      apply (Permutation_in _ (insert_by_perm x tl)) in Hz.
      destruct Hz as [<-|Hz]; [|now apply Hy].
      apply leb_cases. left. now apply leb_false_ltb.
Qed.

Lemma sorted_le l : StronglySorted le_key (Py.sorted key l).
Proof.
  induction l as [|x tl IH]; cbn.
  - constructor.
  - now apply insert_by_sorted.
Qed.

Lemma le_nodup_ascending l :
  StronglySorted le_key l -> NoDup (map key l) -> ascending key l.
Proof.
  induction 1 as [|x tl Hs IH Hx]; cbn; intros Hnd.
  - constructor.
  - inversion Hnd as [|? ? Hnotin Hnd']; subst.
    constructor; [now apply IH|].
    rewrite Forall_forall in *. intros y Hy.
    destruct (proj1 (leb_cases _ _) (Hx y Hy)) as [H|H]; [exact H|].
    exfalso. apply Hnotin. rewrite H. now apply in_map.
Qed.

(** Sorting a list whose keys are all different puts it in ascending
    order. *)
Lemma sorted_ascending l :
  NoDup (map key l) -> ascending key (Py.sorted key l).
Proof.
  intros Hnd. apply le_nodup_ascending; [apply sorted_le|].
  eapply Permutation_NoDup; [|exact Hnd].
  apply Permutation_map. symmetry. apply sorted_perm.
Qed.

(** An ascending list is determined by its elements. *)
Lemma ascending_unique l1 : forall l2,
  ascending key l1 -> ascending key l2 -> Permutation l1 l2 -> l1 = l2.
Proof.
  induction l1 as [|a l1 IH]; intros l2 H1 H2 Hp.
  - apply Permutation_nil in Hp. now subst.
  - destruct l2 as [|b l2].
    + symmetry in Hp. apply Permutation_nil in Hp. discriminate.
    + assert (Hab : a = b).
      { assert (Ha : In a (b :: l2)) by (apply (Permutation_in _ Hp); now left).
        assert (Hb : In b (a :: l1))
          by (apply (Permutation_in _ (Permutation_sym Hp)); now left).
        destruct Ha as [Ha|Ha]; [now subst|].
        destruct Hb as [Hb|Hb]; [now subst|].
        inversion H1 as [|? ? _ Hall1]; inversion H2 as [|? ? _ Hall2]; subst.
        rewrite Forall_forall in Hall1, Hall2.
        exfalso. exact (ltb_asym _ _ (Hall1 b Hb) (Hall2 a Ha)). }
      subst b. f_equal.
      apply IH.
      * now inversion H1.
      * now inversion H2.
      * now apply Permutation_cons_inv in Hp.
Qed.

(** [sorted] cancels the order of a list whose keys are all different. *)
Lemma sorted_order_irrelevant l1 l2 :
  NoDup (map key l1) -> Permutation l1 l2 ->
  Py.sorted key l1 = Py.sorted key l2.
Proof.
  intros Hnd Hp.
  apply ascending_unique.
  - now apply sorted_ascending.
  - apply sorted_ascending.
    eapply Permutation_NoDup; [|exact Hnd]. now apply Permutation_map.
  - rewrite !sorted_perm. exact Hp.
Qed.
End SortedFacts.

(** ** Dictionaries *)

Section DictFacts.
Context {V : Type}.
Implicit Types (d : Py.dict V) (k : string) (v : V).

Lemma dict_get_In d k v : Py.dict_get d k = Some v -> In (k, v) d.
Proof.
  induction d as [|[k' v'] tl IH]; cbn; [discriminate|].
  destruct (String.eqb_spec k k') as [->|Hne].
  - intros [= ->]. now left.
  - intros H. right. now apply IH.
Qed.

Lemma dict_get_None d k : Py.dict_get d k = None <-> ~ In k (Py.keys d).
Proof.
  induction d as [|[k' v'] tl IH]; cbn.
  - tauto.
  - destruct (String.eqb_spec k k') as [->|Hne].
    + split; [discriminate|]. intros H. exfalso. apply H. now left.
    + rewrite IH. split; intros H; [intros [E|E]; [congruence|tauto]|tauto].
Qed.

Lemma In_dict_get d k v : dict_wf d -> In (k, v) d -> Py.dict_get d k = Some v.
Proof.
  unfold dict_wf, Py.keys.
  induction d as [|[k' v'] tl IH]; cbn; [tauto|].
  intros Hnd [E|Hin].
  - injection E as -> ->. now rewrite String.eqb_refl.
  - inversion Hnd as [|? ? Hnotin Hnd']; subst.
    destruct (String.eqb_spec k k') as [->|Hne].
    + exfalso. apply Hnotin. change k' with (fst (k', v)). now apply in_map.
    + now apply IH.
Qed.

Lemma dict_set_keys d k v k' :
  In k' (Py.keys (Py.dict_set d k v)) <-> k' = k \/ In k' (Py.keys d).
Proof.
  unfold Py.keys.
  induction d as [|[k0 v0] tl IH]; cbn.
  - intuition congruence.
  - destruct (String.eqb_spec k k0) as [->|Hne]; cbn.
    + intuition congruence.
    + rewrite IH. intuition congruence.
Qed.

Lemma dict_set_wf d k v : dict_wf d -> dict_wf (Py.dict_set d k v).
Proof.
  unfold dict_wf.
  induction d as [|[k0 v0] tl IH]; cbn; intros Hnd.
  - repeat constructor. tauto.
  - inversion Hnd as [|? ? Hnotin Hnd']; subst.
    destruct (String.eqb_spec k k0) as [->|Hne]; cbn.
    + now constructor.
    + constructor; [|now apply IH].
      fold (Py.keys (Py.dict_set tl k v)). rewrite dict_set_keys.
      intros [E|Hin]; [congruence|tauto].
Qed.

(** Reading after writing. *)
Lemma dict_get_set d k v k' :
  Py.dict_get (Py.dict_set d k v) k' =
  if String.eqb k' k then Some v else Py.dict_get d k'.
Proof.
  induction d as [|[k0 v0] tl IH]; cbn.
  - reflexivity.
  - destruct (String.eqb_spec k k0) as [->|Hne]; cbn.
    + destruct (String.eqb_spec k' k0); reflexivity.
    + rewrite IH.
      destruct (String.eqb_spec k' k0) as [->|Hne'].
      * destruct (String.eqb_spec k0 k); [congruence|reflexivity].
      * reflexivity.
Qed.
End DictFacts.

Lemma set_mem_In w s : Py.set_mem w s = true <-> In w s.
Proof.
  unfold Py.set_mem. rewrite existsb_exists. split.
  - intros (x & Hx & E). apply String.eqb_eq in E. now subst.
  - intros H. exists w. split; [exact H|apply String.eqb_refl].
Qed.

Lemma set_of_In w l : In w (Py.set_of l) <-> In w l.
Proof. apply nodup_In. Qed.

Lemma set_of_NoDup l : NoDup (Py.set_of l).
Proof. apply NoDup_nodup. Qed.

(** ** Eligibility *)

Section Eligibility.
Context {F : Type} {num : Numeric F}.
Implicit Types (token_holders : list (TokenHolder F)) (rules : Rules F).

Lemma final_balances_from token_holders : forall (d : Py.dict F) w,
  Py.dict_get
    (fold_left (fun d h => Py.dict_set d (address h) (amount h)) token_holders d) w
  = match final_balance token_holders w with
    | Some b => Some b
    | None => Py.dict_get d w
    end.
Proof.
  induction token_holders as [|h rest IH]; intros d w; cbn.
  - reflexivity.
  - rewrite IH. destruct (final_balance rest w); [reflexivity|].
    rewrite dict_get_set. rewrite (String.eqb_sym w).
    destruct (String.eqb (address h) w); reflexivity.
Qed.

(** The dictionary [final_balances] maps a wallet to its final balance. *)
Lemma final_balances_get token_holders w :
  Py.dict_get (final_balances_of token_holders) w = final_balance token_holders w.
Proof.
  unfold final_balances_of. rewrite final_balances_from.
  destruct (final_balance token_holders w); reflexivity.
Qed.

Lemma final_balances_wf token_holders : dict_wf (final_balances_of token_holders).
Proof.
  unfold final_balances_of.
  assert (H : forall d : Py.dict F, dict_wf d ->
            dict_wf (fold_left (fun d h => Py.dict_set d (address h) (amount h))
                       token_holders d)).
  { induction token_holders as [|h rest IH]; intros d Hd; cbn.
    - exact Hd.
    - apply IH. now apply dict_set_wf. }
  apply H. constructor.
Qed.

Lemma final_balance_listed token_holders w b :
  final_balance token_holders w = Some b ->
  exists h, In h token_holders /\ address h = w.
Proof.
  induction token_holders as [|h rest IH]; cbn; [discriminate|].
  destruct (final_balance rest w) eqn:E.
  - intros H. destruct (IH H) as (h' & Hin & Ha). exists h'. auto.
  - destruct (String.eqb_spec (address h) w); [|discriminate].
    intros _. exists h. auto.
Qed.

Lemma listed_final_balance token_holders w :
  (exists h, In h token_holders /\ address h = w) ->
  exists b, final_balance token_holders w = Some b.
Proof.
  induction token_holders as [|h rest IH]; cbn.
  - intros (h & [] & _).
  - intros (h' & [E|Hin] & Ha).
    + subst h'. rewrite Ha, String.eqb_refl.
      destruct (final_balance rest w); eauto.
    + destruct IH as (b & ->); eauto.
Qed.

Lemma eligible_In final_balances rules w :
  In w (universally_eligible_wallets final_balances rules) <->
  exists b, In (w, b) final_balances /\ w <> start_signature_key
            /\ geb b (min_eligible_holding_amount rules) = true.
Proof.
  unfold universally_eligible_wallets. rewrite set_of_In, in_map_iff.
  split.
  - intros ([w' b] & E & Hin). cbn in E. subst w'.
    apply filter_In in Hin. destruct Hin as (Hin & Hel).
    unfold eligible_item in Hel. cbn in Hel.
    apply andb_true_iff in Hel. destruct Hel as (Hs & Hb).
    exists b. repeat split; auto.
    apply negb_true_iff in Hs. now apply String.eqb_neq.
  - intros (b & Hin & Hs & Hb). exists (w, b). split; [reflexivity|].
    apply filter_In. split; [exact Hin|].
    unfold eligible_item. cbn. rewrite Hb, andb_true_r.
    apply negb_true_iff. now apply String.eqb_neq.
Qed.

Lemma eligible_final_balance token_holders rules w :
  In w (universally_eligible_wallets (final_balances_of token_holders) rules) <->
  exists b, final_balance token_holders w = Some b /\ w <> start_signature_key
            /\ geb b (min_eligible_holding_amount rules) = true.
Proof.
  rewrite eligible_In. split; intros (b & H1 & H2); exists b; split; auto.
  - rewrite <- final_balances_get.
    apply In_dict_get; [apply final_balances_wf|exact H1].
  - apply dict_get_In. now rewrite final_balances_get.
Qed.

Lemma eligible_NoDup (final_balances : Py.dict F) rules :
  NoDup (universally_eligible_wallets final_balances rules).
Proof. apply set_of_NoDup. Qed.

Lemma sentinel_not_eligible (final_balances : Py.dict F) rules :
  ~ In start_signature_key (universally_eligible_wallets final_balances rules).
Proof.
  rewrite eligible_In. intros (b & _ & H & _). now apply H.
Qed.
End Eligibility.

(** ** Participant lists *)

Section Participants.
Context {F : Type} {num : Numeric F}.
Implicit Types (eligible : list string) (items : Py.dict (CycleStat F)).

Lemma res_map_Ok {A B : Type} (f : A -> B) (r : Res A) (b : B) :
  res_map f r = Ok b <-> exists a, r = Ok a /\ b = f a.
Proof.
  destruct r as [a|e]; cbn; split.
  - intros [= <-]. eauto.
  - intros (a' & [= <-] & ->). reflexivity.
  - discriminate.
  - intros (a' & [=] & _).
Qed.

Section Comprehension.
Variables (eligible : list string) (get : CycleStat F -> Res F) (keep : F -> bool).

Lemma stat_participants_In items : forall l,
  stat_participants eligible get keep items = Ok l ->
  forall w x, In (w, x) l <->
    exists s, In (w, s) items /\ In w eligible /\ get s = Ok x /\ keep x = true.
Proof.
  induction items as [|[w0 s0] rest IH]; cbn; intros l Hl w x.
  - injection Hl as <-. cbn. split; [tauto|]. intros (s & [] & _).
  - destruct (Py.set_mem w0 eligible) eqn:Hmem.
    + apply set_mem_In in Hmem.
      destruct (get s0) as [x0|e] eqn:Hget; [|discriminate].
      destruct (keep x0) eqn:Hkeep.
      * apply res_map_Ok in Hl. destruct Hl as (l' & Hl' & ->).
        cbn. rewrite (IH _ Hl'). split.
        -- intros [[= <- <-]|(s & Hin & H)].
           ++ exists s0. auto.
           ++ exists s. auto.
        -- intros (s & [[= <- <-]|Hin] & Hel & Hg & Hk).
           ++ left. congruence.
           ++ right. exists s. auto.
      * rewrite (IH _ Hl). split.
        -- intros (s & Hin & H). exists s. auto.
        -- intros (s & [[= <- <-]|Hin] & Hel & Hg & Hk).
           ++ congruence.
           ++ exists s. auto.
    + rewrite (IH _ Hl). split.
      * intros (s & Hin & H). exists s. auto.
      * intros (s & [[= <- <-]|Hin] & Hel & Hg & Hk).
        -- apply set_mem_In in Hel. congruence.
        -- exists s. auto.
Qed.

Lemma stat_participants_wf items : forall l,
  stat_participants eligible get keep items = Ok l ->
  dict_wf items -> NoDup (map fst l).
Proof.
  unfold dict_wf, Py.keys.
  induction items as [|[w0 s0] rest IH]; cbn; intros l Hl Hnd.
  - injection Hl as <-. constructor.
  - inversion Hnd as [|? ? Hnotin Hnd']; subst.
    destruct (Py.set_mem w0 eligible); [|now apply IH].
    destruct (get s0) as [x0|e]; [|discriminate].
    destruct (keep x0); [|now apply IH].
    apply res_map_Ok in Hl. destruct Hl as (l' & Hl' & ->).
    cbn. constructor; [|now apply IH].
    intros Hin. apply in_map_iff in Hin. destruct Hin as ([w x] & E & Hin).
    cbn in E. subst w.
    apply (stat_participants_In _ Hl') in Hin.
    destruct Hin as (s & Hin & _).
    apply Hnotin. change w0 with (fst (w0, s)). now apply in_map.
Qed.

(** The comprehension succeeds when [get] does on every row it reads. *)
Lemma stat_participants_total items :
  (forall w s, In (w, s) items -> In w eligible -> exists x, get s = Ok x) ->
  exists l, stat_participants eligible get keep items = Ok l.
Proof.
  induction items as [|[w0 s0] rest IH]; cbn; intros Hall.
  - eauto.
  - destruct IH as (l & Hl); [intros; eapply Hall; eauto|].
    destruct (Py.set_mem w0 eligible) eqn:Hmem; [|eauto].
    apply set_mem_In in Hmem.
    destruct (Hall w0 s0 (or_introl eq_refl) Hmem) as (x & ->).
    rewrite Hl. destruct (keep x); cbn; eauto.
Qed.

(** It raises when [get] does on the row of an eligible wallet. *)
Lemma stat_participants_raise items w s e :
  In (w, s) items -> In w eligible -> get s = Raise e ->
  exists e', stat_participants eligible get keep items = Raise e'.
Proof.
  induction items as [|[w0 s0] rest IH]; cbn; [tauto|].
  intros [[= -> ->]|Hin] Hel Hget.
  - apply set_mem_In in Hel. rewrite Hel, Hget. eauto.
  - destruct (IH Hin Hel Hget) as (e' & ->).
    destruct (Py.set_mem w0 eligible); [|eauto].
    destruct (get s0) as [x0|e0]; [|eauto].
    destruct (keep x0); cbn; eauto.
Qed.

(** An exception of the comprehension is the one of [get] on the row
    of an eligible wallet. *)
Lemma stat_participants_Raise_inv items e :
  stat_participants eligible get keep items = Raise e ->
  exists w s, In (w, s) items /\ In w eligible /\ get s = Raise e.
Proof.
  induction items as [|[w0 s0] rest IH]; cbn; [discriminate|].
  assert (Hrest : stat_participants eligible get keep rest = Raise e ->
                  exists w s, In (w, s) ((w0, s0) :: rest)
                              /\ In w eligible /\ get s = Raise e).
  { intros H. destruct (IH H) as (w & s & Hin & Hrem). exists w, s.
    split; [now right|exact Hrem]. }
  destruct (Py.set_mem w0 eligible) eqn:Hmem; [|exact Hrest].
  apply set_mem_In in Hmem.
  destruct (get s0) as [x0|e0] eqn:Hget.
  - destruct (keep x0); [|exact Hrest].
    destruct (stat_participants eligible get keep rest); cbn; [discriminate|].
    intros [= ->]. now apply Hrest.
  - intros [= ->]. exists w0, s0. split; [now left|auto].
Qed.
End Comprehension.

Lemma field_Ok {A : Type} name (v : option A) x : field name v = Ok x <-> v = Some x.
Proof. destruct v; cbn; split; congruence. Qed.

Lemma field_Raise {A : Type} name (v : option A) e :
  field name v = Raise e <-> v = None /\ e = KeyError name.
Proof.
  destruct v; cbn; split.
  - discriminate.
  - intros [H _]. discriminate.
  - intros [= <-]. auto.
  - intros [_ ->]. reflexivity.
Qed.

(** *** Active Holder *)

Section ActiveHolder.
Variables (final_balances initial_balances_snapshot : Py.dict F).

Local Abbreviation entry :=
  (active_holder_entry final_balances initial_balances_snapshot).
Local Abbreviation loop :=
  (active_holder_loop final_balances initial_balances_snapshot).

Lemma active_holder_entry_key w p : entry w = Some p -> fst p = w.
Proof.
  unfold active_holder_entry.
  destruct (geb _ _); [|discriminate].
  destruct (gtb _ _); [|discriminate].
  now intros [= <-].
Qed.

Lemma active_holder_loop_In ws w x :
  In (w, x) (loop ws) <-> In w ws /\ entry w = Some (w, x).
Proof.
  induction ws as [|w0 rest IH]; cbn.
  - tauto.
  - destruct (entry w0) as [p|] eqn:E.
    + cbn. rewrite IH. split.
      * intros [->|[H1 H2]]; [|tauto].
        pose proof (active_holder_entry_key _ E) as Hk. cbn in Hk. subst w0. auto.
      * intros [[->|H1] H2]; [left; congruence|tauto].
    + rewrite IH. split; [tauto|].
      intros [[->|H1] H2]; [congruence|tauto].
Qed.

Lemma active_holder_loop_NoDup ws : NoDup ws -> NoDup (map fst (loop ws)).
Proof.
  induction 1 as [|w0 rest Hnotin Hnd IH]; cbn.
  - constructor.
  - destruct (entry w0) as [p|] eqn:E; [|exact IH].
    cbn. constructor; [|exact IH].
    rewrite (active_holder_entry_key _ E).
    intros Hin. apply in_map_iff in Hin. destruct Hin as ([w x] & Hw & Hin).
    cbn in Hw. subst w. apply active_holder_loop_In in Hin. tauto.
Qed.

Lemma active_holder_loop_perm ws ws' :
  Permutation ws ws' -> Permutation (loop ws) (loop ws').
Proof.
  induction 1 as [|w l l' Hp IH|w w' l|l l' l'' Hp1 IH1 Hp2 IH2]; cbn.
  - constructor.
  - destruct (entry w); [now constructor|exact IH].
  - destruct (entry w), (entry w'); try reflexivity. apply perm_swap.
  - now transitivity (loop l').
Qed.
End ActiveHolder.

(** The enumeration order of the eligible set does not reach the
    participant lists. *)
Lemma active_holder_participants_order (o1 o2 : SetOrder) eligible
    (final_balances initial_balances_snapshot : Py.dict F) :
  NoDup eligible ->
  active_holder_participants o1 eligible final_balances initial_balances_snapshot
  = active_holder_participants o2 eligible final_balances initial_balances_snapshot.
Proof.
  intros Hnd. unfold active_holder_participants.
  apply sorted_order_irrelevant.
  - apply active_holder_loop_NoDup.
    eapply Permutation_NoDup; [|exact Hnd]. symmetry. apply enum_perm.
  - apply active_holder_loop_perm.
    rewrite !enum_perm. reflexivity.
Qed.

Lemma lottery_participants_order (o1 o2 : SetOrder) eligible :
  NoDup eligible ->
  lottery_participants o1 eligible = lottery_participants o2 eligible.
Proof.
  intros Hnd. unfold lottery_participants.
  apply sorted_order_irrelevant.
  - rewrite map_id.
    eapply Permutation_NoDup; [|exact Hnd]. symmetry. apply enum_perm.
  - rewrite !enum_perm. reflexivity.
Qed.

Lemma lottery_participants_In (o : SetOrder) eligible w :
  In w (lottery_participants o eligible) <-> In w eligible.
Proof.
  unfold lottery_participants. rewrite sorted_In.
  split; apply Permutation_in; [|symmetry]; apply enum_perm.
Qed.

Lemma active_holder_participants_In (o : SetOrder) eligible
    (final_balances initial_balances_snapshot : Py.dict F) w x :
  In (w, x) (active_holder_participants o eligible final_balances
               initial_balances_snapshot)
  <-> In w eligible
      /\ active_holder_entry final_balances initial_balances_snapshot w = Some (w, x).
Proof.
  unfold active_holder_participants.
  rewrite sorted_In, active_holder_loop_In.
  split; intros [H1 H2]; split; auto;
    revert H1; apply Permutation_in; [|symmetry]; apply enum_perm.
Qed.
End Participants.

(** ** The weighted draw *)

Lemma find_ext {A : Type} (f g : A -> bool) (l : list A) :
  (forall a, f a = g a) -> find f l = find g l.
Proof.
  intros H. induction l as [|a tl IH]; cbn; [reflexivity|].
  rewrite H, IH. reflexivity.
Qed.

Lemma find_seq_shift (f : nat -> bool) n : forall a,
  find f (seq (S a) n) = option_map S (find (fun i => f (S i)) (seq a n)).
Proof.
  induction n as [|n IH]; intros a; cbn; [reflexivity|].
  destruct (f (S a)); [reflexivity|]. apply IH.
Qed.

Lemma last_item_map {A B : Type} (f : A -> B) (l : list A) :
  Py.last_item (map f l) = option_map f (Py.last_item l).
Proof.
  induction l as [|a [|b tl] IH]; cbn in *; auto.
Qed.

Lemma last_item_In {A : Type} (l : list A) x : Py.last_item l = Some x -> In x l.
Proof.
  induction l as [|a [|b tl] IH]; cbn in *; [discriminate| |].
  - intros [= ->]. auto.
  - intros H. right. now apply IH.
Qed.

Lemma last_item_Some {A : Type} (l : list A) : l <> [] -> exists x, Py.last_item l = Some x.
Proof.
  induction l as [|a [|b tl] IH]; intros Hne; [congruence|cbn; eauto|].
  destruct IH as (x & Hx); [discriminate|]. exists x. exact Hx.
Qed.

(** [seq[-1]] is the element at index [len(seq) - 1]. *)
Lemma last_item_nth_error {A : Type} (l : list A) :
  Py.last_item l = nth_error l (length l - 1).
Proof.
  induction l as [|a [|b tl] IH]; [reflexivity|reflexivity|].
  change (Py.last_item (a :: b :: tl)) with (Py.last_item (b :: tl)).
  rewrite IH. cbn [length]. replace (S (S (length tl)) - 1) with (S (S (length tl) - 1)) by lia.
  reflexivity.
Qed.

(** The first index of [a, a+1, ...] that passes a test lies in the
    range, passes the test, and no index before it does. *)
Lemma find_seq_first (f : nat -> bool) n : forall a i,
  find f (seq a n) = Some i ->
  a <= i < a + n /\ f i = true /\ forall j, a <= j < i -> f j = false.
Proof.
  induction n as [|n IH]; intros a i; cbn; [discriminate|].
  destruct (f a) eqn:Ea.
  - intros [= <-]. repeat split; try lia. exact Ea.
  - intros H. apply IH in H. destruct H as (Hr & Hi & Hm).
    repeat split; try lia; [exact Hi|].
    intros j Hj. destruct (Nat.eq_dec j a) as [->|Hne]; [exact Ea|].
    apply Hm. lia.
Qed.

Lemma find_seq_none (f : nat -> bool) n a :
  find f (seq a n) = None -> forall j, a <= j < a + n -> f j = false.
Proof.
  intros H j Hj. eapply find_none in H; [exact H|]. apply in_seq. lia.
Qed.

Section WeightedDraw.
Context {F G : Type} {num : Numeric F} {rng : Generator F G}.
Implicit Types (participants : list (string * F)) (st : St F G).

(** The loop, seen from the indices: it stops at the first index whose
    running sum, counted from [upto], reaches [r]. *)
Lemma scan_first_hit r participants : forall upto,
  scan r upto participants =
  match find (fun i => geb (add (fold_left add (firstn i (map snd participants)) upto)
                               (nth i (map snd participants) zero)) r)
          (seq 0 (length participants)) with
  | Some i => nth_error (map fst participants) i
  | None => None
  end.
Proof.
  induction participants as [|[item weight] rest IH]; intros upto; cbn.
  - reflexivity.
  - destruct (geb (add upto weight) r); [reflexivity|].
    rewrite find_seq_shift, IH. cbn.
    destruct (find _ (seq 0 (length rest))); reflexivity.
Qed.

Lemma scan_In r participants : forall upto item,
  scan r upto participants = Some item -> In item (map fst participants).
Proof.
  induction participants as [|[item0 weight] rest IH]; intros upto item; cbn.
  - discriminate.
  - destruct (geb (add upto weight) r).
    + intros [= ->]. auto.
    + intros H. right. eapply IH; eauto.
Qed.

Lemma random_choice_returns {A : Type} (seq : list A) st :
  seq <> [] ->
  exists x, In x seq
    /\ nth_error seq (fst (rng_randbelow (length seq) (gen st))) = Some x
    /\ random_choice seq st =
       (Ok x, {| gen := snd (rng_randbelow (length seq) (gen st));
                 calls := calls st ++ [CallChoice (length seq)] |}).
Proof.
  intros Hne. unfold random_choice.
  destruct seq as [|a tl]; [congruence|].
  pose proof (@rng_randbelow_lt F G rng (length (a :: tl)) (gen st)) as Hlt.
  destruct (rng_randbelow (length (a :: tl)) (gen st)) as [i g'] eqn:E.
  cbn [fst snd] in *.
  destruct (nth_error (a :: tl) i) as [x|] eqn:Hn.
  - exists x. split; [eapply nth_error_In; eauto|]. auto.
  - apply nth_error_None in Hn. cbn [length] in *. lia.
Qed.

(** [_weighted_choice] is the weighted draw of the specification. *)
Lemma weighted_choice_refines participants st :
  _weighted_choice participants st = spec_weighted_draw participants st.
Proof.
  unfold _weighted_choice, spec_weighted_draw.
  destruct participants as [|p rest]; [reflexivity|].
  set (l := p :: rest).
  cbv zeta. destruct (eqb (sum (map snd l)) zero).
  - unfold bind.
    destruct (@random_choice_returns _ (map fst l) st) as (x & _ & Hn & ->);
      [discriminate|].
    destruct (rng_randbelow (length (map fst l)) (gen st)) as [i g'].
    cbn [fst snd] in *. rewrite Hn. rewrite length_map. reflexivity.
  - unfold bind, random_uniform.
    destruct (rng_random (gen st)) as [u g'].
    rewrite scan_first_hit. unfold first_hit, upto_before.
    rewrite !length_map.
    destruct (find _ (seq 0 (length l))) as [i|] eqn:Hf.
    + destruct (nth_error (map fst l) i) as [x|] eqn:Hn; unfold ret.
      * reflexivity.
      * (* the index that [find] returns is below the length *)
        apply find_some in Hf. destruct Hf as [Hi _].
        apply in_seq in Hi. apply nth_error_None in Hn.
        rewrite length_map in Hn. lia.
    + unfold ret. now rewrite <- last_item_map, last_item_nth_error, ?length_map.
Qed.
End WeightedDraw.

Section Draws.
Context {F G : Type} {num : Numeric F} {rng : Generator F G}.
Implicit Types (participants : list (string * F)) (st : St F G).

(** A weighted draw never raises; it makes the calls [draw_calls] and
    returns a participant, or [None] when there is none. *)
Lemma weighted_choice_returns participants st :
  exists w st',
    _weighted_choice participants st = (Ok w, st')
    /\ calls st' = calls st ++ draw_calls participants
    /\ match participants with
       | [] => w = None /\ st' = st
       | _ :: _ => exists item, w = Some item /\ In item (map fst participants)
       end.
Proof.
  rewrite weighted_choice_refines. unfold spec_weighted_draw, draw_calls.
  destruct participants as [|p rest].
  - exists None, st. rewrite app_nil_r. auto.
  - set (l := p :: rest). cbv zeta.
    destruct (eqb (sum (map snd l)) zero).
    + pose proof (@rng_randbelow_lt F G rng (length (map fst l)) (gen st)) as Hlt.
      destruct (rng_randbelow (length (map fst l)) (gen st)) as [i g'].
      cbn [fst] in Hlt.
      destruct (nth_error (map fst l) i) as [x|] eqn:Hn.
      * do 2 eexists. split; [reflexivity|]. cbn [calls].
        rewrite length_map. split; [reflexivity|].
        exists x. split; [reflexivity|]. eapply nth_error_In; eauto.
      * apply nth_error_None in Hn. cbn [length map l] in *. lia.
    + destruct (rng_random (gen st)) as [u g'].
      do 2 eexists. split; [reflexivity|]. cbn [calls]. split; [reflexivity|].
      destruct (first_hit _ _) as [i|] eqn:Hf.
      * unfold first_hit in Hf. apply find_some in Hf. destruct Hf as [Hi _].
        apply in_seq in Hi. rewrite length_map in Hi.
        destruct (nth_error (map fst l) i) as [x|] eqn:Hn.
        -- exists x. split; [reflexivity|]. eapply nth_error_In; eauto.
        -- apply nth_error_None in Hn. rewrite length_map in Hn. lia.
      * destruct (nth_error (map fst l) (length (map fst l) - 1)) as [x|] eqn:Hn.
        -- exists x. split; [reflexivity|]. eapply nth_error_In; eauto.
        -- apply nth_error_None in Hn. cbn [length map l] in Hn. lia.
Qed.

Lemma lottery_draw_returns (participants : list string) st :
  exists w st',
    lottery_draw participants st = (Ok w, st')
    /\ calls st' = calls st ++ lottery_calls participants
    /\ match participants with
       | [] => w = None /\ st' = st
       | _ :: _ => exists item, w = Some item /\ In item participants
       end.
Proof.
  unfold lottery_draw, lottery_calls.
  destruct participants as [|p rest].
  - exists None, st. rewrite app_nil_r. auto.
  - unfold bind.
    destruct (random_choice_returns (seq := p :: rest) st) as (x & Hin & _ & ->);
      [discriminate|].
    do 2 eexists. split; [reflexivity|]. cbn [calls]. split; [reflexivity|].
    exists x. auto.
Qed.

Lemma weighted_choice_drawn participants st :
  _weighted_choice participants st =
  (Ok (drawn (_weighted_choice participants st)),
   snd (_weighted_choice participants st)).
Proof.
  destruct (weighted_choice_returns participants st) as (w & st' & -> & _).
  reflexivity.
Qed.

Lemma lottery_draw_drawn (participants : list string) st :
  lottery_draw participants st =
  (Ok (drawn (lottery_draw participants st)),
   snd (lottery_draw participants st)).
Proof.
  destruct (lottery_draw_returns participants st) as (w & st' & -> & _).
  reflexivity.
Qed.

Lemma weighted_choice_calls participants st :
  calls (snd (_weighted_choice participants st)) = calls st ++ draw_calls participants.
Proof.
  destruct (weighted_choice_returns participants st) as (w & st' & -> & H & _).
  exact H.
Qed.

Lemma lottery_draw_calls (participants : list string) st :
  calls (snd (lottery_draw participants st)) = calls st ++ lottery_calls participants.
Proof.
  destruct (lottery_draw_returns participants st) as (w & st' & -> & H & _).
  exact H.
Qed.

Lemma weighted_choice_drawn_In participants st item :
  drawn (_weighted_choice participants st) = Some item ->
  In item (map fst participants).
Proof.
  destruct (weighted_choice_returns participants st) as (w & st' & -> & _ & H).
  unfold drawn. cbn [fst]. intros ->.
  destruct participants.
  - destruct H. discriminate.
  - destruct H as (x & [= ->] & Hin). exact Hin.
Qed.

Lemma lottery_draw_drawn_In (participants : list string) st item :
  drawn (lottery_draw participants st) = Some item -> In item participants.
Proof.
  destruct (lottery_draw_returns participants st) as (w & st' & -> & _ & H).
  unfold drawn. cbn [fst]. intros ->.
  destruct participants.
  - destruct H. discriminate.
  - destruct H as (x & [= ->] & Hin). exact Hin.
Qed.

Lemma weighted_choice_drawn_nonempty participants st :
  participants <> [] -> exists item, drawn (_weighted_choice participants st) = Some item.
Proof.
  destruct (weighted_choice_returns participants st) as (w & st' & -> & _ & H).
  unfold drawn. cbn [fst]. destruct participants; [congruence|].
  destruct H as (x & -> & _). eauto.
Qed.

Lemma lottery_draw_drawn_nonempty (participants : list string) st :
  participants <> [] -> exists item, drawn (lottery_draw participants st) = Some item.
Proof.
  destruct (lottery_draw_returns participants st) as (w & st' & -> & _ & H).
  unfold drawn. cbn [fst]. destruct participants; [congruence|].
  destruct H as (x & -> & _). eauto.
Qed.
End Draws.

(** ** The stages of a run *)

Section Stages.
Context {F G : Type} {num : Numeric F} {rng : Generator F G}.

Variables (order : SetOrder) (g : G)
  (token_holders : list (TokenHolder F))
  (cycle_stats_snapshot : Py.dict (CycleStat F))
  (initial_balances_snapshot : Py.dict F)
  (verification_seed : string) (rules : Rules F).

Let final_balances := final_balances_of token_holders.
Let eligible := universally_eligible_wallets final_balances rules.
Let ah := active_holder_participants order eligible final_balances
            initial_balances_snapshot.
Let lot := lottery_participants order eligible.

(** A run seeds the generator, then builds each list of participants
    and draws from it, one category after the other, and assembles the
    records at the end. An exception stops it where it is raised. *)
Lemma run_stages :
  run order g token_holders cycle_stats_snapshot initial_balances_snapshot
    verification_seed rules =
  match power_buyer_participants eligible cycle_stats_snapshot with
  | Raise e => (Raise e, seeded verification_seed)
  | Ok pb =>
      let d1 := _weighted_choice pb (seeded verification_seed) in
      match volume_king_participants eligible cycle_stats_snapshot rules with
      | Raise e => (Raise e, snd d1)
      | Ok vk =>
          let d2 := _weighted_choice vk (snd d1) in
          let d3 := _weighted_choice ah (snd d2) in
          let d4 := lottery_draw lot (snd d3) in
          (match power_buyer_result cycle_stats_snapshot pb (drawn d1) with
           | Raise e => Raise e
           | Ok pbr =>
               match volume_king_result cycle_stats_snapshot vk (drawn d2) with
               | Raise e => Raise e
               | Ok vkr =>
                   Ok {| power_buyer := pbr;
                         volume_king := vkr;
                         active_holder :=
                           active_holder_result final_balances
                             initial_balances_snapshot ah (drawn d3);
                         lottery := lottery_result final_balances lot (drawn d4) |}
               end
           end,
           snd d4)
      end
  end.
Proof.
  unfold run, calculate_all_rewards_from_package.
  unfold bind at 1. unfold random_seed at 1. cbn [calls gen app].
  fold (seeded verification_seed).
  fold final_balances. fold eligible. fold ah. fold lot.
  unfold bind at 1. unfold lift at 1.
  destruct (power_buyer_participants eligible cycle_stats_snapshot) as [pb|e];
    [|reflexivity].
  cbv zeta.
  unfold bind at 1. rewrite (weighted_choice_drawn pb).
  unfold bind at 1. unfold lift at 1.
  destruct (volume_king_participants eligible cycle_stats_snapshot rules) as [vk|e];
    [|reflexivity].
  unfold bind at 1. rewrite (weighted_choice_drawn vk).
  unfold bind at 1. rewrite (weighted_choice_drawn ah).
  unfold bind at 1. rewrite (lottery_draw_drawn lot).
  unfold bind at 1. unfold lift at 1.
  destruct (power_buyer_result _ _ _) as [pbr|e]; [|reflexivity].
  unfold bind at 1. unfold lift at 1.
  destruct (volume_king_result _ _ _) as [vkr|e]; reflexivity.
Qed.
End Stages.

(** ** The winner records *)

Section Records.
Context {F G : Type} {num : Numeric F} {rng : Generator F G}.
Implicit Types (cycle_stats_snapshot : Py.dict (CycleStat F))
  (participants : list (string * F)) (winner : option string).

Lemma stat_of_Ok cycle_stats_snapshot w s :
  stat_of cycle_stats_snapshot w = Ok s <-> Py.dict_get cycle_stats_snapshot w = Some s.
Proof.
  unfold stat_of. destruct (Py.dict_get cycle_stats_snapshot w); split; congruence.
Qed.

Lemma power_buyer_result_Some cycle_stats_snapshot participants winner r :
  power_buyer_result cycle_stats_snapshot participants winner = Ok (Some r) ->
  winner = Some (pb_wallet r) /\ pb_wallet r <> ""
  /\ exists s, Py.dict_get cycle_stats_snapshot (pb_wallet r) = Some s
       /\ largest_buy s = Some (pb_metric r)
       /\ largest_buy_tx s = Some (pb_tx_signature r)
       /\ pb_win_chance_percent r
          = win_chance (pb_metric r) (sum (map snd participants)).
Proof.
  unfold power_buyer_result. destruct winner as [w|]; [|discriminate].
  destruct (Py.truthy (Some w)) eqn:Ht; [|discriminate].
  destruct (stat_of cycle_stats_snapshot w) as [s|e] eqn:Hs; [|discriminate].
  destruct (field "largest_buy" (largest_buy s)) as [x|e] eqn:Hx; [|discriminate].
  destruct (field "largest_buy_tx" (largest_buy_tx s)) as [tx|e] eqn:Htx;
    [|discriminate].
  intros [= <-]. cbn.
  apply stat_of_Ok in Hs. apply field_Ok in Hx, Htx.
  split; [reflexivity|]. split; [destruct w; [discriminate|congruence]|].
  exists s. auto.
Qed.

Lemma volume_king_result_Some cycle_stats_snapshot participants winner r :
  volume_king_result cycle_stats_snapshot participants winner = Ok (Some r) ->
  winner = Some (vk_wallet r) /\ vk_wallet r <> ""
  /\ exists s, Py.dict_get cycle_stats_snapshot (vk_wallet r) = Some s
       /\ total_volume s = Some (vk_metric r)
       /\ buys s = Some (vk_buys r) /\ sells s = Some (vk_sells r)
       /\ vk_win_chance_percent r
          = win_chance (vk_metric r) (sum (map snd participants)).
Proof.
  unfold volume_king_result. destruct winner as [w|]; [|discriminate].
  destruct (Py.truthy (Some w)) eqn:Ht; [|discriminate].
  destruct (stat_of cycle_stats_snapshot w) as [s|e] eqn:Hs; [|discriminate].
  destruct (field "total_volume" (total_volume s)) as [x|e] eqn:Hx; [|discriminate].
  destruct (field "buys" (buys s)) as [b|e] eqn:Hb; [|discriminate].
  destruct (field "sells" (sells s)) as [sl|e] eqn:Hsl; [|discriminate].
  intros [= <-]. cbn.
  apply stat_of_Ok in Hs. apply field_Ok in Hx, Hb, Hsl.
  split; [reflexivity|]. split; [destruct w; [discriminate|congruence]|].
  exists s. auto.
Qed.

Lemma active_holder_result_Some
    (final_balances initial_balances_snapshot : Py.dict F) participants winner r :
  active_holder_result final_balances initial_balances_snapshot participants winner
  = Some r ->
  winner = Some (ah_wallet r) /\ ah_wallet r <> ""
  /\ ah_metric r = Py.dict_get_default final_balances (ah_wallet r) zero
  /\ ah_final_balance r = Py.dict_get_default final_balances (ah_wallet r) zero
  /\ ah_start_balance r
     = Py.dict_get_default initial_balances_snapshot (ah_wallet r) zero
  /\ ah_win_chance_percent r
     = win_chance (weight_of participants (ah_wallet r)) (sum (map snd participants)).
Proof.
  unfold active_holder_result. destruct winner as [w|]; [|discriminate].
  destruct (Py.truthy (Some w)) eqn:Ht; [|discriminate].
  intros [= <-]. cbn.
  split; [reflexivity|]. split; [destruct w; [discriminate|congruence]|]. auto.
Qed.

Lemma lottery_result_Some (final_balances : Py.dict F)
    (participants : list string) winner r :
  lottery_result final_balances participants winner = Some r ->
  winner = Some (lot_wallet r) /\ lot_wallet r <> ""
  /\ lot_metric r = Py.dict_get_default final_balances (lot_wallet r) zero
  /\ lot_win_chance_percent r
     = if 0 <? length participants
       then mul (div one (of_nat (length participants))) hundred
       else hundred.
Proof.
  unfold lottery_result. destruct winner as [w|]; [|discriminate].
  destruct (Py.truthy (Some w)) eqn:Ht; [|discriminate].
  intros [= <-]. cbn.
  split; [reflexivity|]. split; [destruct w; [discriminate|congruence]|]. auto.
Qed.

(** The weight that the first entry of a wallet carries. *)
Lemma weight_of_In participants w :
  In w (map fst participants) -> In (w, weight_of participants w) participants.
Proof.
  induction participants as [|[w0 x0] rest IH]; cbn; [tauto|].
  destruct (String.eqb_spec w0 w) as [->|Hne].
  - auto.
  - intros [E|Hin]; [congruence|]. right. now apply IH.
Qed.

(** What a run that returns has gone through. *)
Lemma run_Ok_inv (order : SetOrder) (g : G) (token_holders : list (TokenHolder F))
    cycle_stats_snapshot (initial_balances_snapshot : Py.dict F)
    (verification_seed : string) (rules : Rules F) res st :
  run order g token_holders cycle_stats_snapshot initial_balances_snapshot
    verification_seed rules = (Ok res, st) ->
  let final_balances := final_balances_of token_holders in
  let eligible := universally_eligible_wallets final_balances rules in
  let ah := active_holder_participants order eligible final_balances
              initial_balances_snapshot in
  let lot := lottery_participants order eligible in
  exists pb vk,
    power_buyer_participants eligible cycle_stats_snapshot = Ok pb
    /\ volume_king_participants eligible cycle_stats_snapshot rules = Ok vk
    /\ let d1 := _weighted_choice pb (seeded verification_seed) in
       let d2 := _weighted_choice vk (snd d1) in
       let d3 := _weighted_choice ah (snd d2) in
       let d4 := lottery_draw lot (snd d3) in
       power_buyer_result cycle_stats_snapshot pb (drawn d1) = Ok (power_buyer res)
       /\ volume_king_result cycle_stats_snapshot vk (drawn d2) = Ok (volume_king res)
       /\ active_holder res
          = active_holder_result final_balances initial_balances_snapshot ah (drawn d3)
       /\ lottery res = lottery_result final_balances lot (drawn d4)
       /\ st = snd d4.
Proof.
  rewrite run_stages. intros H final_balances eligible ah lot.
  fold final_balances eligible ah lot in H.
  destruct (power_buyer_participants eligible cycle_stats_snapshot) as [pb|e];
    [|discriminate].
  destruct (volume_king_participants eligible cycle_stats_snapshot rules) as [vk|e];
    [|discriminate].
  exists pb, vk. split; [reflexivity|]. split; [reflexivity|].
  cbv zeta in *.
  destruct (power_buyer_result _ _ _) as [pbr|e]; [|discriminate].
  destruct (volume_king_result _ _ _) as [vkr|e]; [|discriminate].
  injection H as <- <-. cbn. auto.
Qed.
End Records.

(** * The properties of the specification *)

(** Over the rationals, with a generator whose [random()] lies in
    [[0, 1)], the number drawn by [uniform(0, total)] for a positive
    total lies in [[0, total)]. *)
Lemma random_uniform_range {G : Type} (rng : Generator Q G) (total : Q)
    (st : St Q G) :
  (0 <= fst (rng_random (gen st)) < 1)%Q ->
  (0 < total)%Q ->
  exists r st', random_uniform zero total st = (Ok r, st') /\ (0 <= r < total)%Q.
Proof.
  intros Hu Ht. unfold random_uniform.
  destruct (rng_random (gen st)) as [u g']. cbn [fst] in Hu.
  do 2 eexists. split; [reflexivity|].
  cbn [add mul sub zero QNumeric]. nra.
Qed.

Section Properties.
Context {F G : Type} {num : Numeric F} {rng : Generator F G}.
Implicit Types (order : SetOrder) (g : G)
  (token_holders : list (TokenHolder F))
  (cycle_stats_snapshot : Py.dict (CycleStat F))
  (initial_balances_snapshot : Py.dict F)
  (verification_seed : string) (rules : Rules F).

(** C1. Determinism: two evaluations on the same holders, statistics,
    starting balances, seed and rules return the same winner records
    for the four categories (and leave [random] in the same state),
    whatever state the generator was in before each of them and in
    whatever order each process enumerates the set of eligible
    wallets. *)
Theorem determinism (o1 o2 : SetOrder) (g1 g2 : G)
    token_holders cycle_stats_snapshot initial_balances_snapshot
    verification_seed rules :
  run o1 g1 token_holders cycle_stats_snapshot initial_balances_snapshot
    verification_seed rules
  = run o2 g2 token_holders cycle_stats_snapshot initial_balances_snapshot
      verification_seed rules.
Proof.
  rewrite !run_stages.
  rewrite (active_holder_participants_order o1 o2) by apply eligible_NoDup.
  rewrite (lottery_participants_order o1 o2) by apply eligible_NoDup.
  reflexivity.
Qed.


Lemma draw_calls_no_seed (participants : list (string * F)) :
  existsb is_seed (draw_calls participants) = false.
Proof.
  unfold draw_calls. destruct participants; [reflexivity|].
  cbv zeta. destruct (eqb _ _); reflexivity.
Qed.

Lemma lottery_calls_no_seed (participants : list string) :
  existsb is_seed (lottery_calls (F := F) participants) = false.
Proof. destruct participants; reflexivity. Qed.


(** The wallets of the lists drawn from come from the eligible set. *)
Lemma power_buyer_participants_eligible eligible cycle_stats_snapshot pb :
  power_buyer_participants eligible cycle_stats_snapshot = Ok pb ->
  incl (map fst pb) eligible.
Proof.
  intros Hpb. apply res_map_Ok in Hpb. destruct Hpb as (l & Hl & ->).
  intros w Hin. apply in_map_iff in Hin. destruct Hin as ([w' x] & E & Hin).
  cbn in E. subst w'. apply sorted_In in Hin.
  apply (stat_participants_In _ _ _ _ Hl) in Hin.
  destruct Hin as (s & _ & Hel & _). exact Hel.
Qed.

Lemma volume_king_participants_eligible eligible cycle_stats_snapshot rules vk :
  volume_king_participants eligible cycle_stats_snapshot rules = Ok vk ->
  incl (map fst vk) eligible.
Proof.
  intros Hvk. apply res_map_Ok in Hvk. destruct Hvk as (l & Hl & ->).
  intros w Hin. apply in_map_iff in Hin. destruct Hin as ([w' x] & E & Hin).
  cbn in E. subst w'. apply sorted_In in Hin.
  apply (stat_participants_In _ _ _ _ Hl) in Hin.
  destruct Hin as (s & _ & Hel & _). exact Hel.
Qed.

Lemma active_holder_participants_eligible order eligible
    (final_balances : Py.dict F) initial_balances_snapshot :
  incl (map fst (active_holder_participants order eligible final_balances
                   initial_balances_snapshot)) eligible.
Proof.
  intros w Hin. apply in_map_iff in Hin. destruct Hin as ([w' x] & E & Hin).
  cbn in E. subst w'. apply active_holder_participants_In in Hin. tauto.
Qed.

(** The wallet of every winner record is eligible. *)
Lemma winners_eligible order g token_holders cycle_stats_snapshot
    initial_balances_snapshot verification_seed rules res st :
  run order g token_holders cycle_stats_snapshot initial_balances_snapshot
    verification_seed rules = (Ok res, st) ->
  let eligible :=
    universally_eligible_wallets (final_balances_of token_holders) rules in
  (forall r, power_buyer res = Some r -> In (pb_wallet r) eligible)
  /\ (forall r, volume_king res = Some r -> In (vk_wallet r) eligible)
  /\ (forall r, active_holder res = Some r -> In (ah_wallet r) eligible)
  /\ (forall r, lottery res = Some r -> In (lot_wallet r) eligible).
Proof.
  intros Hrun eligible. apply run_Ok_inv in Hrun.
  destruct Hrun as (pb & vk & Hpb & Hvk & H1 & H2 & H3 & H4 & _).
  fold eligible in Hpb, Hvk, H1, H2, H3, H4.
  repeat split; intros r Hr.
  - rewrite Hr in H1. apply power_buyer_result_Some in H1.
    destruct H1 as (Hw & _). apply weighted_choice_drawn_In in Hw.
    eapply power_buyer_participants_eligible; eauto.
  - rewrite Hr in H2. apply volume_king_result_Some in H2.
    destruct H2 as (Hw & _). apply weighted_choice_drawn_In in Hw.
    eapply volume_king_participants_eligible; eauto.
  - rewrite Hr in H3. symmetry in H3. apply active_holder_result_Some in H3.
    destruct H3 as (Hw & _). apply weighted_choice_drawn_In in Hw.
    eapply active_holder_participants_eligible; eauto.
  - rewrite Hr in H4. symmetry in H4. apply lottery_result_Some in H4.
    destruct H4 as (Hw & _). apply lottery_draw_drawn_In in Hw.
    now apply lottery_participants_In in Hw.
Qed.

(** C4. Universal eligibility: a wallet is in the eligible set exactly
    when it has an entry in [token_holders], is not the key
    [_start_signature], and its final balance is at least
    [min_eligible_holding_amount]. This one set is the pool of the four
    categories: the participants of Power Buyer, Volume King and Active
    Holder are taken from it, those of the Lottery are its elements,
    and the wallet of every winner record of a run belongs to it. *)
Theorem universal_eligibility order g token_holders cycle_stats_snapshot
    initial_balances_snapshot verification_seed rules :
  let final_balances := final_balances_of token_holders in
  let eligible := universally_eligible_wallets final_balances rules in
  (forall w,
      In w eligible <->
      (exists h, In h token_holders /\ address h = w)
      /\ w <> start_signature_key
      /\ exists b, final_balance token_holders w = Some b
                   /\ geb b (min_eligible_holding_amount rules) = true)
  /\ NoDup eligible
  /\ (forall pb, power_buyer_participants eligible cycle_stats_snapshot = Ok pb ->
                 incl (map fst pb) eligible)
  /\ (forall vk, volume_king_participants eligible cycle_stats_snapshot rules = Ok vk ->
                 incl (map fst vk) eligible)
  /\ incl (map fst (active_holder_participants order eligible final_balances
                      initial_balances_snapshot)) eligible
  /\ (forall w, In w (lottery_participants order eligible) <-> In w eligible)
  /\ (forall res st,
        run order g token_holders cycle_stats_snapshot initial_balances_snapshot
          verification_seed rules = (Ok res, st) ->
        (forall r, power_buyer res = Some r -> In (pb_wallet r) eligible)
        /\ (forall r, volume_king res = Some r -> In (vk_wallet r) eligible)
        /\ (forall r, active_holder res = Some r -> In (ah_wallet r) eligible)
        /\ (forall r, lottery res = Some r -> In (lot_wallet r) eligible)).
Proof.
  intros final_balances eligible.
  split; [|split; [|split; [|split; [|split; [|split]]]]].
  - intros w. unfold eligible, final_balances.
    rewrite eligible_final_balance. split.
    + intros (b & Hb & Hs & Hge). split; [|split]; eauto.
      eapply final_balance_listed; eauto.
    + intros (_ & Hs & b & Hb & Hge). eauto.
  - apply eligible_NoDup.
  - intros pb. apply power_buyer_participants_eligible.
  - intros vk. apply volume_king_participants_eligible.
  - apply active_holder_participants_eligible.
  - intros w. apply lottery_participants_In.
  - intros res st Hrun. exact (winners_eligible _ _ _ _ _ _ _ Hrun).
Qed.


(** The sorted comprehension over the rows of a dictionary. *)
Lemma sorted_stat_participants eligible (get : CycleStat F -> Res F) keep
    cycle_stats_snapshot l :
  dict_wf cycle_stats_snapshot ->
  res_map (Py.sorted fst)
    (stat_participants eligible get keep cycle_stats_snapshot) = Ok l ->
  NoDup (map fst l)
  /\ forall w x,
       In (w, x) l <->
       In w eligible
       /\ exists s, Py.dict_get cycle_stats_snapshot w = Some s
                    /\ get s = Ok x /\ keep x = true.
Proof.
  intros Hwf Hl. apply res_map_Ok in Hl. destruct Hl as (l0 & Hl0 & ->).
  split.
  - eapply Permutation_NoDup.
    + apply Permutation_map. symmetry. apply sorted_perm.
    + eapply stat_participants_wf; eauto.
  - intros w x. rewrite sorted_In, (stat_participants_In _ _ _ _ Hl0). split.
    + intros (s & Hin & Hel & Hg & Hk). split; [exact Hel|].
      exists s. split; [now apply In_dict_get|auto].
    + intros (Hel & s & Hs & Hg & Hk). exists s.
      split; [now apply dict_get_In|auto].
Qed.

(** C5. The Power Buyer list holds exactly the eligible wallets that
    have a row of statistics with [largest_buy > 0], each once and
    with its [largest_buy] as weight; the Volume King list holds
    exactly the eligible wallets that have a row with
    [total_volume >= min_trade_volume], each once and with its
    [total_volume] as weight. Each list is built whenever the rows of
    the eligible wallets have the field. *)
Theorem stat_participant_lists token_holders cycle_stats_snapshot rules :
  dict_wf cycle_stats_snapshot ->
  let eligible :=
    universally_eligible_wallets (final_balances_of token_holders) rules in
  (forall pb,
      power_buyer_participants eligible cycle_stats_snapshot = Ok pb ->
      NoDup (map fst pb)
      /\ forall w x,
           In (w, x) pb <->
           In w eligible
           /\ exists s, Py.dict_get cycle_stats_snapshot w = Some s
                        /\ largest_buy s = Some x /\ gtb x zero = true)
  /\ (forall vk,
        volume_king_participants eligible cycle_stats_snapshot rules = Ok vk ->
        NoDup (map fst vk)
        /\ forall w x,
             In (w, x) vk <->
             In w eligible
             /\ exists s, Py.dict_get cycle_stats_snapshot w = Some s
                          /\ total_volume s = Some x
                          /\ geb x (min_trade_volume rules) = true)
  /\ ((forall w s, In (w, s) cycle_stats_snapshot -> In w eligible ->
                   largest_buy s <> None) ->
      exists pb, power_buyer_participants eligible cycle_stats_snapshot = Ok pb)
  /\ ((forall w s, In (w, s) cycle_stats_snapshot -> In w eligible ->
                   total_volume s <> None) ->
      exists vk, volume_king_participants eligible cycle_stats_snapshot rules = Ok vk).
Proof.
  intros Hwf eligible. split; [|split; [|split]].
  - intros pb Hpb.
    destruct (sorted_stat_participants _ _ _ Hwf Hpb) as (Hnd & Hin).
    split; [exact Hnd|]. intros w x. rewrite Hin.
    split; intros (Hel & s & Hs & Hg & Hk); (split; [exact Hel|]); exists s;
      (split; [exact Hs|]); (split; [|exact Hk]); cbv beta in *;
      unfold field in *; destruct (largest_buy s); congruence.
  - intros vk Hvk.
    destruct (sorted_stat_participants _ _ _ Hwf Hvk) as (Hnd & Hin).
    split; [exact Hnd|]. intros w x. rewrite Hin.
    split; intros (Hel & s & Hs & Hg & Hk); (split; [exact Hel|]); exists s;
      (split; [exact Hs|]); (split; [|exact Hk]); cbv beta in *;
      unfold field in *; destruct (total_volume s); congruence.
  - intros Hall. unfold power_buyer_participants.
    edestruct (stat_participants_total eligible
                 (fun s => field "largest_buy" (largest_buy s))
                 (fun x => gtb x zero) cycle_stats_snapshot) as (l & ->).
    + intros w s Hin Hel. specialize (Hall w s Hin Hel).
      destruct (largest_buy s) as [x|]; [cbn; eauto|congruence].
    + cbn. eauto.
  - intros Hall. unfold volume_king_participants.
    edestruct (stat_participants_total eligible
                 (fun s => field "total_volume" (total_volume s))
                 (fun x => geb x (min_trade_volume rules))
                 cycle_stats_snapshot) as (l & ->).
    + intros w s Hin Hel. specialize (Hall w s Hin Hel).
      destruct (total_volume s) as [x|]; [cbn; eauto|congruence].
    + cbn. eauto.
Qed.

(** C6. The Active Holder list holds exactly the eligible wallets whose
    net change [final_balance - start_balance], with 0 as starting
    balance of a wallet that the initial balances do not list, is
    [>= 0] and whose weight [1.0 * net_change + 0.25 * start_balance]
    is [> 0]; each is there once and carries that weight. *)
Theorem active_holder_participant_list order token_holders
    initial_balances_snapshot rules :
  let final_balances := final_balances_of token_holders in
  let eligible := universally_eligible_wallets final_balances rules in
  let ah := active_holder_participants order eligible final_balances
              initial_balances_snapshot in
  NoDup (map fst ah)
  /\ forall w x,
       In (w, x) ah <->
       In w eligible
       /\ exists final_b,
            final_balance token_holders w = Some final_b
            /\ let start_balance :=
                 match Py.dict_get initial_balances_snapshot w with
                 | Some b => b
                 | None => zero
                 end in
               let net_change := sub final_b start_balance in
               geb net_change zero = true
               /\ x = add (mul one net_change) (mul quarter start_balance)
               /\ gtb x zero = true.
Proof.
  intros final_balances eligible ah. split.
  - unfold ah, active_holder_participants.
    eapply Permutation_NoDup.
    + apply Permutation_map. symmetry. apply sorted_perm.
    + apply active_holder_loop_NoDup.
      eapply Permutation_NoDup; [symmetry; apply enum_perm|apply eligible_NoDup].
  - intros w x. unfold ah. rewrite active_holder_participants_In.
    split.
    + intros (Hel & He). split; [exact Hel|].
      pose proof Hel as Hel'. unfold eligible, final_balances in Hel'.
      apply eligible_final_balance in Hel'. destruct Hel' as (b & Hb & _).
      exists b. split; [exact Hb|].
      unfold active_holder_entry, Py.dict_get_default in He.
      unfold final_balances in He. rewrite final_balances_get, Hb in He.
      cbv zeta.
      destruct (geb _ _); [|discriminate].
      destruct (gtb _ _) eqn:Hgt; [|discriminate].
      injection He as <-. auto.
    + intros (Hel & b & Hb & Hge & -> & Hgt). split; [exact Hel|].
      unfold active_holder_entry, Py.dict_get_default.
      unfold final_balances. rewrite final_balances_get, Hb.
      cbv zeta in Hge, Hgt. rewrite Hge, Hgt. reflexivity.
Qed.

(** C9. The key [_start_signature] is never in the eligible set, in no
    list of participants, and not the wallet of any winner record,
    whatever [token_holders] says about it. *)
Theorem sentinel_excluded order g token_holders cycle_stats_snapshot
    initial_balances_snapshot verification_seed rules :
  let final_balances := final_balances_of token_holders in
  let eligible := universally_eligible_wallets final_balances rules in
  ~ In start_signature_key eligible
  /\ (forall pb, power_buyer_participants eligible cycle_stats_snapshot = Ok pb ->
                 ~ In start_signature_key (map fst pb))
  /\ (forall vk, volume_king_participants eligible cycle_stats_snapshot rules = Ok vk ->
                 ~ In start_signature_key (map fst vk))
  /\ ~ In start_signature_key
         (map fst (active_holder_participants order eligible final_balances
                     initial_balances_snapshot))
  /\ ~ In start_signature_key (lottery_participants order eligible)
  /\ (forall res st,
        run order g token_holders cycle_stats_snapshot initial_balances_snapshot
          verification_seed rules = (Ok res, st) ->
        (forall r, power_buyer res = Some r -> pb_wallet r <> start_signature_key)
        /\ (forall r, volume_king res = Some r -> vk_wallet r <> start_signature_key)
        /\ (forall r, active_holder res = Some r -> ah_wallet r <> start_signature_key)
        /\ (forall r, lottery res = Some r -> lot_wallet r <> start_signature_key)).
Proof.
  intros final_balances eligible.
  assert (Hs : ~ In start_signature_key eligible) by apply sentinel_not_eligible.
  split; [exact Hs|]. split; [|split; [|split; [|split]]].
  - intros pb Hpb Hin. apply Hs.
    eapply power_buyer_participants_eligible; eauto.
  - intros vk Hvk Hin. apply Hs.
    eapply volume_king_participants_eligible; eauto.
  - intros Hin. apply Hs.
    eapply active_holder_participants_eligible; eauto.
  - intros Hin. apply Hs. now apply lottery_participants_In in Hin.
  - intros res st Hrun.
    destruct (winners_eligible _ _ _ _ _ _ _ Hrun) as (H1 & H2 & H3 & H4).
    repeat split; intros r Hr E; apply Hs; fold final_balances; fold eligible;
      rewrite <- E; auto.
Qed.


(** C7 (amended). The chance reported for the winner of a weighted
    category is [(winner_weight / total_weight) * 100] when the total
    weight of its participants is [> 0], and 100 otherwise, where
    [winner_weight] is the weight that the winner carries in the list;
    the chance reported for the Lottery winner is
    [(1 / participant_count) * 100]. *)
Theorem win_chance_reported order g token_holders cycle_stats_snapshot
    initial_balances_snapshot verification_seed rules res st :
  dict_wf cycle_stats_snapshot ->
  run order g token_holders cycle_stats_snapshot initial_balances_snapshot
    verification_seed rules = (Ok res, st) ->
  let final_balances := final_balances_of token_holders in
  let eligible := universally_eligible_wallets final_balances rules in
  let ah := active_holder_participants order eligible final_balances
              initial_balances_snapshot in
  let lot := lottery_participants order eligible in
  (forall r, power_buyer res = Some r ->
     exists pb,
       power_buyer_participants eligible cycle_stats_snapshot = Ok pb
       /\ In (pb_wallet r, pb_metric r) pb
       /\ pb_win_chance_percent r
          = if gtb (sum (map snd pb)) zero
            then mul (div (pb_metric r) (sum (map snd pb))) hundred
            else hundred)
  /\ (forall r, volume_king res = Some r ->
        exists vk,
          volume_king_participants eligible cycle_stats_snapshot rules = Ok vk
          /\ In (vk_wallet r, vk_metric r) vk
          /\ vk_win_chance_percent r
             = if gtb (sum (map snd vk)) zero
               then mul (div (vk_metric r) (sum (map snd vk))) hundred
               else hundred)
  /\ (forall r, active_holder res = Some r ->
        exists winner_weight,
          In (ah_wallet r, winner_weight) ah
          /\ ah_win_chance_percent r
             = if gtb (sum (map snd ah)) zero
               then mul (div winner_weight (sum (map snd ah))) hundred
               else hundred)
  /\ (forall r, lottery res = Some r ->
        In (lot_wallet r) lot
        /\ lot_win_chance_percent r
           = mul (div one (of_nat (length lot))) hundred).
Proof.
  intros Hwf Hrun final_balances eligible ah lot.
  apply run_Ok_inv in Hrun.
  destruct Hrun as (pb & vk & Hpb & Hvk & H1 & H2 & H3 & H4 & _).
  fold final_balances eligible ah lot in Hpb, Hvk, H1, H2, H3, H4.
  split; [|split; [|split]]; intros r Hr.
  - exists pb. split; [exact Hpb|].
    rewrite Hr in H1. apply power_buyer_result_Some in H1.
    destruct H1 as (Hw & _ & s & Hs & Hlb & _ & Hc).
    split; [|exact Hc].
    apply weighted_choice_drawn_In in Hw.
    apply in_map_iff in Hw. destruct Hw as ([w x] & E & Hin). cbn in E. subst w.
    destruct (sorted_stat_participants _ _ _ Hwf Hpb) as (_ & Hchar).
    pose proof (proj1 (Hchar _ _) Hin) as (_ & s' & Hs' & Hg & _).
    rewrite Hs in Hs'. injection Hs' as <-.
    apply field_Ok in Hg. rewrite Hlb in Hg. injection Hg as <-. exact Hin.
  - exists vk. split; [exact Hvk|].
    rewrite Hr in H2. apply volume_king_result_Some in H2.
    destruct H2 as (Hw & _ & s & Hs & Htv & _ & _ & Hc).
    split; [|exact Hc].
    apply weighted_choice_drawn_In in Hw.
    apply in_map_iff in Hw. destruct Hw as ([w x] & E & Hin). cbn in E. subst w.
    destruct (sorted_stat_participants _ _ _ Hwf Hvk) as (_ & Hchar).
    pose proof (proj1 (Hchar _ _) Hin) as (_ & s' & Hs' & Hg & _).
    rewrite Hs in Hs'. injection Hs' as <-.
    apply field_Ok in Hg. rewrite Htv in Hg. injection Hg as <-. exact Hin.
  - rewrite Hr in H3. symmetry in H3. apply active_holder_result_Some in H3.
    destruct H3 as (Hw & _ & _ & _ & _ & Hc).
    exists (weight_of ah (ah_wallet r)). split; [|exact Hc].
    apply weight_of_In. eapply weighted_choice_drawn_In; eauto.
  - rewrite Hr in H4. symmetry in H4. apply lottery_result_Some in H4.
    destruct H4 as (Hw & _ & _ & Hc).
    apply lottery_draw_drawn_In in Hw. split; [exact Hw|].
    rewrite Hc. destruct lot; [destruct Hw|reflexivity].
Qed.

(** The comprehension of a weighted category raises the [KeyError] of
    its field when the row of an eligible wallet lacks it, and builds
    its list when no such row does. *)
Lemma stat_participants_missing eligible name (read : CycleStat F -> option F)
    keep (items : list (string * CycleStat F)) :
  (exists w s, In (w, s) items /\ In w eligible /\ read s = None) ->
  stat_participants eligible (fun s => field name (read s)) keep items
  = Raise (KeyError name).
Proof.
  intros (w & s & Hin & Hel & Hm).
  edestruct (stat_participants_raise eligible
               (fun s => field name (read s)) keep items w s
               (e := KeyError name)) as (e' & He'); auto.
  { now rewrite Hm. }
  rewrite He'. apply stat_participants_Raise_inv in He'.
  destruct He' as (w' & s' & _ & _ & Hf).
  apply field_Raise in Hf. destruct Hf as [_ ->]. reflexivity.
Qed.

Lemma stat_participants_present eligible name (read : CycleStat F -> option F)
    keep (items : list (string * CycleStat F)) :
  (forall w s, In (w, s) items -> In w eligible -> read s <> None) ->
  exists l,
    stat_participants eligible (fun s => field name (read s)) keep items = Ok l.
Proof.
  intros H. apply stat_participants_total. intros w s Hin Hel.
  destruct (read s) as [x|] eqn:E; [cbn; eauto|].
  exfalso. eapply H; eauto.
Qed.

(** The winner of a weighted category has a row in the statistics, and
    is eligible. *)
Lemma stat_participants_winner_row eligible get keep
    (items : Py.dict (CycleStat F)) l w :
  stat_participants eligible get keep items = Ok l ->
  In w (map fst (Py.sorted fst l)) ->
  In w eligible /\ exists s, Py.dict_get items w = Some s /\ In (w, s) items.
Proof.
  intros Hl Hin. apply in_map_iff in Hin. destruct Hin as ([w' x] & E & Hin).
  cbn in E. subst w'. apply sorted_In in Hin.
  apply (stat_participants_In _ _ _ _ Hl) in Hin.
  destruct Hin as (s0 & Hin0 & Hel & _). split; [exact Hel|].
  destruct (Py.dict_get items w) as [s|] eqn:Eg.
  - exists s. split; [reflexivity|]. now apply dict_get_In.
  - exfalso. apply dict_get_None in Eg. apply Eg.
    apply in_map_iff. exists (w, s0). auto.
Qed.

(** What the assembly of a record reads from the row of the winner. *)
Lemma power_buyer_result_read (cycle_stats_snapshot : Py.dict (CycleStat F))
    participants w s :
  Py.dict_get cycle_stats_snapshot w = Some s -> w <> "" ->
  power_buyer_result cycle_stats_snapshot participants (Some w) =
  match largest_buy s with
  | None => Raise (KeyError "largest_buy")
  | Some winner_weight =>
      match largest_buy_tx s with
      | None => Raise (KeyError "largest_buy_tx")
      | Some tx =>
          Ok (Some {| pb_wallet := w; pb_metric := winner_weight;
                      pb_tx_signature := tx;
                      pb_win_chance_percent :=
                        win_chance winner_weight (sum (map snd participants)) |})
      end
  end.
Proof.
  intros Hs Hw. unfold power_buyer_result, stat_of. rewrite Hs.
  destruct w as [|c w]; [congruence|]. cbn [Py.truthy].
  destruct (largest_buy s); [|reflexivity].
  destruct (largest_buy_tx s); reflexivity.
Qed.

Lemma volume_king_result_read (cycle_stats_snapshot : Py.dict (CycleStat F))
    participants w s :
  Py.dict_get cycle_stats_snapshot w = Some s -> w <> "" ->
  volume_king_result cycle_stats_snapshot participants (Some w) =
  match total_volume s with
  | None => Raise (KeyError "total_volume")
  | Some winner_weight =>
      match buys s with
      | None => Raise (KeyError "buys")
      | Some b =>
          match sells s with
          | None => Raise (KeyError "sells")
          | Some sl =>
              Ok (Some {| vk_wallet := w; vk_metric := winner_weight;
                          vk_buys := b; vk_sells := sl;
                          vk_win_chance_percent :=
                            win_chance winner_weight (sum (map snd participants)) |})
          end
      end
  end.
Proof.
  intros Hs Hw. unfold volume_king_result, stat_of. rewrite Hs.
  destruct w as [|c w]; [congruence|]. cbn [Py.truthy].
  destruct (total_volume s); [|reflexivity].
  destruct (buys s); [|reflexivity].
  destruct (sells s); reflexivity.
Qed.

Lemma power_buyer_result_no_winner (cycle_stats_snapshot : Py.dict (CycleStat F))
    participants winner :
  winner = None \/ winner = Some "" ->
  power_buyer_result cycle_stats_snapshot participants winner = Ok None.
Proof. intros [->| ->]; reflexivity. Qed.

Lemma volume_king_result_no_winner (cycle_stats_snapshot : Py.dict (CycleStat F))
    participants winner :
  winner = None \/ winner = Some "" ->
  volume_king_result cycle_stats_snapshot participants winner = Ok None.
Proof. intros [->| ->]; reflexivity. Qed.

Lemma winner_cases (winner : option string) :
  winner = None \/ winner = Some "" \/ exists w, winner = Some w /\ w <> "".
Proof.
  destruct winner as [[|c w]|]; auto.
  right. right. eexists. split; [reflexivity|discriminate].
Qed.


(** The starting balances hold, under the key [_start_signature], a
    signature instead of a balance. No run reads this entry: whatever
    value stands for it, the outcome is the same. *)
Lemma dict_get_default_set_other {V : Type} (d : Py.dict V) k v k' default :
  k' <> k ->
  Py.dict_get_default (Py.dict_set d k v) k' default = Py.dict_get_default d k' default.
Proof.
  intros Hne. unfold Py.dict_get_default. rewrite dict_get_set.
  destruct (String.eqb_spec k' k); [congruence|reflexivity].
Qed.

Lemma active_holder_loop_signature (final_balances initial_balances_snapshot : Py.dict F)
    v wallets :
  ~ In start_signature_key wallets ->
  active_holder_loop final_balances
    (Py.dict_set initial_balances_snapshot start_signature_key v) wallets
  = active_holder_loop final_balances initial_balances_snapshot wallets.
Proof.
  induction wallets as [|w rest IH]; cbn; intros Hnotin; [reflexivity|].
  unfold active_holder_entry.
  rewrite dict_get_default_set_other by (intros ->; apply Hnotin; now left).
  rewrite IH by tauto. reflexivity.
Qed.

(** X1. A run does not read the value that the starting balances hold
    under the key [_start_signature]: with any value there, the records,
    the exception and the state of the generator are the same. *)
Lemma start_signature_value_unread order g token_holders cycle_stats_snapshot
    initial_balances_snapshot verification_seed rules v :
  run order g token_holders cycle_stats_snapshot
    (Py.dict_set initial_balances_snapshot start_signature_key v)
    verification_seed rules
  = run order g token_holders cycle_stats_snapshot initial_balances_snapshot
      verification_seed rules.
Proof.
  rewrite !run_stages.
  set (final_balances := final_balances_of token_holders).
  set (eligible := universally_eligible_wallets final_balances rules).
  assert (Hs : ~ In start_signature_key eligible) by apply sentinel_not_eligible.
  assert (Hah : active_holder_participants order eligible final_balances
                  (Py.dict_set initial_balances_snapshot start_signature_key v)
                = active_holder_participants order eligible final_balances
                    initial_balances_snapshot).
  { unfold active_holder_participants. f_equal.
    apply active_holder_loop_signature.
    intros Hin. apply Hs. revert Hin. apply Permutation_in, enum_perm. }
  rewrite Hah.
  destruct (power_buyer_participants eligible cycle_stats_snapshot) as [pb|e];
    [|reflexivity].
  destruct (volume_king_participants eligible cycle_stats_snapshot rules) as [vk|e];
    [|reflexivity].
  cbv zeta.
  set (ah := active_holder_participants order eligible final_balances
               initial_balances_snapshot).
  set (d3 := _weighted_choice ah _).
  assert (Hres : active_holder_result final_balances
                   (Py.dict_set initial_balances_snapshot start_signature_key v)
                   ah (drawn d3)
                 = active_holder_result final_balances initial_balances_snapshot
                     ah (drawn d3)).
  { destruct (drawn d3) as [w|] eqn:Hw; [|reflexivity].
    unfold active_holder_result.
    rewrite dict_get_default_set_other; [reflexivity|].
    intros ->. apply Hs.
    eapply active_holder_participants_eligible.
    eapply weighted_choice_drawn_In. exact Hw. }
  rewrite Hres. reflexivity.
Qed.

(** The rows of the wallets that are not eligible are not read: two
    tables of statistics with the same wallets in the same order and the
    same rows for the eligible ones give the same run. *)
Lemma stat_participants_agree eligible (get : CycleStat F -> Res F) keep items items' :
  Forall2 (same_eligible_rows eligible) items items' ->
  stat_participants eligible get keep items
  = stat_participants eligible get keep items'.
Proof.
  induction 1 as [|[w s] [w' s'] rest rest' [Hk Hrow] _ IH]; cbn in *;
    [reflexivity|].
  subst w'. rewrite IH.
  destruct (Py.set_mem w eligible) eqn:Hmem; [|reflexivity].
  apply set_mem_In in Hmem. now rewrite (Hrow Hmem).
Qed.

Lemma dict_get_agree eligible (items items' : Py.dict (CycleStat F)) w :
  Forall2 (same_eligible_rows eligible) items items' ->
  In w eligible -> Py.dict_get items w = Py.dict_get items' w.
Proof.
  intros H Hel.
  induction H as [|[w0 s] [w' s'] rest rest' [Hk Hrow] _ IH]; cbn in *;
    [reflexivity|].
  subst w'. destruct (String.eqb_spec w w0) as [->|Hne]; [|exact IH].
  now rewrite (Hrow Hel).
Qed.

(** X2. A run does not read the rows of statistics of the wallets that
    are not eligible: two tables with the same wallets in the same order
    and the same rows for the eligible wallets give the same run. *)
Lemma ineligible_rows_unread order g token_holders cycle_stats_snapshot
    cycle_stats_snapshot' initial_balances_snapshot verification_seed rules :
  Forall2 (same_eligible_rows
             (universally_eligible_wallets (final_balances_of token_holders) rules))
    cycle_stats_snapshot cycle_stats_snapshot' ->
  run order g token_holders cycle_stats_snapshot initial_balances_snapshot
    verification_seed rules
  = run order g token_holders cycle_stats_snapshot' initial_balances_snapshot
      verification_seed rules.
Proof.
  intros Hsame. rewrite !run_stages.
  set (eligible := universally_eligible_wallets (final_balances_of token_holders) rules)
    in *.
  unfold power_buyer_participants, volume_king_participants.
  rewrite <- !(stat_participants_agree _ _ Hsame).
  fold (power_buyer_participants eligible cycle_stats_snapshot).
  fold (volume_king_participants eligible cycle_stats_snapshot rules).
  destruct (power_buyer_participants eligible cycle_stats_snapshot) as [pb|e] eqn:Hpb;
    [|reflexivity].
  destruct (volume_king_participants eligible cycle_stats_snapshot rules)
    as [vk|e] eqn:Hvk; [|reflexivity].
  cbv zeta.
  set (d1 := _weighted_choice pb _). set (d2 := _weighted_choice vk _).
  assert (H1 : power_buyer_result cycle_stats_snapshot' pb (drawn d1)
               = power_buyer_result cycle_stats_snapshot pb (drawn d1)).
  { destruct (drawn d1) as [w|] eqn:Hw; [|reflexivity].
    unfold power_buyer_result, stat_of.
    rewrite (dict_get_agree w Hsame); [reflexivity|].
    eapply power_buyer_participants_eligible; [exact Hpb|].
    eapply weighted_choice_drawn_In. exact Hw. }
  assert (H2 : volume_king_result cycle_stats_snapshot' vk (drawn d2)
               = volume_king_result cycle_stats_snapshot vk (drawn d2)).
  { destruct (drawn d2) as [w|] eqn:Hw; [|reflexivity].
    unfold volume_king_result, stat_of.
    rewrite (dict_get_agree w Hsame); [reflexivity|].
    eapply volume_king_participants_eligible; [exact Hvk|].
    eapply weighted_choice_drawn_In. exact Hw. }
  rewrite H1, H2. reflexivity.
Qed.

(** Both lists of statistics are built when the rows of the eligible
    wallets are complete. *)
Lemma stat_participant_rows eligible cycle_stats_snapshot rules :
  (forall w s, In (w, s) cycle_stats_snapshot -> In w eligible -> complete s) ->
  exists pb vk,
    power_buyer_participants eligible cycle_stats_snapshot = Ok pb
    /\ volume_king_participants eligible cycle_stats_snapshot rules = Ok vk.
Proof.
  intros Hcomplete.
  unfold power_buyer_participants, volume_king_participants.
  edestruct (stat_participants_total eligible
               (fun s => field "largest_buy" (largest_buy s))
               (fun x => gtb x zero) cycle_stats_snapshot) as (l1 & ->).
  { intros w s Hin Hel. destruct (Hcomplete w s Hin Hel) as (_ & H & _).
    destruct (largest_buy s) as [x|]; [cbn; eauto|congruence]. }
  edestruct (stat_participants_total eligible
               (fun s => field "total_volume" (total_volume s))
               (fun x => geb x (min_trade_volume rules)) cycle_stats_snapshot)
    as (l2 & ->).
  { intros w s Hin Hel. destruct (Hcomplete w s Hin Hel) as (H & _).
    destruct (total_volume s) as [x|]; [cbn; eauto|congruence]. }
  cbn. eauto.
Qed.

(** Away from the empty address, a run over complete rows returns, and
    the record of a category is [None] exactly when its list of
    participants is empty; an empty list or a total weight of 0 is no
    error. A winner whose address is the empty string is taken for no
    winner by the tests [if ..._winner_wallet:]. *)
Lemma truthy_Some w : w <> "" -> Py.truthy (Some w) = true.
Proof. destruct w; [congruence|reflexivity]. Qed.

Lemma drawn_nil st : drawn (_weighted_choice (F := F) (G := G) [] st) = None.
Proof. reflexivity. Qed.

Lemma lottery_drawn_nil st : drawn (lottery_draw (F := F) (G := G) [] st) = None.
Proof. reflexivity. Qed.

(** X3. When the rows of the eligible wallets are complete and no
    eligible wallet has the empty address, both lists of statistics are
    built, the run returns its records, and the record of each category
    is [None] exactly when its list of participants is empty. *)
Lemma records_follow_participants order g token_holders cycle_stats_snapshot
    initial_balances_snapshot verification_seed rules :
  dict_wf cycle_stats_snapshot ->
  let final_balances := final_balances_of token_holders in
  let eligible := universally_eligible_wallets final_balances rules in
  let ah := active_holder_participants order eligible final_balances
              initial_balances_snapshot in
  let lot := lottery_participants order eligible in
  (forall w s, In (w, s) cycle_stats_snapshot -> In w eligible -> complete s) ->
  ~ In "" eligible ->
  exists pb vk res st,
    power_buyer_participants eligible cycle_stats_snapshot = Ok pb
    /\ volume_king_participants eligible cycle_stats_snapshot rules = Ok vk
    /\ run order g token_holders cycle_stats_snapshot initial_balances_snapshot
         verification_seed rules = (Ok res, st)
    /\ (power_buyer res = None <-> pb = [])
    /\ (volume_king res = None <-> vk = [])
    /\ (active_holder res = None <-> ah = [])
    /\ (lottery res = None <-> lot = []).
Proof.
  intros Hwf final_balances eligible ah lot Hcomplete Hempty.
  destruct (stat_participant_rows eligible cycle_stats_snapshot rules Hcomplete)
    as (pb & vk & Hpb & Hvk).
  exists pb, vk. rewrite run_stages.
  fold final_balances eligible ah lot. rewrite Hpb, Hvk. cbv zeta.
  set (d1 := _weighted_choice pb (seeded verification_seed)).
  set (d2 := _weighted_choice vk (snd d1)).
  set (d3 := _weighted_choice ah (snd d2)).
  set (d4 := lottery_draw lot (snd d3)).
  assert (Hne : forall w (l : list (string * F)),
             In w (map fst l) -> incl (map fst l) eligible -> w <> "").
  { intros w l Hin Hincl ->. apply Hempty. now apply Hincl. }
  (* Power Buyer *)
  assert (H1 : exists pbr,
             power_buyer_result cycle_stats_snapshot pb (drawn d1) = Ok pbr
             /\ (pbr = None <-> pb = [])).
  { destruct pb as [|p rest] eqn:Epb.
    - exists None. split; [reflexivity|tauto].
    - destruct (weighted_choice_drawn_nonempty (participants := p :: rest)
                  (seeded verification_seed))
        as (w & Hw); [discriminate|].
      fold d1 in Hw. pose proof (weighted_choice_drawn_In _ _ Hw) as Hin.
      pose proof (power_buyer_participants_eligible _ _ Hpb) as Hincl.
      destruct (sorted_stat_participants _ _ _ Hwf Hpb) as (_ & Hchar).
      apply in_map_iff in Hin. destruct Hin as ([w' x] & E & Hin'). cbn in E. subst w'.
      pose proof (proj1 (Hchar _ _) Hin') as (Hel & s & Hs & Hg & _).
      destruct (Hcomplete w s (dict_get_In _ _ Hs) Hel) as (_ & Hlb & Htx & _).
      rewrite Hw. unfold power_buyer_result, stat_of.
      rewrite truthy_Some, Hs.
      + destruct (largest_buy s) as [lb|]; [|congruence].
        destruct (largest_buy_tx s) as [tx|]; [|congruence].
        cbn. eexists. split; [reflexivity|]. split; discriminate.
      + apply (Hne w (p :: rest)); [|exact Hincl].
        apply in_map_iff. exists (w, x). auto. }
  (* Volume King *)
  assert (H2 : exists vkr,
             volume_king_result cycle_stats_snapshot vk (drawn d2) = Ok vkr
             /\ (vkr = None <-> vk = [])).
  { destruct vk as [|p rest] eqn:Evk.
    - exists None. split; [reflexivity|tauto].
    - destruct (weighted_choice_drawn_nonempty (participants := p :: rest) (snd d1))
        as (w & Hw); [discriminate|].
      fold d2 in Hw. pose proof (weighted_choice_drawn_In _ _ Hw) as Hin.
      pose proof (volume_king_participants_eligible _ _ _ Hvk) as Hincl.
      destruct (sorted_stat_participants _ _ _ Hwf Hvk) as (_ & Hchar).
      apply in_map_iff in Hin. destruct Hin as ([w' x] & E & Hin'). cbn in E. subst w'.
      pose proof (proj1 (Hchar _ _) Hin') as (Hel & s & Hs & Hg & _).
      destruct (Hcomplete w s (dict_get_In _ _ Hs) Hel) as (Htv & _ & _ & Hb & Hsl).
      rewrite Hw. unfold volume_king_result, stat_of.
      rewrite truthy_Some, Hs.
      + destruct (total_volume s) as [tv|]; [|congruence].
        destruct (buys s) as [b|]; [|congruence].
        destruct (sells s) as [sl|]; [|congruence].
        cbn. eexists. split; [reflexivity|]. split; discriminate.
      + apply (Hne w (p :: rest)); [|exact Hincl].
        apply in_map_iff. exists (w, x). auto. }
  destruct H1 as (pbr & -> & Hpbr). destruct H2 as (vkr & -> & Hvkr).
  do 2 eexists. split; [reflexivity|]. split; [reflexivity|].
  split; [reflexivity|]. cbn [power_buyer volume_king active_holder lottery].
  split; [exact Hpbr|]. split; [exact Hvkr|]. split.
  - (* Active Holder *)
    destruct ah as [|p rest] eqn:Eah.
    + split; reflexivity.
    + destruct (weighted_choice_drawn_nonempty (participants := p :: rest) (snd d2))
        as (w & Hw); [discriminate|].
      fold d3 in Hw. pose proof (weighted_choice_drawn_In _ _ Hw) as Hin.
      rewrite Hw. unfold active_holder_result. rewrite truthy_Some.
      * split; discriminate.
      * apply (Hne w (p :: rest)); [exact Hin|].
        rewrite <- Eah. apply active_holder_participants_eligible.
  - (* Lottery *)
    destruct lot as [|p rest] eqn:Elot.
    + split; reflexivity.
    + destruct (lottery_draw_drawn_nonempty (participants := p :: rest) (snd d3))
        as (w & Hw); [discriminate|].
      fold d4 in Hw. pose proof (lottery_draw_drawn_In _ _ Hw) as Hin.
      rewrite Hw. unfold lottery_result. rewrite truthy_Some.
      * split; discriminate.
      * intros ->. apply Hempty.
        apply (lottery_participants_In order eligible ""). fold lot.
        rewrite Elot. exact Hin.
Qed.

End Properties.

(** * The properties on concrete packages *)

Section Runs.
Import Packages.
Local Open Scope Q_scope.

Ltac dict_wf_by_computation :=
  unfold dict_wf, Py.keys; cbn;
  repeat (constructor; [cbn; intuition discriminate|]); constructor.

Lemma scenario_stats_wf : dict_wf Scenario.cycle_stats_snapshot.
Proof. dict_wf_by_computation. Qed.

(** The scenario of the specification: the four winners are the same
    from two generator states and two enumeration orders. *)
Example scenario_run :
  fst (run insertion_order 0%N Scenario.token_holders
         Scenario.cycle_stats_snapshot Scenario.initial_balances_snapshot
         "test" Scenario.rules)
  = fst (run reverse_order 7%N Scenario.token_holders
           Scenario.cycle_stats_snapshot Scenario.initial_balances_snapshot
           "test" Scenario.rules)
  /\ Scenario.eligible = ["A"; "B"]
  /\ power_buyer_participants Scenario.eligible Scenario.cycle_stats_snapshot
     = Ok [("A", 5 # 1)]
  /\ volume_king_participants Scenario.eligible Scenario.cycle_stats_snapshot
       Scenario.rules
     = Ok [("B", 30 # 1)]
  /\ active_holder_participants insertion_order Scenario.eligible
       (final_balances_of Scenario.token_holders)
       Scenario.initial_balances_snapshot
     = [("A", 160 # 4)]
  /\ calls (snd (run insertion_order 0%N Scenario.token_holders
                   Scenario.cycle_stats_snapshot
                   Scenario.initial_balances_snapshot "test" Scenario.rules))
     = [CallSeed "test"; CallUniform 0 (5 # 1); CallUniform 0 (30 # 1);
        CallUniform 0 (160 # 4); CallChoice 2].
Proof. repeat split; vm_compute; reflexivity. Qed.

(** Sorting puts the participants in address order before the scan. *)
Example sort_order_sensitivity :
  Py.sorted fst [("b", 1 # 1); ("a", 3 # 1)] = [("a", 3 # 1); ("b", 1 # 1)]
  /\ scan (2 # 1) 0 [("b", 1 # 1); ("a", 3 # 1)] = Some "a"
  /\ scan (1 # 1) 0 [("b", 1 # 1); ("a", 3 # 1)] = Some "b"
  /\ scan (1 # 1) 0 (Py.sorted fst [("b", 1 # 1); ("a", 3 # 1)]) = Some "a".
Proof. repeat split; vm_compute; reflexivity. Qed.

(** Witness of C5 on the scenario. *)
Lemma stat_participant_lists_witness :
  dict_wf Scenario.cycle_stats_snapshot
  /\ (forall w x,
        In (w, x) [("A", 5 # 1)] <->
        In w Scenario.eligible
        /\ exists s, Py.dict_get Scenario.cycle_stats_snapshot w = Some s
                     /\ largest_buy s = Some x /\ gtb x zero = true)
  /\ (forall w x,
        In (w, x) [("B", 30 # 1)] <->
        In w Scenario.eligible
        /\ exists s, Py.dict_get Scenario.cycle_stats_snapshot w = Some s
                     /\ total_volume s = Some x
                     /\ geb x (min_trade_volume Scenario.rules) = true).
Proof.
  split; [exact scenario_stats_wf|].
  destruct (stat_participant_lists Scenario.token_holders Scenario.rules
              scenario_stats_wf) as (Hpb & Hvk & _).
  split.
  - apply (Hpb [("A", 5 # 1)]). vm_compute. reflexivity.
  - apply (Hvk [("B", 30 # 1)]). vm_compute. reflexivity.
Defined.

(** Witness of C7 (amended) on the scenario. *)
Lemma win_chance_reported_witness :
  dict_wf Scenario.cycle_stats_snapshot
  /\ exists res st,
       run insertion_order 0%N Scenario.token_holders
         Scenario.cycle_stats_snapshot Scenario.initial_balances_snapshot
         "test" Scenario.rules = (Ok res, st)
       /\ (forall r, lottery res = Some r ->
             In (lot_wallet r) (lottery_participants insertion_order Scenario.eligible)
             /\ lot_win_chance_percent r
                = mul (div one
                         (of_nat (length (lottery_participants insertion_order
                                            Scenario.eligible))))
                    hundred)
       /\ exists r, volume_king res = Some r.
Proof.
  split; [exact scenario_stats_wf|].
  do 2 eexists. split; [vm_compute; reflexivity|]. split.
  - eapply (win_chance_reported insertion_order 0%N Scenario.token_holders
              Scenario.initial_balances_snapshot "test" Scenario.rules
              scenario_stats_wf).
    vm_compute. reflexivity.
  - eexists. reflexivity.
Defined.

(** Counterexample to C7 as stated: with negative volumes the total
    weight of Volume King is -4, not 0, yet 100 is reported, and not
    [(winner_weight / total_weight) * 100], which is 25. *)
Lemma win_chance_not_as_claimed :
  exists res st r vk,
    run insertion_order 0%N NegativeVolume.token_holders
      NegativeVolume.cycle_stats_snapshot [] "test" NegativeVolume.rules
    = (Ok res, st)
    /\ volume_king_participants NegativeVolume.eligible
         NegativeVolume.cycle_stats_snapshot NegativeVolume.rules = Ok vk
    /\ volume_king res = Some r
    /\ In (vk_wallet r, vk_metric r) vk
    /\ eqb (sum (map snd vk)) zero = false
    /\ vk_win_chance_percent r = hundred
    /\ ~ (vk_win_chance_percent r
          == claimed_win_chance (vk_metric r) (sum (map snd vk))).
Proof.
  do 4 eexists.
  split; [vm_compute; reflexivity|].
  split; [vm_compute; reflexivity|].
  split; [reflexivity|].
  split; [cbn; left; reflexivity|].
  split; [vm_compute; reflexivity|].
  split; [reflexivity|].
  vm_compute. discriminate.
Qed.

(** The same package under any generator, any enumeration order and any
    earlier state: whichever of the two wallets is drawn, 100 is
    reported for Volume King. *)
Lemma negative_volume_reports_hundred {G : Type} (rng : Generator Q G)
    (order : SetOrder) (g : G) (verification_seed : string) :
  exists res st r,
    run order g NegativeVolume.token_holders NegativeVolume.cycle_stats_snapshot
      [] verification_seed NegativeVolume.rules = (Ok res, st)
    /\ volume_king res = Some r
    /\ (vk_wallet r = "a" /\ vk_metric r = -1 # 1
        \/ vk_wallet r = "b" /\ vk_metric r = -3 # 1)
    /\ vk_win_chance_percent r = hundred.
Proof.
  rewrite run_stages.
  replace (power_buyer_participants _ NegativeVolume.cycle_stats_snapshot)
    with (Ok (@nil (string * Q))) by (vm_compute; reflexivity).
  replace (volume_king_participants _ NegativeVolume.cycle_stats_snapshot
             NegativeVolume.rules)
    with (Ok [("a", -1 # 1); ("b", -3 # 1)]) by (vm_compute; reflexivity).
  cbv zeta. rewrite drawn_nil.
  set (d1 := _weighted_choice [] (seeded verification_seed)).
  destruct (weighted_choice_drawn_nonempty
              (participants := [("a", -1 # 1); ("b", -3 # 1)]) (snd d1))
    as (w & Hw); [discriminate|].
  pose proof (weighted_choice_drawn_In _ _ Hw) as Hin.
  rewrite Hw. cbn in Hin. destruct Hin as [<-|[<-|[]]].
  - do 3 eexists. split; [reflexivity|]. cbn.
    split; [reflexivity|]. split; [left; split; reflexivity|reflexivity].
  - do 3 eexists. split; [reflexivity|]. cbn.
    split; [reflexivity|]. split; [right; split; reflexivity|reflexivity].
Qed.

(** C8 at a holder whose address is the empty string: the lists of
    Active Holder and Lottery hold this wallet and it is drawn, but
    both records are [None]. *)
Lemma empty_address_winner_dropped :
  active_holder_participants insertion_order EmptyAddress.eligible
    (final_balances_of EmptyAddress.token_holders) []
  = [("", 400 # 4)]
  /\ lottery_participants insertion_order EmptyAddress.eligible = [""]
  /\ exists st,
       run insertion_order 0%N EmptyAddress.token_holders [] [] "test" rules_10_25
       = (Ok {| power_buyer := None; volume_king := None;
                active_holder := None; lottery := None |}, st)
       /\ calls st = [CallSeed "test"; CallUniform 0 (400 # 4); CallChoice 1].
Proof.
  split; [vm_compute; reflexivity|].
  split; [vm_compute; reflexivity|].
  eexists. split; vm_compute; reflexivity.
Qed.

(** The same under any generator, any enumeration order and any earlier
    state. *)
Lemma empty_address_never_wins {G : Type} (rng : Generator Q G)
    (order : SetOrder) (g : G) (verification_seed : string) :
  lottery_participants order EmptyAddress.eligible = [""]
  /\ exists st,
       run order g EmptyAddress.token_holders [] [] verification_seed rules_10_25
       = (Ok {| power_buyer := None; volume_king := None;
                active_holder := None; lottery := None |}, st).
Proof.
  assert (Hlot : lottery_participants order EmptyAddress.eligible = [""]).
  { rewrite (lottery_participants_order order insertion_order)
      by apply eligible_NoDup.
    vm_compute. reflexivity. }
  assert (Hah : active_holder_participants order EmptyAddress.eligible
                  (final_balances_of EmptyAddress.token_holders) []
                = [("", 400 # 4)]).
  { rewrite (active_holder_participants_order order insertion_order)
      by apply eligible_NoDup.
    vm_compute. reflexivity. }
  split; [exact Hlot|].
  rewrite run_stages. fold EmptyAddress.eligible. rewrite Hlot, Hah.
  cbn [power_buyer_participants volume_king_participants stat_participants res_map
       Py.sorted].
  cbv zeta. rewrite !drawn_nil.
  set (st2 := snd (_weighted_choice [] (snd (_weighted_choice [] _)))).
  destruct (weighted_choice_drawn_nonempty
              (participants := [("", 400 # 4)]) st2) as (w & Hw); [discriminate|].
  pose proof (weighted_choice_drawn_In _ _ Hw) as Hin.
  set (st3 := snd (_weighted_choice [("", 400 # 4)] st2)).
  destruct (lottery_draw_drawn_nonempty (participants := [""]) st3)
    as (w' & Hw'); [discriminate|].
  pose proof (lottery_draw_drawn_In _ _ Hw') as Hin'.
  rewrite Hw, Hw'.
  cbn in Hin, Hin'. destruct Hin as [<-|[]]. destruct Hin' as [<-|[]].
  eexists. reflexivity.
Qed.


End Runs.

(** * Further properties of the calculation *)

Section Further.
Context {F G : Type} {num : Numeric F} {rng : Generator F G}.
Implicit Types (order : SetOrder) (g : G)
  (token_holders : list (TokenHolder F))
  (cycle_stats_snapshot : Py.dict (CycleStat F))
  (initial_balances_snapshot : Py.dict F)
  (verification_seed : string) (rules : Rules F).

(** X8. A draw from a list with one participant returns this
    participant, whatever its weight and whatever the generator yields;
    so does the Lottery draw from one wallet. *)
Theorem single_participant_wins (wallet : string) (weight : F) (st : St F G) :
  fst (_weighted_choice [(wallet, weight)] st) = Ok (Some wallet)
  /\ fst (lottery_draw [wallet] st) = Ok (Some wallet).
Proof.
  split.
  - destruct (weighted_choice_returns [(wallet, weight)] st)
      as (w & st' & -> & _ & item & -> & [<-|[]]).
    reflexivity.
  - destruct (lottery_draw_returns [wallet] st)
      as (w & st' & -> & _ & item & -> & [<-|[]]).
    reflexivity.
Qed.

Lemma dict_get_listed {V : Type} (d : Py.dict V) k :
  In k (Py.keys d) -> exists v, Py.dict_get d k = Some v.
Proof.
  intros Hin. destruct (Py.dict_get d k) as [v|] eqn:E; [eauto|].
  apply dict_get_None in E. tauto.
Qed.

Lemma stat_participants_listed eligible (get : CycleStat F -> Res F) keep
    (items : Py.dict (CycleStat F)) l w :
  stat_participants eligible get keep items = Ok l ->
  In w (map fst l) -> In w (Py.keys items).
Proof.
  intros Hl Hin. apply in_map_iff in Hin. destruct Hin as ([w' x] & E & Hin).
  cbn in E. subst w'. apply (stat_participants_In _ _ _ _ Hl) in Hin.
  destruct Hin as (s & Hin & _). unfold Py.keys.
  change w with (fst (w, s)). now apply in_map.
Qed.

Definition field_names : list string :=
  ["largest_buy"; "total_volume"; "largest_buy_tx"; "buys"; "sells"].

(** An exception of a run is the [KeyError] of a field of a row. *)
Lemma run_Raise_field order g token_holders cycle_stats_snapshot
    initial_balances_snapshot verification_seed rules e st :
  run order g token_holders cycle_stats_snapshot initial_balances_snapshot
    verification_seed rules = (Raise e, st) ->
  exists name, e = KeyError name /\ In name field_names.
Proof.
  rewrite run_stages.
  set (eligible := universally_eligible_wallets (final_balances_of token_holders) rules).
  destruct (power_buyer_participants eligible cycle_stats_snapshot) as [pb|e0] eqn:Hpb.
  2:{ intros [= <- _]. unfold power_buyer_participants in Hpb.
      destruct (stat_participants _ _ _ _) as [l|e1] eqn:Hl; [discriminate|].
      injection Hpb as ->. apply stat_participants_Raise_inv in Hl.
      destruct Hl as (w & s & _ & _ & Hf). apply field_Raise in Hf.
      exists "largest_buy". split; [tauto|cbn; tauto]. }
  destruct (volume_king_participants eligible cycle_stats_snapshot rules)
    as [vk|e0] eqn:Hvk.
  2:{ intros [= <- _]. unfold volume_king_participants in Hvk.
      destruct (stat_participants _ _ _ _) as [l|e1] eqn:Hl; [discriminate|].
      injection Hvk as ->. apply stat_participants_Raise_inv in Hl.
      destruct Hl as (w & s & _ & _ & Hf). apply field_Raise in Hf.
      exists "total_volume". split; [tauto|cbn; tauto]. }
  cbv zeta.
  set (d1 := _weighted_choice pb _). set (d2 := _weighted_choice vk _).
  assert (Hk1 : forall w, drawn d1 = Some w -> In w (Py.keys cycle_stats_snapshot)).
  { intros w Hw. apply weighted_choice_drawn_In in Hw.
    apply res_map_Ok in Hpb. destruct Hpb as (l & Hl & ->).
    eapply stat_participants_listed; [exact Hl|].
    apply in_map_iff in Hw. destruct Hw as (p & <- & Hp).
    apply in_map. now apply sorted_In in Hp. }
  assert (Hk2 : forall w, drawn d2 = Some w -> In w (Py.keys cycle_stats_snapshot)).
  { intros w Hw. apply weighted_choice_drawn_In in Hw.
    apply res_map_Ok in Hvk. destruct Hvk as (l & Hl & ->).
    eapply stat_participants_listed; [exact Hl|].
    apply in_map_iff in Hw. destruct Hw as (p & <- & Hp).
    apply in_map. now apply sorted_In in Hp. }
  destruct (power_buyer_result cycle_stats_snapshot pb (drawn d1)) as [pbr|e1] eqn:H1.
  - destruct (volume_king_result cycle_stats_snapshot vk (drawn d2)) as [vkr|e2] eqn:H2;
      [discriminate|].
    intros [= <- _]. unfold volume_king_result in H2.
    destruct (drawn d2) as [w|]; [|discriminate].
    destruct (Py.truthy (Some w)); [|discriminate].
    destruct (dict_get_listed _ _ (Hk2 w eq_refl)) as (s & Hs).
    unfold stat_of in H2. rewrite Hs in H2.
    destruct (total_volume s); cbn in H2;
      [|injection H2 as <-; exists "total_volume"; split; [reflexivity|cbn; tauto]].
    destruct (buys s); cbn in H2; [|injection H2 as <-; exists "buys"; split; [reflexivity|cbn; tauto]].
    destruct (sells s); cbn in H2; [discriminate|].
    injection H2 as <-. exists "sells". split; [reflexivity|cbn; tauto].
  - intros [= <- _]. unfold power_buyer_result in H1.
    destruct (drawn d1) as [w|]; [|discriminate].
    destruct (Py.truthy (Some w)); [|discriminate].
    destruct (dict_get_listed _ _ (Hk1 w eq_refl)) as (s & Hs).
    unfold stat_of in H1. rewrite Hs in H1.
    destruct (largest_buy s); cbn in H1;
      [|injection H1 as <-; exists "largest_buy"; split; [reflexivity|cbn; tauto]].
    destruct (largest_buy_tx s); cbn in H1; [discriminate|].
    injection H1 as <-. exists "largest_buy_tx". split; [reflexivity|cbn; tauto].
Qed.

Lemma draw_calls_choice (participants : list (string * F)) n :
  In (CallChoice n) (draw_calls participants) -> 0 < n.
Proof.
  unfold draw_calls. destruct participants as [|p rest]; [intros []|].
  cbv zeta. destruct (eqb _ _); intros [H|[]]; [|discriminate].
  injection H as <-. cbn. lia.
Qed.

Lemma lottery_calls_choice (participants : list string) n :
  In (CallChoice n) (lottery_calls (F := F) participants) -> 0 < n.
Proof.
  destruct participants as [|p rest]; [intros []|].
  intros [H|[]]. injection H as <-. cbn. lia.
Qed.

(** X7. For holders that have their address and their amount, rules
    that have both thresholds, and numbers whose arithmetic and
    comparisons do not raise, the only exception of a run is the
    [KeyError] of one of the five fields of a row of statistics: every
    call of [random.choice] gets a list that is not empty, and the
    winners of Power Buyer and Volume King have their row in
    [cycle_stats_snapshot]. *)
Theorem run_raises_only_field_errors order g token_holders cycle_stats_snapshot
    initial_balances_snapshot verification_seed rules :
  let eligible :=
    universally_eligible_wallets (final_balances_of token_holders) rules in
  let outcome :=
    run order g token_holders cycle_stats_snapshot initial_balances_snapshot
      verification_seed rules in
  (forall e, fst outcome = Raise e ->
             exists name, e = KeyError name /\ In name field_names)
  /\ (forall n, In (CallChoice n) (calls (snd outcome)) -> 0 < n)
  /\ (forall pb w,
        power_buyer_participants eligible cycle_stats_snapshot = Ok pb ->
        drawn (_weighted_choice pb (seeded verification_seed)) = Some w ->
        exists s, Py.dict_get cycle_stats_snapshot w = Some s)
  /\ (forall vk w (st : St F G),
        volume_king_participants eligible cycle_stats_snapshot rules = Ok vk ->
        drawn (_weighted_choice vk st) = Some w ->
        exists s, Py.dict_get cycle_stats_snapshot w = Some s).
Proof.
  intros eligible outcome. split; [|split; [|split]].
  - intros e He. destruct outcome as [r st] eqn:E. cbn in He. subst r.
    exact (run_Raise_field _ _ _ _ _ _ _ E).
  - intros n. unfold outcome. rewrite run_stages. fold eligible.
    destruct (power_buyer_participants eligible cycle_stats_snapshot) as [pb|e0].
    2:{ cbn. intros [H|[]]. discriminate. }
    cbv zeta.
    destruct (volume_king_participants eligible cycle_stats_snapshot rules)
      as [vk|e0]; cbn [snd].
    + rewrite lottery_draw_calls, !weighted_choice_calls. cbn [seeded calls].
      rewrite !in_app_iff. cbn [In].
      intuition (try discriminate;
                 eauto using draw_calls_choice, lottery_calls_choice).
    + rewrite weighted_choice_calls. cbn [seeded calls].
      rewrite !in_app_iff. cbn [In].
      intuition (try discriminate; eauto using draw_calls_choice).
  - intros pb w Hpb Hw. apply weighted_choice_drawn_In in Hw.
    apply res_map_Ok in Hpb. destruct Hpb as (l & Hl & ->).
    apply dict_get_listed. eapply stat_participants_listed; [exact Hl|].
    apply in_map_iff in Hw. destruct Hw as (p & <- & Hp).
    apply in_map. now apply sorted_In in Hp.
  - intros vk w st Hvk Hw. apply weighted_choice_drawn_In in Hw.
    apply res_map_Ok in Hvk. destruct Hvk as (l & Hl & ->).
    apply dict_get_listed. eapply stat_participants_listed; [exact Hl|].
    apply in_map_iff in Hw. destruct Hw as (p & <- & Hp).
    apply in_map. now apply sorted_In in Hp.
Qed.


(** X6. What the records of a run hold: the Power Buyer record has the
    [largest_buy] and the [largest_buy_tx] of the row of its wallet, the
    Volume King record its [total_volume], [buys] and [sells]; the
    Active Holder record has the final balance of its wallet, as metric
    too, and its starting balance, 0 when it has none; the Lottery
    record has the final balance of its wallet. *)
Theorem winner_record_fields order g token_holders cycle_stats_snapshot
    initial_balances_snapshot verification_seed rules res st :
  run order g token_holders cycle_stats_snapshot initial_balances_snapshot
    verification_seed rules = (Ok res, st) ->
  (forall r, power_buyer res = Some r ->
     exists s, Py.dict_get cycle_stats_snapshot (pb_wallet r) = Some s
               /\ largest_buy s = Some (pb_metric r)
               /\ largest_buy_tx s = Some (pb_tx_signature r))
  /\ (forall r, volume_king res = Some r ->
        exists s, Py.dict_get cycle_stats_snapshot (vk_wallet r) = Some s
                  /\ total_volume s = Some (vk_metric r)
                  /\ buys s = Some (vk_buys r)
                  /\ sells s = Some (vk_sells r))
  /\ (forall r, active_holder res = Some r ->
        final_balance token_holders (ah_wallet r) = Some (ah_final_balance r)
        /\ ah_metric r = ah_final_balance r
        /\ ah_start_balance r
           = match Py.dict_get initial_balances_snapshot (ah_wallet r) with
             | Some b => b
             | None => zero
             end)
  /\ (forall r, lottery res = Some r ->
        final_balance token_holders (lot_wallet r) = Some (lot_metric r)).
Proof.
  intros Hrun.
  destruct (winners_eligible _ _ _ _ _ _ _ Hrun) as (_ & _ & Hah & Hlot).
  apply run_Ok_inv in Hrun.
  destruct Hrun as (pb & vk & _ & _ & H1 & H2 & H3 & H4 & _).
  split; [|split; [|split]]; intros r Hr.
  - rewrite Hr in H1. apply power_buyer_result_Some in H1.
    destruct H1 as (_ & _ & s & Hs & Hlb & Htx & _). eauto.
  - rewrite Hr in H2. apply volume_king_result_Some in H2.
    destruct H2 as (_ & _ & s & Hs & Htv & Hb & Hsl & _). exists s. auto.
  - rewrite Hr in H3. symmetry in H3. apply active_holder_result_Some in H3.
    destruct H3 as (_ & _ & Hm & Hf & Hsb & _).
    apply Hah in Hr. apply eligible_final_balance in Hr.
    destruct Hr as (b & Hb & _).
    unfold Py.dict_get_default in Hm, Hf, Hsb.
    rewrite final_balances_get, Hb in Hm, Hf.
    rewrite Hf, Hm. auto.
  - rewrite Hr in H4. symmetry in H4. apply lottery_result_Some in H4.
    destruct H4 as (_ & _ & Hm & _).
    apply Hlot in Hr. apply eligible_final_balance in Hr.
    destruct Hr as (b & Hb & _).
    unfold Py.dict_get_default in Hm. rewrite final_balances_get, Hb in Hm.
    now rewrite Hm.
Qed.

(** ** What a run reads of its inputs *)

Lemma stat_participants_same_set eligible eligible' (get : CycleStat F -> Res F)
    keep (items : Py.dict (CycleStat F)) :
  (forall w, In w eligible <-> In w eligible') ->
  stat_participants eligible get keep items
  = stat_participants eligible' get keep items.
Proof.
  intros Hsame. induction items as [|[w s] rest IH]; cbn; [reflexivity|].
  rewrite IH.
  assert (E : Py.set_mem w eligible = Py.set_mem w eligible').
  { destruct (Py.set_mem w eligible) eqn:E1, (Py.set_mem w eligible') eqn:E2;
      try reflexivity.
    - apply set_mem_In, Hsame, set_mem_In in E1. congruence.
    - apply set_mem_In, Hsame, set_mem_In in E2. congruence. }
  now rewrite E.
Qed.

Lemma active_holder_loop_lookup (fb fb' init init' : Py.dict F) wallets :
  (forall w, Py.dict_get fb w = Py.dict_get fb' w) ->
  (forall w, Py.dict_get init w = Py.dict_get init' w) ->
  active_holder_loop fb init wallets = active_holder_loop fb' init' wallets.
Proof.
  intros Hfb Hinit. induction wallets as [|w rest IH]; cbn; [reflexivity|].
  rewrite IH. unfold active_holder_entry, Py.dict_get_default.
  now rewrite Hfb, Hinit.
Qed.

Lemma active_holder_participants_lookup order eligible eligible'
    (fb fb' init init' : Py.dict F) :
  NoDup eligible -> Permutation eligible eligible' ->
  (forall w, Py.dict_get fb w = Py.dict_get fb' w) ->
  (forall w, Py.dict_get init w = Py.dict_get init' w) ->
  active_holder_participants order eligible fb init
  = active_holder_participants order eligible' fb' init'.
Proof.
  intros Hnd Hp Hfb Hinit. unfold active_holder_participants.
  rewrite (@active_holder_loop_lookup fb fb' init init' _ Hfb Hinit).
  apply sorted_order_irrelevant.
  - apply active_holder_loop_NoDup.
    eapply Permutation_NoDup; [symmetry; apply enum_perm|exact Hnd].
  - apply active_holder_loop_perm. rewrite !enum_perm. exact Hp.
Qed.

Lemma lottery_participants_perm order eligible eligible' :
  NoDup eligible -> Permutation eligible eligible' ->
  lottery_participants order eligible = lottery_participants order eligible'.
Proof.
  intros Hnd Hp. unfold lottery_participants.
  apply sorted_order_irrelevant.
  - rewrite map_id. eapply Permutation_NoDup; [symmetry; apply enum_perm|exact Hnd].
  - rewrite !enum_perm. exact Hp.
Qed.

Lemma active_holder_result_lookup (fb fb' init init' : Py.dict F)
    participants winner :
  (forall w, Py.dict_get fb w = Py.dict_get fb' w) ->
  (forall w, Py.dict_get init w = Py.dict_get init' w) ->
  active_holder_result fb init participants winner
  = active_holder_result fb' init' participants winner.
Proof.
  intros Hfb Hinit. unfold active_holder_result, Py.dict_get_default.
  destruct winner as [w|]; [|reflexivity]. now rewrite Hfb, Hinit.
Qed.

Lemma lottery_result_lookup (fb fb' : Py.dict F) participants winner :
  (forall w, Py.dict_get fb w = Py.dict_get fb' w) ->
  lottery_result fb participants winner = lottery_result fb' participants winner.
Proof.
  intros Hfb. unfold lottery_result, Py.dict_get_default.
  destruct winner as [w|]; [|reflexivity]. now rewrite Hfb.
Qed.

(** X5. [token_holders] is read as a mapping: a run depends on it only
    through the final balance of each wallet. *)
Theorem token_holders_read_as_mapping order g token_holders token_holders'
    cycle_stats_snapshot initial_balances_snapshot verification_seed rules :
  (forall w, final_balance token_holders w = final_balance token_holders' w) ->
  run order g token_holders cycle_stats_snapshot initial_balances_snapshot
    verification_seed rules
  = run order g token_holders' cycle_stats_snapshot initial_balances_snapshot
      verification_seed rules.
Proof.
  intros Hsame. rewrite !run_stages.
  set (fb := final_balances_of token_holders).
  set (fb' := final_balances_of token_holders').
  set (eligible := universally_eligible_wallets fb rules).
  set (eligible' := universally_eligible_wallets fb' rules).
  assert (Hfb : forall w, Py.dict_get fb w = Py.dict_get fb' w).
  { intros w. unfold fb, fb'. now rewrite !final_balances_get. }
  assert (Hmem : forall w, In w eligible <-> In w eligible').
  { intros w. unfold eligible, eligible', fb, fb'.
    rewrite !eligible_final_balance. now rewrite Hsame. }
  assert (Hnd : NoDup eligible) by apply eligible_NoDup.
  assert (Hp : Permutation eligible eligible').
  { apply NoDup_Permutation; [exact Hnd|apply eligible_NoDup|exact Hmem]. }
  unfold power_buyer_participants, volume_king_participants.
  rewrite !(@stat_participants_same_set eligible eligible' _ _ _ Hmem).
  rewrite (@active_holder_participants_lookup order eligible eligible' fb fb'
             initial_balances_snapshot initial_balances_snapshot Hnd Hp Hfb)
    by reflexivity.
  rewrite (@lottery_participants_perm order eligible eligible' Hnd Hp).
  destruct (res_map _ (stat_participants eligible' _ (fun x => gtb x zero) _))
    as [pb|e]; [|reflexivity].
  destruct (res_map _ (stat_participants eligible' _ _ _)) as [vk|e]; [|reflexivity].
  cbv zeta.
  destruct (power_buyer_result _ _ _) as [pbr|e]; [|reflexivity].
  destruct (volume_king_result _ _ _) as [vkr|e]; [|reflexivity].
  rewrite (@active_holder_result_lookup fb fb' initial_balances_snapshot
             initial_balances_snapshot _ _ Hfb) by reflexivity.
  rewrite (@lottery_result_lookup fb fb' _ _ Hfb). reflexivity.
Qed.


(** ** The insertion order of the dictionaries *)

Lemma dict_wf_perm {V : Type} (d d' : Py.dict V) :
  Permutation d d' -> dict_wf d -> dict_wf d'.
Proof.
  unfold dict_wf, Py.keys. intros Hp Hwf.
  eapply Permutation_NoDup; [|exact Hwf]. now apply Permutation_map.
Qed.

Lemma dict_get_perm {V : Type} (d d' : Py.dict V) k :
  dict_wf d -> Permutation d d' -> Py.dict_get d k = Py.dict_get d' k.
Proof.
  intros Hwf Hp. pose proof (dict_wf_perm Hp Hwf) as Hwf'.
  destruct (Py.dict_get d k) as [v|] eqn:E.
  - symmetry. apply In_dict_get; [exact Hwf'|].
    apply (Permutation_in _ Hp). now apply dict_get_In.
  - destruct (Py.dict_get d' k) as [v'|] eqn:E'; [|reflexivity].
    apply dict_get_In in E'. apply (Permutation_in _ (Permutation_sym Hp)) in E'.
    apply (In_dict_get _ _ Hwf) in E'. congruence.
Qed.

(** Two outcomes of a comprehension: the same exception, or the same
    pairs. *)
Definition same_pairs (r r' : Res (list (string * F))) : Prop :=
  match r, r' with
  | Ok l, Ok l' => Permutation l l'
  | Raise e, Raise e' => e = e'
  | _, _ => False
  end.

Lemma same_pairs_refl r : same_pairs r r.
Proof. destruct r; cbn; reflexivity. Qed.

Lemma same_pairs_trans r1 r2 r3 : same_pairs r1 r2 -> same_pairs r2 r3 -> same_pairs r1 r3.
Proof.
  destruct r1, r2, r3; cbn; try tauto; try congruence.
  apply Permutation_trans.
Qed.

Lemma same_pairs_cons p r r' :
  same_pairs r r' -> same_pairs (res_map (cons p) r) (res_map (cons p) r').
Proof. destruct r, r'; cbn; auto. Qed.

Lemma stat_participants_perm eligible (name : string) (read : CycleStat F -> option F)
    keep (items items' : Py.dict (CycleStat F)) :
  Permutation items items' ->
  same_pairs (stat_participants eligible (fun s => field name (read s)) keep items)
             (stat_participants eligible (fun s => field name (read s)) keep items').
Proof.
  induction 1 as [|[w s] l l' Hp IH|[w s] [w' s'] l|l l' l'' Hp1 IH1 Hp2 IH2].
  - apply same_pairs_refl.
  - cbn. destruct (Py.set_mem w eligible); [|exact IH].
    destruct (field name (read s)) as [x|e]; [|reflexivity].
    destruct (keep x); [now apply same_pairs_cons|exact IH].
  - cbn.
    destruct (Py.set_mem w eligible), (Py.set_mem w' eligible);
      try apply same_pairs_refl.
    destruct (read s) as [x|], (read s') as [x'|]; cbn; try reflexivity.
    + destruct (keep x), (keep x'); try apply same_pairs_refl.
      destruct (stat_participants _ _ _ l); cbn; [apply perm_swap|reflexivity].
    + destruct (keep x); reflexivity.
    + destruct (keep x'); reflexivity.
  - eapply same_pairs_trans; eauto.
Qed.

Lemma sorted_stat_participants_perm eligible (name : string)
    (read : CycleStat F -> option F) keep (items items' : Py.dict (CycleStat F)) :
  dict_wf items -> Permutation items items' ->
  res_map (Py.sorted fst)
    (stat_participants eligible (fun s => field name (read s)) keep items)
  = res_map (Py.sorted fst)
      (stat_participants eligible (fun s => field name (read s)) keep items').
Proof.
  intros Hwf Hp.
  pose proof (stat_participants_perm eligible name read keep Hp) as Hsame.
  destruct (stat_participants _ _ _ items) as [l|e] eqn:Hl,
           (stat_participants _ _ _ items') as [l'|e'] eqn:Hl'; cbn in *;
    try tauto; [|congruence].
  f_equal. apply sorted_order_irrelevant; [|exact Hsame].
  eapply stat_participants_wf; eauto.
Qed.

(** X4. A run depends on the contents of the dictionaries
    [cycle_stats_snapshot] and [initial_balances_snapshot], not on the
    order in which their keys were inserted. *)
Theorem dict_order_irrelevant order g token_holders
    cycle_stats_snapshot cycle_stats_snapshot'
    initial_balances_snapshot initial_balances_snapshot'
    verification_seed rules :
  dict_wf cycle_stats_snapshot ->
  Permutation cycle_stats_snapshot cycle_stats_snapshot' ->
  dict_wf initial_balances_snapshot ->
  Permutation initial_balances_snapshot initial_balances_snapshot' ->
  run order g token_holders cycle_stats_snapshot initial_balances_snapshot
    verification_seed rules
  = run order g token_holders cycle_stats_snapshot' initial_balances_snapshot'
      verification_seed rules.
Proof.
  intros Hwf Hp Hwfi Hpi. rewrite !run_stages.
  set (fb := final_balances_of token_holders).
  set (eligible := universally_eligible_wallets fb rules).
  assert (Hinit : forall w, Py.dict_get initial_balances_snapshot w
                            = Py.dict_get initial_balances_snapshot' w)
    by (intros w; now apply dict_get_perm).
  assert (Hstat : forall w, stat_of cycle_stats_snapshot w
                            = stat_of cycle_stats_snapshot' w)
    by (intros w; unfold stat_of; now rewrite (dict_get_perm w Hwf Hp)).
  unfold power_buyer_participants, volume_king_participants.
  rewrite <- (sorted_stat_participants_perm eligible "largest_buy"
                (@largest_buy F) (fun x => gtb x zero) Hwf Hp).
  rewrite <- (sorted_stat_participants_perm eligible "total_volume"
                (@total_volume F) (fun x => geb x (min_trade_volume rules)) Hwf Hp).
  rewrite <- (@active_holder_participants_lookup order eligible eligible fb fb
                initial_balances_snapshot initial_balances_snapshot'
                (eligible_NoDup fb rules) (Permutation_refl _)
                (fun w => eq_refl) Hinit).
  destruct (res_map _ (stat_participants eligible _ (fun x => gtb x zero) _))
    as [pb|e]; [|reflexivity].
  destruct (res_map _ (stat_participants eligible _ _ _)) as [vk|e]; [|reflexivity].
  cbv zeta.
  assert (H1 : forall w, power_buyer_result cycle_stats_snapshot' pb w
                         = power_buyer_result cycle_stats_snapshot pb w).
  { intros [w|]; [|reflexivity]. unfold power_buyer_result. now rewrite Hstat. }
  assert (H2 : forall w, volume_king_result cycle_stats_snapshot' vk w
                         = volume_king_result cycle_stats_snapshot vk w).
  { intros [w|]; [|reflexivity]. unfold volume_king_result. now rewrite Hstat. }
  rewrite H1, H2.
  rewrite <- (@active_holder_result_lookup fb fb initial_balances_snapshot
                initial_balances_snapshot' _ _ (fun w => eq_refl) Hinit).
  reflexivity.
Qed.

End Further.

(** * The report: [print_winner_report] *)

(** ** [str.replace] and [str.title] on ASCII strings *)

Module Str.
Definition is_lower (c : ascii) : bool :=
  (N.leb 97 (N_of_ascii c) && N.leb (N_of_ascii c) 122)%bool.

Definition is_upper (c : ascii) : bool :=
  (N.leb 65 (N_of_ascii c) && N.leb (N_of_ascii c) 90)%bool.

Definition to_upper (c : ascii) : ascii :=
  if is_lower c then ascii_of_N (N_of_ascii c - 32) else c.

Definition to_lower (c : ascii) : ascii :=
  if is_upper c then ascii_of_N (N_of_ascii c + 32) else c.

(** [s.replace(old, new)] for single characters. *)
Fixpoint replace (old new : ascii) (s : string) : string :=
  match s with
  | EmptyString => EmptyString
  | String c rest =>
      String (if Ascii.eqb c old then new else c) (replace old new rest)
  end.

(** [s.title()]: a letter that follows a letter is put in lower case, any
    other letter in upper case. *)
Fixpoint title_from (previous_is_cased : bool) (s : string) : string :=
  match s with
  | EmptyString => EmptyString
  | String c rest =>
      if (is_lower c || is_upper c)%bool then
        String (if previous_is_cased then to_lower c else to_upper c)
          (title_from true rest)
      else String c (title_from false rest)
  end.

Definition title (s : string) : string := title_from false s.
End Str.

(** ** Values, lines and exceptions *)

(** What a winner dictionary may hold under a key. *)
Inductive Value (F : Type) : Type :=
| VNum (x : F)
| VStr (s : string)
| VNone.
Arguments VNum {F} x.
Arguments VStr {F} s.
Arguments VNone {F}.

(** One constructor per [print] call of the report, with the values
    that the call formats. *)
Inductive Line (F : Type) : Type :=
| LineHeading
| LineRule
| LineCategory (category_title : string)
| LineWallet (wallet : Value F)
| LineWinChance (percent : F)
| LineHoldings (final_balance start_balance : F)
| LineMetric (metric : F)
| LineWinningTx (tx_signature : Value F)
| LineBreakdown (buys sells : F)
| LineNoWinner
| LineClosingRule
| LineFinished
| LineDeterministic.
Arguments LineHeading {F}.
Arguments LineRule {F}.
Arguments LineCategory {F} category_title.
Arguments LineWallet {F} wallet.
Arguments LineWinChance {F} percent.
Arguments LineHoldings {F} final_balance start_balance.
Arguments LineMetric {F} metric.
Arguments LineWinningTx {F} tx_signature.
Arguments LineBreakdown {F} buys sells.
Arguments LineNoWinner {F}.
Arguments LineClosingRule {F}.
Arguments LineFinished {F}.
Arguments LineDeterministic {F}.

(** [KeyError] of a subscript, and the two exceptions of the format
    [.Nf]: [TypeError] on [None], [ValueError] on a string. *)
Inductive ReportExn : Type :=
| ReportKeyError (key : string)
| FormatTypeError
| FormatValueError.

Inductive Printed (A : Type) : Type :=
| Done (a : A)
| Failed (e : ReportExn).
Arguments Done {A} a.
Arguments Failed {A} e.

Section Report.
Context {F : Type} {num : Numeric F}.

(** A step of the report returns or raises, and adds to the lines
    printed so far; what was printed stays printed. *)
Definition P (A : Type) : Type := list (Line F) -> Printed A * list (Line F).

Definition pret {A : Type} (a : A) : P A := fun out => (Done a, out).

Definition pbind {A B : Type} (c : P A) (k : A -> P B) : P B :=
  fun out =>
    match c out with
    | (Done a, out') => k a out'
    | (Failed e, out') => (Failed e, out')
    end.

Definition print (l : Line F) : P unit := fun out => (Done tt, out ++ [l]).

Definition pfail {A : Type} (e : ReportExn) : P A := fun out => (Failed e, out).

Definition pthen {A : Type} (c : P unit) (k : P A) : P A := pbind c (fun _ => k).

(** [d[key]] *)
Definition subscript (d : Py.dict (Value F)) (key : string) : P (Value F) :=
  match Py.dict_get d key with
  | Some v => pret v
  | None => pfail (ReportKeyError key)
  end.

(** [key in d] *)
Definition has_key (d : Py.dict (Value F)) (key : string) : bool :=
  match Py.dict_get d key with
  | Some _ => true
  | None => false
  end.

(** The number that [f"{v:.2f}"] or [f"{v:.4f}"] formats. *)
Definition format_float (v : Value F) : P F :=
  match v with
  | VNum x => pret x
  | VStr _ => pfail FormatValueError
  | VNone => pfail FormatTypeError
  end.

(** Truth value of a value. *)
Definition value_truthy (v : Value F) : bool :=
  match v with
  | VNum x => negb (eqb x zero)
  | VStr s => negb (String.eqb s "")
  | VNone => false
  end.

(** Truth value of [winner_data]: [None] and the empty dictionary are
    false. *)
Definition winner_data_truthy (winner_data : option (Py.dict (Value F))) : bool :=
  match winner_data with
  | Some (_ :: _) => true
  | _ => false
  end.

(** The lines of a winner. *)
Definition print_winner (category : string) (d : Py.dict (Value F)) : P unit :=
  pbind (subscript d "wallet") (fun wallet =>
  pthen (print (LineWallet wallet))
  (pthen
     (if has_key d "win_chance_percent" then
        pbind (subscript d "win_chance_percent") (fun v =>
        pbind (format_float v) (fun x => print (LineWinChance x)))
      else pret tt)
  (pthen
     (if String.eqb category "active_holder" then
        pbind (format_float (Py.dict_get_default d "final_balance" (VNum zero)))
          (fun final_b =>
        pbind (format_float (Py.dict_get_default d "start_balance" (VNum zero)))
          (fun start_b => print (LineHoldings final_b start_b)))
      else if has_key d "metric" then
        pbind (subscript d "metric") (fun v =>
        pbind (format_float v) (fun x => print (LineMetric x)))
      else pret tt)
  (pthen
     (if has_key d "tx_signature"
      then pbind (subscript d "tx_signature") (fun tx =>
           if value_truthy tx then print (LineWinningTx tx) else pret tt)
      else pret tt)
     (if has_key d "buys" then
        pbind (subscript d "buys") (fun vb =>
        pbind (format_float vb) (fun b =>
        pbind (subscript d "sells") (fun vs =>
        pbind (format_float vs) (fun s => print (LineBreakdown b s)))))
      else pret tt))))).

(** The body of the loop over [winners.items()]. *)
Definition print_category (item : string * option (Py.dict (Value F))) : P unit :=
  let (category, winner_data) := item in
  let category_title := Str.title (Str.replace "_" " " category) in
  pthen (print (LineCategory category_title))
    (if winner_data_truthy winner_data then
       match winner_data with
       | Some d => print_winner category d
       | None => pret tt
       end
     else print LineNoWinner).

Fixpoint print_categories (items : list (string * option (Py.dict (Value F))))
    : P unit :=
  match items with
  | [] => pret tt
  | item :: rest => pthen (print_category item) (print_categories rest)
  end.

Definition print_winner_report (winners : list (string * option (Py.dict (Value F))))
    : P unit :=
  pthen (print LineHeading)
  (pthen (print LineRule)
  (pthen (print_categories winners)
  (pthen (print LineClosingRule)
  (pthen (print LineFinished)
         (print LineDeterministic))))).

(** ** The dictionary [results] of the calculation *)

Definition tx_value (tx : option string) : Value F :=
  match tx with
  | Some s => VStr s
  | None => VNone
  end.

Definition power_buyer_dict (r : PowerBuyerWin F) : Py.dict (Value F) :=
  [("wallet", VStr (pb_wallet r)); ("metric", VNum (pb_metric r));
   ("tx_signature", tx_value (pb_tx_signature r));
   ("win_chance_percent", VNum (pb_win_chance_percent r))].

Definition volume_king_dict (r : VolumeKingWin F) : Py.dict (Value F) :=
  [("wallet", VStr (vk_wallet r)); ("metric", VNum (vk_metric r));
   ("buys", VNum (vk_buys r)); ("sells", VNum (vk_sells r));
   ("win_chance_percent", VNum (vk_win_chance_percent r))].

Definition active_holder_dict (r : ActiveHolderWin F) : Py.dict (Value F) :=
  [("wallet", VStr (ah_wallet r)); ("metric", VNum (ah_metric r));
   ("final_balance", VNum (ah_final_balance r));
   ("start_balance", VNum (ah_start_balance r));
   ("win_chance_percent", VNum (ah_win_chance_percent r))].

Definition lottery_dict (r : LotteryWin F) : Py.dict (Value F) :=
  [("wallet", VStr (lot_wallet r)); ("metric", VNum (lot_metric r));
   ("win_chance_percent", VNum (lot_win_chance_percent r))].

(** [results.items()], in the order in which the calculation sets its
    four keys. *)
Definition results_items (res : Results F)
    : list (string * option (Py.dict (Value F))) :=
  [("power_buyer", option_map power_buyer_dict (power_buyer res));
   ("volume_king", option_map volume_king_dict (volume_king res));
   ("active_holder", option_map active_holder_dict (active_holder res));
   ("lottery", option_map lottery_dict (lottery res))].

End Report.


(** ** Vocabulary of the statements on the report *)

Definition category_titles {F : Type} (lines : list (Line F)) : list string :=
  flat_map (fun l => match l with LineCategory t => [t] | _ => [] end) lines.

Definition is_no_winner {F : Type} (l : Line F) : bool :=
  match l with
  | LineNoWinner => true
  | _ => false
  end.

(** The number of categories without record. *)
Definition categories_without_winner {F : Type} (res : Results F) : nat :=
  length (filter (fun present : bool => negb present)
            [if power_buyer res is Some _ then true else false;
             if volume_king res is Some _ then true else false;
             if active_holder res is Some _ then true else false;
             if lottery res is Some _ then true else false]).

Section ReportFacts.
Context {F : Type} {num : Numeric F}.

(** X10. The report of the records of a calculation is printed whole: no
    exception, the four categories under their titles and in their
    order, one line "no eligible winner" for each category without
    record. *)
Theorem report_of_results_is_complete (res : Results F) :
  exists lines,
    print_winner_report (results_items res) [] = (Done tt, lines)
    /\ category_titles lines
       = ["Power Buyer"; "Volume King"; "Active Holder"; "Lottery"]
    /\ length (filter is_no_winner lines) = categories_without_winner res
    /\ In LineFinished lines.
Proof.
  destruct res as [[[w m [[|c tx]|] ch]|] [vk|] [ah|] [lot|]];
    (eexists; split; [reflexivity|]);
    (split; [reflexivity|]); (split; [reflexivity|]); cbn; tauto.
Qed.


(** *** On any dictionary of winners *)

(** A step that only adds lines, none of them the closing line
    [LineFinished]. *)
Definition adds_no_finish {A : Type} (c : P (F := F) A) : Prop :=
  forall out, exists extra,
    snd (c out) = out ++ extra /\ ~ In LineFinished extra.

Lemma adds_no_finish_pret {A : Type} (a : A) : adds_no_finish (pret a).
Proof. intros out. exists []. cbn. rewrite app_nil_r. auto. Qed.

Lemma adds_no_finish_pfail {A : Type} (e : ReportExn) :
  adds_no_finish (pfail (A := A) e).
Proof. intros out. exists []. cbn. rewrite app_nil_r. auto. Qed.

Lemma adds_no_finish_print (l : Line F) :
  l <> LineFinished -> adds_no_finish (print l).
Proof.
  intros Hl out. exists [l]. cbn. split; [reflexivity|].
  intros [E|[]]. congruence.
Qed.

Lemma adds_no_finish_pbind {A B : Type} (c : P A) (k : A -> P B) :
  adds_no_finish c -> (forall a, adds_no_finish (k a)) ->
  adds_no_finish (pbind c k).
Proof.
  intros Hc Hk out. unfold pbind.
  destruct (Hc out) as (extra & E & Hn).
  destruct (c out) as [[a|e] out']; cbn in E; subst out'.
  - destruct (Hk a (out ++ extra)) as (extra' & E' & Hn').
    exists (extra ++ extra'). rewrite E', app_assoc. split; [reflexivity|].
    rewrite in_app_iff. tauto.
  - exists extra. auto.
Qed.

Lemma adds_no_finish_subscript d key : adds_no_finish (subscript d key).
Proof.
  unfold subscript. destruct (Py.dict_get d key);
    [apply adds_no_finish_pret|apply adds_no_finish_pfail].
Qed.

Lemma adds_no_finish_format v : adds_no_finish (format_float v).
Proof.
  destruct v; cbn;
    [apply adds_no_finish_pret|apply adds_no_finish_pfail|apply adds_no_finish_pfail].
Qed.

Ltac no_finish :=
  repeat first
    [ apply adds_no_finish_pret
    | apply adds_no_finish_pfail
    | apply adds_no_finish_subscript
    | apply adds_no_finish_format
    | apply adds_no_finish_print; discriminate
    | apply adds_no_finish_pbind
    | match goal with
      | |- forall _, _ => intro
      end
    | match goal with
      | |- adds_no_finish (if ?b then _ else _) => destruct b
      | |- adds_no_finish (match ?o with Some _ => _ | None => _ end) => destruct o
      end ].

Lemma adds_no_finish_winner category d : adds_no_finish (print_winner category d).
Proof. unfold print_winner, pthen. no_finish. Qed.

Lemma adds_no_finish_category item : adds_no_finish (print_category item).
Proof.
  destruct item as [category winner_data]. unfold print_category, pthen.
  apply adds_no_finish_pbind; [apply adds_no_finish_print; discriminate|].
  intros _. destruct (winner_data_truthy winner_data).
  - destruct winner_data; [apply adds_no_finish_winner|apply adds_no_finish_pret].
  - apply adds_no_finish_print. discriminate.
Qed.

Lemma adds_no_finish_categories items : adds_no_finish (print_categories items).
Proof.
  induction items as [|item rest IH]; cbn.
  - apply adds_no_finish_pret.
  - apply adds_no_finish_pbind; [apply adds_no_finish_category|auto].
Qed.

(** X12. Whatever the dictionary of winners holds, the report ends with the
    line "finished successfully" exactly when no exception stopped it;
    the lines printed before an exception stay printed. *)
Theorem report_finished_iff_done
    (winners : list (string * option (Py.dict (Value F)))) :
  let outcome := print_winner_report winners [] in
  (fst outcome = Done tt <-> In LineFinished (snd outcome))
  /\ exists lines, snd outcome = LineHeading :: LineRule :: lines.
Proof.
  cbv zeta. unfold print_winner_report, pthen, pbind, print. cbn [app].
  destruct (adds_no_finish_categories winners [LineHeading; LineRule])
    as (extra & E & Hn).
  destruct (print_categories winners [LineHeading; LineRule]) as [[[]|e] out'];
    cbn in E; subst out'; cbn.
  - split.
    + split; [intros _|reflexivity].
      rewrite !in_app_iff. cbn. tauto.
    + eexists. reflexivity.
  - split.
    + split; [discriminate|]. intros [E|[E|H]]; try discriminate. tauto.
    + eexists. reflexivity.
Qed.


(** *** The lines of a report that was printed whole *)

(** The lines that the report prints for a winner when no exception
    stops it, print call by print call. *)
Definition wallet_line (d : Py.dict (Value F)) : list (Line F) :=
  match Py.dict_get d "wallet" with
  | Some wallet => [LineWallet wallet]
  | None => []
  end.

Definition win_chance_line (d : Py.dict (Value F)) : list (Line F) :=
  match Py.dict_get d "win_chance_percent" with
  | Some (VNum x) => [LineWinChance x]
  | _ => []
  end.

Definition category_line (category : string) (d : Py.dict (Value F))
    : list (Line F) :=
  if String.eqb category "active_holder" then
    match Py.dict_get_default d "final_balance" (VNum zero),
          Py.dict_get_default d "start_balance" (VNum zero) with
    | VNum final_b, VNum start_b => [LineHoldings final_b start_b]
    | _, _ => []
    end
  else
    match Py.dict_get d "metric" with
    | Some (VNum x) => [LineMetric x]
    | _ => []
    end.

Definition tx_line (d : Py.dict (Value F)) : list (Line F) :=
  match Py.dict_get d "tx_signature" with
  | Some tx => if value_truthy tx then [LineWinningTx tx] else []
  | None => []
  end.

Definition breakdown_line (d : Py.dict (Value F)) : list (Line F) :=
  match Py.dict_get d "buys", Py.dict_get d "sells" with
  | Some (VNum b), Some (VNum s) => [LineBreakdown b s]
  | _, _ => []
  end.

Definition winner_lines (category : string) (d : Py.dict (Value F))
    : list (Line F) :=
  wallet_line d ++ win_chance_line d ++ category_line category d
  ++ tx_line d ++ breakdown_line d.

Definition item_lines (item : string * option (Py.dict (Value F)))
    : list (Line F) :=
  LineCategory (Str.title (Str.replace "_" " " (fst item)))
  :: match snd item with
     | Some (p :: d) => winner_lines (fst item) (p :: d)
     | _ => [LineNoWinner]
     end.

Lemma pbind_Done {A B : Type} (c : P (F := F) A) (k : A -> P (F := F) B) out b out' :
  pbind c k out = (Done b, out') ->
  exists a mid, c out = (Done a, mid) /\ k a mid = (Done b, out').
Proof.
  unfold pbind. destruct (c out) as [[a|e] mid]; [eauto|discriminate].
Qed.

Lemma print_winner_Done category d out out' :
  print_winner category d out = (Done tt, out') ->
  out' = out ++ winner_lines category d.
Proof.
  unfold print_winner, pthen. intros H.
  apply pbind_Done in H. destruct H as (wallet & o1 & H1 & H).
  apply pbind_Done in H. destruct H as ([] & o2 & H2 & H).
  apply pbind_Done in H. destruct H as ([] & o3 & H3 & H).
  apply pbind_Done in H. destruct H as ([] & o4 & H4 & H).
  apply pbind_Done in H. destruct H as ([] & o5 & H5 & H6).
  assert (E1 : o2 = out ++ wallet_line d).
  { clear - H1 H2. unfold subscript, wallet_line, pret, pfail, print in *.
    destruct (Py.dict_get d "wallet"); [|discriminate].
    injection H1 as <- <-. now injection H2 as <-. }
  assert (E3 : o3 = o2 ++ win_chance_line d).
  { clear - H3. unfold has_key, subscript, win_chance_line, format_float, pbind, pret, pfail, print in *.
    destruct (Py.dict_get d "win_chance_percent") as [[x|s|]|];
      cbn in H3; try discriminate; injection H3 as <-;
      now rewrite ?app_nil_r. }
  assert (E4 : o4 = o3 ++ category_line category d).
  { clear - H4. unfold has_key, subscript, category_line, format_float, pbind, pret, pfail, print in *.
    destruct (String.eqb category "active_holder").
    - destruct (Py.dict_get_default d "final_balance" (VNum zero)) as [f|s|];
        cbn in H4; try discriminate.
      destruct (Py.dict_get_default d "start_balance" (VNum zero)) as [f'|s|];
        cbn in H4; try discriminate.
      now injection H4 as <-.
    - destruct (Py.dict_get d "metric") as [[x|s|]|];
        cbn in H4; try discriminate; injection H4 as <-;
        now rewrite ?app_nil_r. }
  assert (E5 : o5 = o4 ++ tx_line d).
  { clear - H5. unfold has_key, subscript, tx_line, format_float, pbind, pret, pfail, print in *.
    destruct (Py.dict_get d "tx_signature") as [tx|]; cbn in H5.
    - destruct (value_truthy tx); cbn in H5; injection H5 as <-;
        now rewrite ?app_nil_r.
    - injection H5 as <-. now rewrite app_nil_r. }
  assert (E6 : out' = o5 ++ breakdown_line d).
  { clear - H6. unfold has_key, subscript, breakdown_line, format_float, pbind, pret, pfail, print in *.
    destruct (Py.dict_get d "buys") as [[b|s|]|]; cbn in H6; try discriminate.
    - destruct (Py.dict_get d "sells") as [[s|s|]|]; cbn in H6; try discriminate.
      now injection H6 as <-.
    - injection H6 as <-. now rewrite app_nil_r. }
  subst. unfold winner_lines. now rewrite <- !app_assoc.
Qed.

Lemma print_category_Done item out out' :
  print_category item out = (Done tt, out') -> out' = out ++ item_lines item.
Proof.
  destruct item as [category winner_data].
  unfold print_category, item_lines, pthen, pbind, print. cbn [fst snd].
  destruct winner_data as [[|p d]|]; cbn [winner_data_truthy].
  - intros [= <-]. now rewrite <- app_assoc.
  - intros H. apply print_winner_Done in H. subst out'.
    now rewrite <- app_assoc.
  - intros [= <-]. now rewrite <- app_assoc.
Qed.

Lemma print_categories_Done items : forall out out',
  print_categories items out = (Done tt, out') ->
  out' = out ++ flat_map item_lines items.
Proof.
  induction items as [|item rest IH]; cbn; intros out out' H.
  - injection H as <-. now rewrite app_nil_r.
  - unfold pthen in H. apply pbind_Done in H.
    destruct H as ([] & mid & H1 & H2).
    apply print_category_Done in H1. apply IH in H2. subst.
    now rewrite <- app_assoc.
Qed.

Lemma print_winner_report_Done winners lines :
  print_winner_report winners [] = (Done tt, lines) ->
  lines = [LineHeading; LineRule] ++ flat_map item_lines winners
          ++ [LineClosingRule; LineFinished; LineDeterministic].
Proof.
  unfold print_winner_report, pthen. intros H.
  apply pbind_Done in H. destruct H as ([] & o1 & H1 & H).
  apply pbind_Done in H. destruct H as ([] & o2 & H2 & H).
  apply pbind_Done in H. destruct H as ([] & o3 & H3 & H).
  apply print_categories_Done in H3.
  unfold pbind, print in *. cbn in H1, H2, H.
  injection H1 as <-. injection H2 as <-. injection H as <-.
  subst o3. cbn. now rewrite <- !app_assoc.
Qed.

(** A detail line of the report belongs to the lines of a winner. *)
Definition detail_line (l : Line F) : Prop :=
  match l with
  | LineWinningTx _ | LineHoldings _ _ | LineMetric _ | LineBreakdown _ _ => True
  | _ => False
  end.

Lemma detail_line_of_winner winners lines l :
  print_winner_report winners [] = (Done tt, lines) ->
  detail_line l ->
  (In l lines <->
   exists category d,
     In (category, Some d) winners /\ d <> [] /\ In l (winner_lines category d)).
Proof.
  intros H Hl. apply print_winner_report_Done in H. subst lines.
  rewrite !in_app_iff, in_flat_map. split.
  - intros [Hin|[(item & Hin & Hi)|Hin]].
    + destruct Hin as [<-|[<-|[]]]; destruct Hl.
    + destruct item as [category [[|p d]|]]; unfold item_lines in Hi;
        cbn [fst snd] in Hi.
      * destruct Hi as [<-|[<-|[]]]; destruct Hl.
      * destruct Hi as [<-|Hi]; [destruct Hl|].
        exists category, (p :: d). split; [exact Hin|]. split; [discriminate|exact Hi].
      * destruct Hi as [<-|[<-|[]]]; destruct Hl.
    + destruct Hin as [<-|[<-|[<-|[]]]]; destruct Hl.
  - intros (category & d & Hin & Hd & Hi). right. left.
    exists (category, Some d). split; [exact Hin|].
    destruct d as [|p d]; [congruence|]. right. exact Hi.
Qed.

Ltac line_cases :=
  unfold wallet_line, win_chance_line, category_line, tx_line, breakdown_line;
  repeat match goal with
         | |- context [match ?x with _ => _ end] => destruct x eqn:?
         end;
  cbn; intuition (try discriminate; try congruence).

Ltac other_lines l category d :=
  try assert (~ In l (wallet_line d)) by line_cases;
  try assert (~ In l (win_chance_line d)) by line_cases;
  try assert (~ In l (category_line category d)) by line_cases;
  try assert (~ In l (tx_line d)) by line_cases;
  try assert (~ In l (breakdown_line d)) by line_cases.

Lemma winner_lines_tx category d v :
  In (LineWinningTx v) (winner_lines category d)
  <-> Py.dict_get d "tx_signature" = Some v /\ value_truthy v = true.
Proof.
  unfold winner_lines. rewrite !in_app_iff.
  other_lines (LineWinningTx v) category d.
  assert (In (LineWinningTx v) (tx_line d)
          <-> Py.dict_get d "tx_signature" = Some v /\ value_truthy v = true)
    by line_cases.
  tauto.
Qed.

Lemma winner_lines_holdings category d f s :
  In (LineHoldings f s) (winner_lines category d)
  <-> category = "active_holder"
      /\ Py.dict_get_default d "final_balance" (VNum zero) = VNum f
      /\ Py.dict_get_default d "start_balance" (VNum zero) = VNum s.
Proof.
  unfold winner_lines. rewrite !in_app_iff.
  other_lines (LineHoldings f s) category d.
  assert (In (LineHoldings f s) (category_line category d)
          <-> category = "active_holder"
              /\ Py.dict_get_default d "final_balance" (VNum zero) = VNum f
              /\ Py.dict_get_default d "start_balance" (VNum zero) = VNum s).
  { unfold category_line.
    destruct (String.eqb_spec category "active_holder") as [E|E].
    - destruct (Py.dict_get_default d "final_balance" (VNum zero));
        destruct (Py.dict_get_default d "start_balance" (VNum zero));
        cbn; intuition (try discriminate; try congruence).
    - destruct (Py.dict_get d "metric") as [[x|x|]|];
        cbn; intuition (try discriminate; try congruence). }
  tauto.
Qed.

Lemma winner_lines_metric category d x :
  In (LineMetric x) (winner_lines category d)
  <-> category <> "active_holder" /\ Py.dict_get d "metric" = Some (VNum x).
Proof.
  unfold winner_lines. rewrite !in_app_iff.
  other_lines (LineMetric x) category d.
  assert (In (LineMetric x) (category_line category d)
          <-> category <> "active_holder"
              /\ Py.dict_get d "metric" = Some (VNum x)).
  { unfold category_line.
    destruct (String.eqb_spec category "active_holder") as [E|E].
    - destruct (Py.dict_get_default d "final_balance" (VNum zero));
        destruct (Py.dict_get_default d "start_balance" (VNum zero));
        cbn; intuition (try discriminate; try congruence).
    - destruct (Py.dict_get d "metric") as [[y|y|]|];
        cbn; intuition (try discriminate; try congruence). }
  tauto.
Qed.

Lemma winner_lines_breakdown category d b s :
  In (LineBreakdown b s) (winner_lines category d)
  <-> Py.dict_get d "buys" = Some (VNum b) /\ Py.dict_get d "sells" = Some (VNum s).
Proof.
  unfold winner_lines. rewrite !in_app_iff.
  other_lines (LineBreakdown b s) category d.
  assert (In (LineBreakdown b s) (breakdown_line d)
          <-> Py.dict_get d "buys" = Some (VNum b)
              /\ Py.dict_get d "sells" = Some (VNum s))
    by line_cases.
  tauto.
Qed.

(** X11. The detail lines of a report that was printed whole, whatever
    the dictionary of winners holds. The winning transaction is
    printed for a winner exactly when its dictionary has a
    [tx_signature] whose value is true: a string that is not empty,
    and a number that is not 0 as well. The holdings are printed for
    the winner of [active_holder], in place of its metric; the metric
    for a winner of another category that has one; the breakdown for
    a winner that has [buys]. *)
Theorem report_detail_lines
    (winners : list (string * option (Py.dict (Value F)))) lines :
  print_winner_report winners [] = (Done tt, lines) ->
  let winner category d := In (category, Some d) winners /\ d <> [] in
  (forall v, In (LineWinningTx v) lines <->
     exists category d,
       winner category d
       /\ Py.dict_get d "tx_signature" = Some v /\ value_truthy v = true)
  /\ (forall f s, In (LineHoldings f s) lines <->
        exists d,
          winner "active_holder" d
          /\ Py.dict_get_default d "final_balance" (VNum zero) = VNum f
          /\ Py.dict_get_default d "start_balance" (VNum zero) = VNum s)
  /\ (forall x, In (LineMetric x) lines <->
        exists category d,
          winner category d /\ category <> "active_holder"
          /\ Py.dict_get d "metric" = Some (VNum x))
  /\ (forall b s, In (LineBreakdown b s) lines <->
        exists category d,
          winner category d
          /\ Py.dict_get d "buys" = Some (VNum b)
          /\ Py.dict_get d "sells" = Some (VNum s)).
Proof.
  intros H winner. unfold winner.
  split; [|split; [|split]].
  - intros v. rewrite (@detail_line_of_winner winners lines (LineWinningTx v) H I).
    split; intros (category & d & Hin & Hl); exists category, d.
    + destruct Hl as [Hd Hl]. apply winner_lines_tx in Hl. tauto.
    + destruct Hin as [Hin Hd]. repeat split; auto.
      apply winner_lines_tx. tauto.
  - intros f s. rewrite (@detail_line_of_winner winners lines (LineHoldings f s) H I). split.
    + intros (category & d & Hin & Hd & Hl).
      apply winner_lines_holdings in Hl. destruct Hl as (-> & Hl).
      exists d. tauto.
    + intros (d & [Hin Hd] & Hl). exists "active_holder", d.
      repeat split; auto. apply winner_lines_holdings. tauto.
  - intros x. rewrite (@detail_line_of_winner winners lines (LineMetric x) H I).
    split; intros (category & d & Hin & Hl); exists category, d.
    + destruct Hl as [Hd Hl]. apply winner_lines_metric in Hl. tauto.
    + destruct Hin as [Hin Hd]. repeat split; auto.
      apply winner_lines_metric. tauto.
  - intros b s. rewrite (@detail_line_of_winner winners lines (LineBreakdown b s) H I).
    split; intros (category & d & Hin & Hl); exists category, d.
    + destruct Hl as [Hd Hl]. apply winner_lines_breakdown in Hl. tauto.
    + destruct Hin as [Hin Hd]. repeat split; auto.
      apply winner_lines_breakdown. tauto.
Qed.

(** The subscripts that the report guards with [in] never fail. *)
Definition unguarded (e : ReportExn) : Prop :=
  match e with
  | ReportKeyError key => key = "wallet" \/ key = "sells"
  | FormatTypeError | FormatValueError => True
  end.

Definition fails_unguarded {A : Type} (c : P (F := F) A) : Prop :=
  forall out e out', c out = (Failed e, out') -> unguarded e.

Lemma fails_unguarded_pret {A : Type} (a : A) : fails_unguarded (pret a).
Proof. intros out e out'. discriminate. Qed.

Lemma fails_unguarded_print l : fails_unguarded (print l).
Proof. intros out e out'. discriminate. Qed.

Lemma fails_unguarded_pbind {A B : Type} (c : P A) (k : A -> P B) :
  fails_unguarded c -> (forall a, fails_unguarded (k a)) ->
  fails_unguarded (pbind c k).
Proof.
  intros Hc Hk out e out'. unfold pbind.
  destruct (c out) as [[a|e0] out0] eqn:E.
  - apply Hk.
  - intros [= <- <-]. eapply Hc; eauto.
Qed.

Lemma fails_unguarded_format v : fails_unguarded (format_float v).
Proof. destruct v; intros out e out'; cbn; intros [= <- _]; exact I. Qed.

Lemma fails_unguarded_guarded d key :
  has_key d key = true -> fails_unguarded (subscript d key).
Proof.
  unfold has_key, subscript. destruct (Py.dict_get d key); [|discriminate].
  intros _. apply fails_unguarded_pret.
Qed.

Lemma fails_unguarded_subscript d key :
  key = "wallet" \/ key = "sells" -> fails_unguarded (subscript d key).
Proof.
  intros Hk. unfold subscript. destruct (Py.dict_get d key).
  - apply fails_unguarded_pret.
  - intros out e out'. cbn. intros [= <- _]. exact Hk.
Qed.

Ltac unguarded_steps :=
  repeat first
    [ apply fails_unguarded_pret
    | apply fails_unguarded_format
    | apply fails_unguarded_print
    | apply fails_unguarded_guarded; assumption
    | apply fails_unguarded_subscript; tauto
    | apply fails_unguarded_pbind
    | match goal with
      | |- forall _, _ => intro
      end
    | match goal with
      | |- fails_unguarded (if has_key ?d ?k then _ else _) =>
          let E := fresh "E" in destruct (has_key d k) eqn:E
      | |- fails_unguarded (if ?b then _ else _) => destruct b
      end ].

Lemma fails_unguarded_winner category d : fails_unguarded (print_winner category d).
Proof. unfold print_winner, pthen. unguarded_steps. Qed.

Lemma fails_unguarded_categories items : fails_unguarded (print_categories items).
Proof.
  induction items as [|[category winner_data] rest IH]; cbn.
  - apply fails_unguarded_pret.
  - unfold pthen. apply fails_unguarded_pbind; [|auto].
    apply fails_unguarded_pbind; [apply fails_unguarded_print|].
    intros _. destruct (winner_data_truthy winner_data).
    + destruct winner_data;
        [apply fails_unguarded_winner|apply fails_unguarded_pret].
    + apply fails_unguarded_print.
Qed.

(** X13. Whatever the dictionary of winners holds, a [KeyError] of the report
    is for ['wallet'] or for ['sells']: every other key is tested with
    [in], or read with [get], before it is used. *)
Theorem report_key_errors
    (winners : list (string * option (Py.dict (Value F)))) key lines :
  print_winner_report winners [] = (Failed (ReportKeyError key), lines) ->
  key = "wallet" \/ key = "sells".
Proof.
  intros H.
  assert (Hr : fails_unguarded (print_winner_report winners)).
  { unfold print_winner_report, pthen.
    repeat first [ apply fails_unguarded_pbind
                 | apply fails_unguarded_print
                 | apply fails_unguarded_categories
                 | intro ]. }
  exact (Hr _ _ _ H).
Qed.

End ReportFacts.

(** * The preparation: [prepare_data_for_calculation] *)

(** What [initial_balances_snapshot] holds under a key: a balance, or
    the start signature of the metadata ([None] when they have none). *)
Inductive BalanceEntry (F : Type) : Type :=
| Balance (amount : F)
| Signature (signature : option string).
Arguments Balance {F} amount.
Arguments Signature {F} signature.

(** The rows that [iterrows()] yields; [None] is a column that the
    table does not have. *)
Record BalanceRow (F : Type) : Type := {
  row_wallet : option string;
  row_amount : option F
}.

(** A row of [processed_swaps_df]: its wallet and what [to_dict()]
    gives the calculation. *)
Record SwapRow (F : Type) : Type := {
  swap_wallet : option string;
  swap_stat : CycleStat F
}.

(** The package, as loaded. The rows of [final_balances_df] have the
    columns [wallet] and [amount]. *)
Record Package (F : Type) : Type := {
  start_signature : option string;
  initial_balances_df : list (BalanceRow F);
  processed_swaps_df : list (SwapRow F);
  final_balances_df : list (string * F)
}.

Record CalculationInputs (F : Type) : Type := {
  prepared_token_holders : list (TokenHolder F);
  prepared_cycle_stats_snapshot : Py.dict (CycleStat F);
  prepared_initial_balances_snapshot : Py.dict (BalanceEntry F)
}.

(** The four lines that the preparation prints, with the counts they
    show. *)
Inductive PreparedLine : Type :=
| PreparedHeading
| PreparedInitialHolders (n : Z)
| PreparedTraders (n : nat)
| PreparedFinalHolders (n : nat).

Section Preparation.
Context {F : Type}.

(** [{key(row): value(row) for row in rows}], from the dictionary [d]
    on: the key is evaluated before the value. *)
Fixpoint dict_comprehension {R V : Type} (key : R -> Res string)
    (value : R -> Res V) (rows : list R) (d : Py.dict V) : Res (Py.dict V) :=
  match rows with
  | [] => Ok d
  | row :: rest =>
      match key row with
      | Raise e => Raise e
      | Ok k =>
          match value row with
          | Raise e => Raise e
          | Ok v => dict_comprehension key value rest (Py.dict_set d k v)
          end
      end
  end.

(** [rename(columns={'wallet': 'address'}).to_dict('records')] *)
Definition holder_records (rows : list (string * F)) : list (TokenHolder F) :=
  map (fun row => {| address := fst row; amount := snd row |}) rows.

Definition prepare_data_for_calculation (package : Package F)
    : Res (CalculationInputs F) * list PreparedLine :=
  match dict_comprehension
          (fun row => field "wallet" (row_wallet row))
          (fun row => res_map Balance (field "amount" (row_amount row)))
          (initial_balances_df package) [] with
  | Raise e => (Raise e, [])
  | Ok balances =>
      let initial_balances_snapshot :=
        Py.dict_set balances start_signature_key
          (Signature (start_signature package)) in
      match dict_comprehension
              (fun row => field "wallet" (swap_wallet row))
              (fun row => Ok (swap_stat row))
              (processed_swaps_df package) [] with
      | Raise e => (Raise e, [])
      | Ok cycle_stats_snapshot =>
          let token_holders := holder_records (final_balances_df package) in
          (Ok {| prepared_token_holders := token_holders;
                 prepared_cycle_stats_snapshot := cycle_stats_snapshot;
                 prepared_initial_balances_snapshot := initial_balances_snapshot |},
           [PreparedHeading;
            PreparedInitialHolders
              (Z.of_nat (length initial_balances_snapshot) - 1);
            PreparedTraders (length cycle_stats_snapshot);
            PreparedFinalHolders (length token_holders)])
      end
  end.
End Preparation.

(** ** Vocabulary *)

(** The last row of a table for a wallet. *)
Fixpoint last_row {R : Type} (wallet : R -> option string) (w : string)
    (rows : list R) : option R :=
  match rows with
  | [] => None
  | row :: rest =>
      match last_row wallet w rest with
      | Some r => Some r
      | None =>
          match wallet row with
          | Some w' => if String.eqb w' w then Some row else None
          | None => None
          end
      end
  end.

(** The wallets of a table, each once. *)
Definition distinct_wallets {R : Type} (wallet : R -> option string)
    (rows : list R) : list string :=
  nodup string_dec (flat_map (fun row => match wallet row with
                                         | Some w => [w]
                                         | None => []
                                         end) rows).

Section PreparationFacts.
Context {F : Type}.

Section Comprehension.
Context {R V : Type} (wallet : R -> option string) (value : R -> Res V).

Local Abbreviation key := (fun row : R => field "wallet" (wallet row)).

Lemma dict_comprehension_wf rows : forall (d d' : Py.dict V),
  dict_comprehension key value rows d = Ok d' -> dict_wf d -> dict_wf d'.
Proof.
  induction rows as [|row rest IH]; cbn; intros d d' H Hwf.
  - now injection H as <-.
  - destruct (wallet row) as [k|]; cbn in H; [|discriminate].
    destruct (value row) as [v|e]; [|discriminate].
    eapply IH; [exact H|]. now apply dict_set_wf.
Qed.

Lemma dict_comprehension_get rows : forall (d d' : Py.dict V) w,
  dict_comprehension key value rows d = Ok d' ->
  match last_row wallet w rows with
  | Some row => exists v, value row = Ok v /\ Py.dict_get d' w = Some v
  | None => Py.dict_get d' w = Py.dict_get d w
  end.
Proof.
  induction rows as [|row rest IH]; cbn; intros d d' w H.
  - now injection H as <-.
  - destruct (wallet row) as [k|] eqn:Ek; cbn in H; [|discriminate].
    destruct (value row) as [v|e] eqn:Ev; [|discriminate].
    specialize (IH _ _ w H).
    destruct (last_row wallet w rest) as [r|]; [exact IH|].
    rewrite IH, dict_get_set.
    rewrite (String.eqb_sym w k).
    destruct (String.eqb k w); [|reflexivity].
    exists v. auto.
Qed.

Lemma dict_comprehension_keys rows : forall (d d' : Py.dict V) w,
  dict_comprehension key value rows d = Ok d' ->
  (In w (Py.keys d') <->
   In w (Py.keys d)
   \/ In w (flat_map (fun row => match wallet row with
                                 | Some w => [w]
                                 | None => []
                                 end) rows)).
Proof.
  induction rows as [|row rest IH]; cbn; intros d d' w H.
  - injection H as <-. tauto.
  - destruct (wallet row) as [k|] eqn:Ek; cbn in H; [|discriminate].
    destruct (value row) as [v|e] eqn:Ev; [|discriminate].
    rewrite (IH _ _ w H), dict_set_keys. cbn. intuition congruence.
Qed.

Lemma dict_comprehension_length rows (d' : Py.dict V) :
  dict_comprehension key value rows [] = Ok d' ->
  length d' = length (distinct_wallets wallet rows).
Proof.
  intros H. unfold distinct_wallets.
  rewrite <- (length_map fst d'). apply Permutation_length.
  apply NoDup_Permutation.
  - eapply dict_comprehension_wf; [exact H|constructor].
  - apply NoDup_nodup.
  - intros w. rewrite nodup_In. fold (Py.keys d').
    etransitivity; [eapply dict_comprehension_keys; exact H|]. cbn. tauto.
Qed.

Lemma dict_comprehension_raises rows : forall (d : Py.dict V),
  (exists e, dict_comprehension key value rows d = Raise e) <->
  exists row, In row rows /\ (wallet row = None \/ exists e, value row = Raise e).
Proof.
  induction rows as [|row rest IH]; cbn; intros d.
  - split; [intros (e & H); discriminate|intros (r & [] & _)].
  - destruct (wallet row) as [k|] eqn:Ek; cbn.
    + destruct (value row) as [v|e] eqn:Ev.
      * rewrite IH. split.
        -- intros (r & Hin & Hr). exists r. auto.
        -- intros (r & [<-|Hin] & Hr).
           ++ destruct Hr as [Hr|(e & Hr)]; congruence.
           ++ exists r. auto.
      * split; [intros _|eauto]. exists row. split; [auto|]. right. eauto.
    + split; [intros _|eauto]. exists row. split; [auto|]. left. exact Ek.
Qed.
End Comprehension.


Lemma dict_set_length {V : Type} (d : Py.dict V) k v :
  length (Py.dict_set d k v)
  = match Py.dict_get d k with
    | Some _ => length d
    | None => S (length d)
    end.
Proof.
  induction d as [|[k' v'] tl IH]; cbn; [reflexivity|].
  destruct (String.eqb k k'); cbn; [reflexivity|].
  rewrite IH. now destruct (Py.dict_get tl k).
Qed.

Lemma remove_length_NoDup (x : string) (l : list string) :
  NoDup l -> In x l -> length l = S (length (remove string_dec x l)).
Proof.
  induction 1 as [|y l Hnotin Hnd IH]; cbn; [tauto|].
  destruct (string_dec x y) as [<-|Hne].
  - intros _. rewrite notin_remove by exact Hnotin. reflexivity.
  - intros [E|Hin]; [congruence|]. cbn. now rewrite IH.
Qed.

Lemma balance_value_Ok (row : BalanceRow F) v :
  res_map Balance (field "amount" (row_amount row)) = Ok v ->
  option_map Balance (row_amount row) = Some v.
Proof. destruct (row_amount row); cbn; congruence. Qed.

Lemma prepare_Ok_inv (package : Package F) inputs lines :
  prepare_data_for_calculation package = (Ok inputs, lines) ->
  exists balances,
    dict_comprehension
      (fun row => field "wallet" (row_wallet row))
      (fun row => res_map Balance (field "amount" (row_amount row)))
      (initial_balances_df package) [] = Ok balances
    /\ dict_comprehension
         (fun row => field "wallet" (swap_wallet row))
         (fun row => Ok (swap_stat row))
         (processed_swaps_df package) [] = Ok (prepared_cycle_stats_snapshot inputs)
    /\ prepared_initial_balances_snapshot inputs
       = Py.dict_set balances start_signature_key (Signature (start_signature package))
    /\ prepared_token_holders inputs = holder_records (final_balances_df package)
    /\ lines = [PreparedHeading;
                PreparedInitialHolders
                  (Z.of_nat (length (prepared_initial_balances_snapshot inputs)) - 1);
                PreparedTraders (length (prepared_cycle_stats_snapshot inputs));
                PreparedFinalHolders (length (prepared_token_holders inputs))].
Proof.
  unfold prepare_data_for_calculation.
  destruct (dict_comprehension _ _ (initial_balances_df package) [])
    as [balances|e]; [|discriminate].
  destruct (dict_comprehension _ _ (processed_swaps_df package) [])
    as [stats|e]; [|discriminate].
  intros [= <- <-]. exists balances. cbn. auto.
Qed.

(** X14. The dictionaries that the preparation builds: each has a wallet
    once, with what its last row says; the key [_start_signature] holds
    the signature of the metadata, also when the table has a row for a
    wallet of this name. *)
Theorem prepared_dictionaries (package : Package F) inputs lines :
  prepare_data_for_calculation package = (Ok inputs, lines) ->
  dict_wf (prepared_cycle_stats_snapshot inputs)
  /\ (forall w,
        Py.dict_get (prepared_cycle_stats_snapshot inputs) w
        = option_map (@swap_stat F)
            (last_row (@swap_wallet F) w (processed_swaps_df package)))
  /\ dict_wf (prepared_initial_balances_snapshot inputs)
  /\ Py.dict_get (prepared_initial_balances_snapshot inputs) start_signature_key
     = Some (Signature (start_signature package))
  /\ (forall w, w <> start_signature_key ->
        Py.dict_get (prepared_initial_balances_snapshot inputs) w
        = match last_row (@row_wallet F) w (initial_balances_df package) with
          | Some row => option_map Balance (row_amount row)
          | None => None
          end).
Proof.
  intros H. apply prepare_Ok_inv in H.
  destruct H as (balances & Hb & Hs & -> & _ & _).
  split; [|split; [|split; [|split]]].
  - eapply dict_comprehension_wf; [exact Hs|constructor].
  - intros w. pose proof (dict_comprehension_get _ _ _ _ w Hs) as Hg.
    destruct (last_row _ w (processed_swaps_df package)) as [row|]; cbn.
    + destruct Hg as (v & [= <-] & Hg). exact Hg.
    + exact Hg.
  - apply dict_set_wf. eapply dict_comprehension_wf; [exact Hb|constructor].
  - rewrite dict_get_set, String.eqb_refl. reflexivity.
  - intros w Hw. rewrite dict_get_set.
    destruct (String.eqb_spec w start_signature_key) as [E|_]; [contradiction|].
    pose proof (dict_comprehension_get _ _ _ _ w Hb) as Hg.
    destruct (last_row _ w (initial_balances_df package)) as [row|].
    + destruct Hg as (v & Hv & Hg). rewrite Hg. symmetry.
      now apply balance_value_Ok.
    + exact Hg.
Qed.

(** X15. The counts that the preparation prints: the distinct wallets of the
    starting balances other than [_start_signature], the distinct
    wallets of the statistics, the rows of the final balances. *)
Theorem prepared_counts (package : Package F) inputs lines :
  prepare_data_for_calculation package = (Ok inputs, lines) ->
  lines
  = [PreparedHeading;
     PreparedInitialHolders
       (Z.of_nat (length (remove string_dec start_signature_key
                            (distinct_wallets (@row_wallet F)
                               (initial_balances_df package)))));
     PreparedTraders
       (length (distinct_wallets (@swap_wallet F) (processed_swaps_df package)));
     PreparedFinalHolders (length (final_balances_df package))].
Proof.
  intros H. apply prepare_Ok_inv in H.
  destruct H as (balances & Hb & Hs & Hi & Ht & ->).
  rewrite Hi, Ht. unfold holder_records. rewrite length_map.
  rewrite (dict_comprehension_length _ _ _ Hs).
  f_equal. f_equal. f_equal.
  rewrite dict_set_length.
  pose proof (dict_comprehension_length _ _ _ Hb) as Hlen.
  assert (Hnd : NoDup (distinct_wallets (@row_wallet F) (initial_balances_df package)))
    by apply NoDup_nodup.
  assert (Hkeys : forall w, In w (Py.keys balances)
                            <-> In w (distinct_wallets (@row_wallet F)
                                        (initial_balances_df package))).
  { intros w. unfold distinct_wallets. rewrite nodup_In.
    etransitivity; [eapply dict_comprehension_keys; exact Hb|]. cbn. tauto. }
  destruct (Py.dict_get balances start_signature_key) as [v|] eqn:Eg.
  - assert (Hin : In start_signature_key (Py.keys balances)).
    { destruct (in_dec string_dec start_signature_key (Py.keys balances)) as [Hin|Hn];
        [exact Hin|]. apply dict_get_None in Hn. congruence. }
    apply Hkeys in Hin.
    rewrite Hlen, (@remove_length_NoDup start_signature_key _ Hnd Hin). lia.
  - apply dict_get_None in Eg.
    rewrite notin_remove by (intros Hin; apply Hkeys in Hin; contradiction).
    rewrite Hlen. lia.
Qed.

(** The comprehension stops at the first row whose key or value
    raises, with that exception. *)
Lemma dict_comprehension_first_raise {R V : Type} (key : R -> Res string)
    (value : R -> Res V) before row after e : forall (d : Py.dict V),
  Forall (fun r => (exists k, key r = Ok k) /\ exists v, value r = Ok v) before ->
  key row = Raise e \/ ((exists k, key row = Ok k) /\ value row = Raise e) ->
  dict_comprehension key value (before ++ row :: after) d = Raise e.
Proof.
  induction before as [|r rest IH]; intros d Hall Hrow; cbn.
  - destruct Hrow as [->|[(k & ->) ->]]; reflexivity.
  - inversion Hall as [|r0 l0 Hr Hrest]; subst.
    destruct Hr as [(k & Hk) (v & Hv)]. rewrite Hk, Hv. now apply IH.
Qed.

(** When the values never raise, the comprehension raises the
    exception of a key only. *)
Lemma dict_comprehension_key_error {R V : Type} (wallet : R -> option string)
    (value : R -> Res V) rows e : forall (d : Py.dict V),
  (forall row, exists v, value row = Ok v) ->
  dict_comprehension (fun row => field "wallet" (wallet row)) value rows d
  = Raise e ->
  e = KeyError "wallet".
Proof.
  induction rows as [|row rest IH]; cbn; intros d Hv; [discriminate|].
  destruct (wallet row); cbn; [|now intros [= <-]].
  destruct (Hv row) as (v & ->). now apply IH.
Qed.


End PreparationFacts.

(** * The loader: [load_verification_package] *)

Module Loader.

(** What the loader asks of the operating system and of the parsers:
    [os.path.isdir], [os.path.exists], [os.path.join],
    [os.path.basename], and the readers of the metadata and of a table,
    which return the parsed content or raise. *)
Record World (Metadata Table Failure : Type) : Type := {
  isdir : string -> bool;
  path_exists : string -> bool;
  path_join : string -> string -> string;
  basename : string -> string;
  json_load : string -> Metadata + Failure;
  read_parquet : string -> Table + Failure
}.

Inductive LoadExn (Failure : Type) : Type :=
| DirectoryNotFound (directory : string)   (* FileNotFoundError *)
| MissingFile (name : string)              (* FileNotFoundError *)
| ReadFailure (failure : Failure).
Arguments DirectoryNotFound {Failure} directory.
Arguments MissingFile {Failure} name.
Arguments ReadFailure {Failure} failure.

(** What the loader does that can be seen: the lines it prints and the
    files it opens. *)
Inductive Event : Type :=
| PrintLoading (name : string)
| PrintLoaded
| Opened (path : string).

Record Loaded (Metadata Table : Type) : Type := {
  metadata : Metadata;
  initial_balances_df : Table;
  processed_swaps_df : Table;
  final_balances_df : Table
}.

(** The file names of the dictionary [files], in its order. *)
Definition required_files : list string :=
  ["metadata.json"; "initial_balances.parquet"; "processed_swaps.parquet";
   "final_balances.parquet"].

Section Load.
Context {Metadata Table Failure : Type} (world : World Metadata Table Failure).

(** The loop over [files.items()]: the first path that does not exist. *)
Fixpoint first_missing (paths : list string) : option string :=
  match paths with
  | [] => None
  | path :: rest =>
      if path_exists world path then first_missing rest else Some path
  end.

Definition load_verification_package (directory : string)
    : (Loaded Metadata Table + LoadExn Failure) * list Event :=
  if negb (isdir world directory) then (inr (DirectoryNotFound directory), [])
  else
    let log0 := [PrintLoading (basename world directory)] in
    let metadata_path := path_join world directory "metadata.json" in
    let initial_path := path_join world directory "initial_balances.parquet" in
    let swaps_path := path_join world directory "processed_swaps.parquet" in
    let final_path := path_join world directory "final_balances.parquet" in
    match first_missing [metadata_path; initial_path; swaps_path; final_path] with
    | Some path => (inr (MissingFile (basename world path)), log0)
    | None =>
        let log1 := log0 ++ [Opened metadata_path] in
        match json_load world metadata_path with
        | inr f => (inr (ReadFailure f), log1)
        | inl meta =>
            let log2 := log1 ++ [Opened initial_path] in
            match read_parquet world initial_path with
            | inr f => (inr (ReadFailure f), log2)
            | inl initial_df =>
                let log3 := log2 ++ [Opened swaps_path] in
                match read_parquet world swaps_path with
                | inr f => (inr (ReadFailure f), log3)
                | inl swaps_df =>
                    let log4 := log3 ++ [Opened final_path] in
                    match read_parquet world final_path with
                    | inr f => (inr (ReadFailure f), log4)
                    | inl final_df =>
                        (inl {| metadata := meta;
                                initial_balances_df := initial_df;
                                processed_swaps_df := swaps_df;
                                final_balances_df := final_df |},
                         log4 ++ [PrintLoaded])
                    end
                end
            end
        end
    end.

Lemma first_missing_None paths :
  first_missing paths = None <-> Forall (fun p => path_exists world p = true) paths.
Proof.
  induction paths as [|p rest IH]; cbn.
  - split; auto.
  - destruct (path_exists world p) eqn:E.
    + rewrite IH. split; [now constructor|now inversion 1].
    + split; [discriminate|]. inversion 1. congruence.
Qed.

Lemma first_missing_Some paths path :
  first_missing paths = Some path ->
  exists before after,
    paths = before ++ path :: after
    /\ Forall (fun p => path_exists world p = true) before
    /\ path_exists world path = false.
Proof.
  induction paths as [|p rest IH]; cbn; [discriminate|].
  destruct (path_exists world p) eqn:E.
  - intros H. destruct (IH H) as (before & after & -> & Hb & Hp).
    exists (p :: before), after. repeat split; auto.
  - intros [= <-]. exists [], rest. repeat split; auto.
Qed.

(** X17. The loader opens a file only when the directory and its four files
    exist. Without the directory it raises before it prints; when a file
    is missing it raises for the first one missing in the order of
    [required_files], having opened nothing. *)
Theorem load_checks_before_reading (directory : string) :
  let outcome := load_verification_package directory in
  let paths := map (path_join world directory) required_files in
  ((exists path, In (Opened path) (snd outcome)) ->
   isdir world directory = true
   /\ Forall (fun p => path_exists world p = true) paths)
  /\ (isdir world directory = false ->
      outcome = (inr (DirectoryNotFound directory), []))
  /\ (isdir world directory = true ->
      forall before path after,
        paths = before ++ path :: after ->
        Forall (fun p => path_exists world p = true) before ->
        path_exists world path = false ->
        outcome = (inr (MissingFile (basename world path)),
                   [PrintLoading (basename world directory)]))
  /\ (forall package, fst outcome = inl package ->
        snd outcome
        = PrintLoading (basename world directory)
          :: map Opened paths ++ [PrintLoaded]).
Proof.
  cbv zeta. unfold load_verification_package, required_files. cbn [map].
  destruct (isdir world directory) eqn:Hdir; cbn [negb].
  2:{ split; [intros (p & [])|]. split; [reflexivity|].
      split; [discriminate|]. cbn. discriminate. }
  destruct (first_missing _) as [missing|] eqn:Hm.
  - apply first_missing_Some in Hm.
    destruct Hm as (before & after & Hsplit & Hb & Hp).
    split.
    { intros (p & [E|[]]). discriminate. }
    split; [discriminate|]. split; [|cbn; discriminate].
    intros _ before' path' after' Hsplit' Hb' Hp'.
    assert (E : missing = path').
    { rewrite Hsplit in Hsplit'. clear Hsplit.
      revert before' Hsplit' Hb'.
      induction Hb as [|b before Hbx Hb IH]; intros [|b' before'] Hs Hb';
        cbn in Hs.
      - congruence.
      - injection Hs as -> _. inversion Hb'; congruence.
      - injection Hs as -> _. congruence.
      - injection Hs as -> Hs. inversion Hb'; subst. eapply IH; eauto. }
    now subst.
  - apply first_missing_None in Hm.
    split; [intros _; auto|]. split; [discriminate|]. split.
    + intros _ before path after Hsplit _ Hp. exfalso.
      rewrite Hsplit in Hm. apply Forall_app in Hm. destruct Hm as [_ Hm].
      inversion Hm. congruence.
    + intros package.
      destruct (json_load world _); [|discriminate].
      destruct (read_parquet world _); [|discriminate].
      destruct (read_parquet world _); [|discriminate].
      destruct (read_parquet world _); [|discriminate].
      reflexivity.
Qed.
End Load.

End Loader.

(** * Further properties on concrete packages *)

Section MoreRuns.
Import Packages.
Local Open Scope Q_scope.

(** ** Exact arithmetic *)

Lemma scan_reaches (r : Q) (participants : list (string * Q)) : forall upto,
  participants <> [] ->
  r <= fold_left Qplus (map snd participants) upto ->
  exists item, scan r upto participants = Some item.
Proof.
  induction participants as [|[item weight] rest IH]; intros upto Hne Hr;
    [congruence|].
  cbn in *. destruct (Qle_bool r (upto + weight)) eqn:E; [eauto|].
  destruct rest as [|p rest'].
  - cbn in Hr. apply Qle_bool_iff in Hr. congruence.
  - apply IH; [discriminate|exact Hr].
Qed.

(** X9. Over the rationals, with a generator whose [random()] lies in
    [[0, 1)] and a positive total weight, the loop of [_weighted_choice]
    always returns from the inside: the participant returned after the
    loop only serves the rounding of floats. *)
Theorem exact_draw_needs_no_fallback {G : Type} (rng : Generator Q G)
    (participants : list (string * Q)) (st : St Q G) :
  0 <= fst (rng_random (gen st)) < 1 ->
  0 < sum (map snd participants) ->
  exists item,
    scan (0 + (sum (map snd participants) - 0) * fst (rng_random (gen st))) 0
      participants = Some item
    /\ fst (_weighted_choice participants st) = Ok (Some item).
Proof.
  intros Hu Ht.
  destruct participants as [|p rest]; [cbn in Ht; lra|].
  set (total := sum (map snd (p :: rest))) in *.
  destruct (@scan_reaches (0 + (total - 0) * fst (rng_random (gen st)))
              (p :: rest) 0) as (item & Hitem).
  { discriminate. }
  { change (fold_left Qplus (map snd (p :: rest)) 0) with total. nra. }
  exists item. split; [exact Hitem|].
  assert (E : eqb total zero = false).
  { change (Qeq_bool total 0 = false).
    destruct (Qeq_bool total 0) eqn:E; [|reflexivity].
    apply Qeq_bool_iff in E. lra. }
  unfold _weighted_choice. cbv beta iota zeta. fold total. rewrite E.
  unfold bind, random_uniform.
  destruct (rng_random (gen st)) as [u g']. cbn [fst] in Hitem.
  change (scan (add zero (mul (sub total zero) u)) zero (p :: rest))
    with (scan (0 + (total - 0) * u) 0 (p :: rest)).
  rewrite Hitem. reflexivity.
Qed.

Lemma exact_draw_needs_no_fallback_witness :
  exists item,
    fst (_weighted_choice [("a", 1 # 1); ("b", 3 # 1)]
           {| gen := 5%N; calls := [] |}) = Ok (Some item).
Proof.
  destruct (exact_draw_needs_no_fallback LcgGenerator
              [("a", 1 # 1); ("b", 3 # 1)] {| gen := 5%N; calls := [] |})
    as (item & _ & H).
  - cbn. split; [discriminate|reflexivity].
  - reflexivity.
  - exists item. exact H.
Defined.

(** ** Witnesses on the packages *)

Lemma winner_record_fields_witness :
  exists res st,
    run insertion_order 0%N Scenario.token_holders Scenario.cycle_stats_snapshot
      Scenario.initial_balances_snapshot "test" Scenario.rules = (Ok res, st)
    /\ forall r, lottery res = Some r ->
         final_balance Scenario.token_holders (lot_wallet r) = Some (lot_metric r).
Proof.
  do 2 eexists. split; [vm_compute; reflexivity|].
  eapply (winner_record_fields insertion_order 0%N Scenario.token_holders
            Scenario.cycle_stats_snapshot Scenario.initial_balances_snapshot
            "test" Scenario.rules).
  vm_compute. reflexivity.
Defined.

Lemma run_raises_only_field_errors_witness :
  exists name,
    fst (run insertion_order 0%N MissingField.token_holders MissingField.held []
           "test" rules_10_25) = Raise (KeyError name)
    /\ In name field_names.
Proof.
  destruct (run_raises_only_field_errors insertion_order 0%N
              MissingField.token_holders MissingField.held [] "test" rules_10_25)
    as (H & _).
  destruct (H (KeyError "largest_buy")) as (name & He & Hin);
    [vm_compute; reflexivity|].
  exists name. split; [|exact Hin].
  rewrite <- He. vm_compute. reflexivity.
Defined.

(** A wallet listed twice: only its last entry counts. *)
Lemma token_holders_read_as_mapping_witness :
  run insertion_order 0%N
    [holder "A" (5 # 1); holder "B" (50 # 1); holder "A" (100 # 1)]
    Scenario.cycle_stats_snapshot Scenario.initial_balances_snapshot
    "test" Scenario.rules
  = run insertion_order 0%N
      [holder "B" (50 # 1); holder "A" (100 # 1)]
      Scenario.cycle_stats_snapshot Scenario.initial_balances_snapshot
      "test" Scenario.rules.
Proof.
  apply token_holders_read_as_mapping.
  intros w. cbn -[String.eqb].
  destruct (String.eqb "A" w), (String.eqb "B" w); reflexivity.
Defined.

Lemma dict_order_irrelevant_witness :
  run insertion_order 0%N Scenario.token_holders
    Scenario.cycle_stats_snapshot Scenario.initial_balances_snapshot
    "test" Scenario.rules
  = run insertion_order 0%N Scenario.token_holders
      (rev Scenario.cycle_stats_snapshot) (rev Scenario.initial_balances_snapshot)
      "test" Scenario.rules.
Proof.
  apply dict_order_irrelevant.
  - exact scenario_stats_wf.
  - apply Permutation_rev.
  - unfold dict_wf, Py.keys. cbn.
    repeat (constructor; [cbn; intuition discriminate|]). constructor.
  - apply Permutation_rev.
Defined.

Lemma ineligible_rows_unread_witness :
  run insertion_order 0%N MissingField.token_holders MissingField.sold []
    "test" rules_10_25
  = run insertion_order 0%N MissingField.token_holders
      [("X", row (30 # 1) (5 # 1) None (30 # 1) 0)] [] "test" rules_10_25.
Proof.
  apply ineligible_rows_unread.
  constructor; [|constructor].
  split; [reflexivity|]. cbn. intros [E|[]]. discriminate.
Defined.

Lemma records_follow_participants_witness :
  exists pb vk res st,
    power_buyer_participants Scenario.eligible Scenario.cycle_stats_snapshot = Ok pb
    /\ volume_king_participants Scenario.eligible Scenario.cycle_stats_snapshot
         Scenario.rules = Ok vk
    /\ run insertion_order 0%N Scenario.token_holders Scenario.cycle_stats_snapshot
         Scenario.initial_balances_snapshot "test" Scenario.rules = (Ok res, st)
    /\ (power_buyer res = None <-> pb = [])
    /\ (volume_king res = None <-> vk = []).
Proof.
  destruct (records_follow_participants insertion_order 0%N Scenario.token_holders
              Scenario.initial_balances_snapshot "test" Scenario.rules
              scenario_stats_wf)
    as (pb & vk & res & st & H1 & H2 & H3 & H4 & H5 & _).
  - intros w s [E|[E|[]]] _; injection E as <- <-;
      unfold complete; cbn; repeat split; discriminate.
  - cbn. intros [E|[E|[]]]; discriminate.
  - exists pb, vk, res, st. auto.
Defined.

(** Witness of X11: the report of a winner of Power Buyer whose
    [tx_signature] is a number that is not 0, and of a lottery without
    winner. *)
Lemma report_detail_lines_witness :
  exists lines,
    print_winner_report
      [("power_buyer",
        Some [("wallet", VStr "A"); ("metric", VNum (5 # 1));
              ("tx_signature", VNum (1 # 1));
              ("win_chance_percent", VNum (100 # 1))]);
       ("lottery", None)] []
    = (Done tt, lines)
    /\ In (LineWinningTx (VNum (1 # 1))) lines
    /\ In (LineMetric (5 # 1)) lines
    /\ ~ (exists f s, In (LineHoldings f s) lines).
Proof.
  set (winners := [("power_buyer",
                     Some [("wallet", VStr "A"); ("metric", VNum (5 # 1));
                           ("tx_signature", VNum (1 # 1));
                           ("win_chance_percent", VNum (100 # 1))]);
                    ("lottery", None)]).
  assert (H : print_winner_report winners []
              = (Done tt, snd (print_winner_report winners [])))
    by (vm_compute; reflexivity).
  exists (snd (print_winner_report winners [])). split; [exact H|].
  destruct (@report_detail_lines _ _ winners _ H) as (Htx & Hh & Hm & _).
  split; [|split].
  - apply Htx. do 2 eexists. split; [split; [now left|discriminate]|].
    split; reflexivity.
  - apply Hm. do 2 eexists. split; [split; [now left|discriminate]|].
    split; [discriminate|reflexivity].
  - intros (f & s & Hin). apply Hh in Hin.
    destruct Hin as (d & [[H'|[H'|[]]] _] & _); discriminate.
Defined.

(** A winner with [buys] and without [sells]. *)
Lemma report_key_errors_witness :
  exists lines,
    print_winner_report
      [("volume_king", Some [("wallet", VStr "a"); ("buys", VNum (1 # 1))])] []
    = (Failed (ReportKeyError "sells"), lines)
    /\ ("sells" = "wallet" \/ "sells" = "sells").
Proof.
  eexists. split; [vm_compute; reflexivity|].
  eapply (report_key_errors
            [("volume_king", Some [("wallet", VStr "a"); ("buys", VNum (1 # 1))])]).
  vm_compute. reflexivity.
Defined.

(** A package whose starting balances list a wallet twice, and a wallet
    named as the key of the signature. *)
Definition small_package : Package Q :=
  {| start_signature := Some "sig";
     initial_balances_df :=
       [ {| row_wallet := Some "A"; row_amount := Some (80 # 1) |};
         {| row_wallet := Some "_start_signature"; row_amount := Some (7 # 1) |};
         {| row_wallet := Some "A"; row_amount := Some (90 # 1) |} ];
     processed_swaps_df :=
       [ {| swap_wallet := Some "A";
            swap_stat := row (20 # 1) (5 # 1) None (20 # 1) 0 |} ];
     final_balances_df := [("A", 100 # 1); ("B", 50 # 1)] |}.

Lemma prepared_dictionaries_witness :
  exists inputs lines,
    prepare_data_for_calculation small_package = (Ok inputs, lines)
    /\ dict_wf (prepared_cycle_stats_snapshot inputs)
    /\ Py.dict_get (prepared_initial_balances_snapshot inputs) start_signature_key
       = Some (Signature (Some "sig"))
    /\ Py.dict_get (prepared_initial_balances_snapshot inputs) "A"
       = Some (Balance (90 # 1)).
Proof.
  do 2 eexists. split; [vm_compute; reflexivity|].
  edestruct (prepared_dictionaries small_package) as (H1 & _ & _ & H4 & H5).
  { vm_compute. reflexivity. }
  split; [exact H1|]. split; [exact H4|].
  rewrite H5 by discriminate. reflexivity.
Defined.

Lemma prepared_counts_witness :
  exists inputs lines,
    prepare_data_for_calculation small_package = (Ok inputs, lines)
    /\ lines = [PreparedHeading; PreparedInitialHolders 1; PreparedTraders 1;
                PreparedFinalHolders 2].
Proof.
  destruct (prepare_data_for_calculation small_package) as [[inputs|e] lines] eqn:H;
    [|vm_compute in H; discriminate H].
  exists inputs, lines. split; [reflexivity|].
  rewrite (prepared_counts small_package H). reflexivity.
Defined.

(** A directory that lacks the table of the statistics. *)
Definition world_without_swaps : Loader.World unit unit unit :=
  {| Loader.isdir := fun _ => true;
     Loader.path_exists :=
       fun p => negb (String.eqb p "pkg/processed_swaps.parquet");
     Loader.path_join := fun d n => String.append d (String.append "/" n);
     Loader.basename := fun p => p;
     Loader.json_load := fun _ => inl tt;
     Loader.read_parquet := fun _ => inl tt |}.

Lemma load_checks_before_reading_witness :
  Loader.load_verification_package world_without_swaps "pkg"
  = (inr (Loader.MissingFile "pkg/processed_swaps.parquet"),
     [Loader.PrintLoading "pkg"]).
Proof.
  destruct (Loader.load_checks_before_reading world_without_swaps "pkg")
    as (_ & _ & H & _).
  apply (H eq_refl ["pkg/metadata.json"; "pkg/initial_balances.parquet"]
           "pkg/processed_swaps.parquet" ["pkg/final_balances.parquet"]).
  - reflexivity.
  - repeat constructor.
  - reflexivity.
Defined.
End MoreRuns.
